(** * ForexJoey: fusion, signal construction and reflection

    A shallow embedding of the decision pipeline of ForexJoey:

    - [Technical]        src/ai-engine/services/technical.py
    - [Sentiment]        src/ai-engine/services/sentiment_integration.py
    - [AiEngine]         src/ai-engine/services/ai_engine.py
    - [ReflectionEngine] src/backend/app/db/reflection.py
    - [EconomicCalendar] src/ai-engine/services/economic_calendar.py
    - [SentimentAnalyzer] src/ai-engine/services/sentiment.py
    - [SentimentIntegration], [Pipeline]: the entry points of
      sentiment_integration.py and ai_engine.py

    Numbers.  Python floats are idealised as exact rationals ([Q], compared
    with [==]): rounding is not modelled.  The cells of the indicator frame
    are numpy floats, whose division by zero yields an infinity or NaN
    instead of raising; these are modelled by [npfloat], rationals extended
    with the two infinities and NaN.

    Dictionaries whose keys are fixed by the code are records whose optional
    keys are [option] fields; dictionaries used as maps are [gmap]s, or
    association lists where Python's insertion order is observable.  Text
    that is produced by formatting a float ([summary], the [interpretation]
    of a factor) and wall-clock stamps are left out of the records. *)

From Stdlib Require Import QArith Qabs Lqa ZArith Lia.
From stdpp Require Import gmap strings list.

(** ** Python values shared by the modules *)

Module Py.

Local Open Scope Q_scope.

(** The exceptions the modelled code can raise. *)
Inductive exn :=
| KeyError (key : string)
| IndexError
| AttributeError
| ZeroDivisionError
| ValueError.

(** The outcome of a call: a value, or an exception that reaches the caller. *)
Inductive result (A : Type) :=
| Ret (a : A)
| Raise (e : exn).
Arguments Ret {A} a.
Arguments Raise {A} e.

Definition rbind {A B} (r : result A) (k : A -> result B) : result B :=
  match r with
  | Ret a => k a
  | Raise e => Raise e
  end.

(** Comparisons of floats, as booleans. *)
Definition Qltb (x y : Q) : bool := negb (Qle_bool y x).
Definition Qgtb (x y : Q) : bool := Qltb y x.
Definition Qleb (x y : Q) : bool := Qle_bool x y.
Definition Qgeb (x y : Q) : bool := Qle_bool y x.

(** [min(x, y)]: the first argument unless the second is smaller. *)
Definition Qmin (x y : Q) : Q := if Qltb y x then y else x.

(** [x / y] on Python floats raises when [y] is zero. *)
Definition truediv (x y : Q) : result Q :=
  if Qeq_bool y 0 then Raise ZeroDivisionError else Ret (x / y).

(** [sum(l)] and [len(l)] of a list of floats. *)
Definition sum (l : list Q) : Q := fold_left Qplus l 0.
Definition len {A} (l : list A) : Q := inject_Z (Z.of_nat (length l)).

(** An element of a factor list as it travels between the stages: a factor
    dictionary, whose [name] and [value] keys may be missing, or a bare
    string (the reasoning service is asked for "lists of important
    factors" and may answer with strings). *)
Inductive jelem :=
| JDict (name : option string) (value : option Q)
| JStr (s : string).

End Py.

(** ** ai_engine.py *)

Module AiEngine.
Import Py.
Local Open Scope Q_scope.

(** The dictionary every analysis source returns.  [fallback_combine_analyses]
    reads all three keys with [.get], so each may be missing. *)
Record analysis := {
  direction : option string;
  confidence_score : option Q;
  factors : option (list jelem)
}.

(** The combined decision (the dictionary returned by [combine_analyses]). *)
Record combined_analysis := {
  ca_currency_pair : string;
  ca_timeframe : string;
  ca_direction : string;
  ca_confidence_score : Q;
  ca_technical_factors : option (list jelem);
  ca_fundamental_factors : list jelem;
  ca_sentiment_factors : list jelem;
  ca_economic_factors : list jelem;
  ca_reasoning : string
}.

(** [direction_map = {"BUY": 1, "NEUTRAL": 0, "SELL": -1}] *)
Definition direction_map : gmap string Z :=
  <["BUY" := 1%Z]> (<["NEUTRAL" := 0%Z]> (<["SELL" := (-1)%Z]> ∅)).

(** [direction_map.get(d, 0)] *)
Definition direction_value (d : string) : Z :=
  default 0%Z (direction_map !! d).

(** [weights = {"technical": 0.4, "fundamental": 0.3, "sentiment": 0.15,
    "economic": 0.15}], a literal of the function body. *)
Definition weights : gmap string Q :=
  <["technical" := 0.4]> (<["fundamental" := 0.3]>
    (<["sentiment" := 0.15]> (<["economic" := 0.15]> ∅))).

(** [weights[k]] for a key of the literal. *)
Definition weight (k : string) : Q := default 0 (weights !! k).

(** Lines 173-193: the weighted vote. *)
Definition combined_value (technical_analysis fundamental_analysis
    sentiment_analysis economic_analysis : analysis) : Q :=
  let tech_direction := default "NEUTRAL" (direction technical_analysis) in
  let fund_direction := default "NEUTRAL" (direction fundamental_analysis) in
  let sent_direction := default "NEUTRAL" (direction sentiment_analysis) in
  let econ_direction := default "NEUTRAL" (direction economic_analysis) in
  let tech_value := direction_value tech_direction in
  let fund_value := direction_value fund_direction in
  let sent_value := direction_value sent_direction in
  let econ_value := direction_value econ_direction in
  inject_Z tech_value * weight "technical" +
  inject_Z fund_value * weight "fundamental" +
  inject_Z sent_value * weight "sentiment" +
  inject_Z econ_value * weight "economic".

(** Lines 195-201. *)
Definition direction_of (combined_value : Q) : string :=
  if Qgtb combined_value 0.2 then "BUY"
  else if Qltb combined_value (-0.2) then "SELL"
  else "NEUTRAL".

(** One [if x_direction == direction: confidence_factors.append(...)]. *)
Definition agreeing (a : analysis) (direction0 : string) : list Q :=
  if String.eqb (default "NEUTRAL" (direction a)) direction0
  then [default 0.5 (confidence_score a)]
  else [].

(** Lines 203-212. *)
Definition confidence_factors (technical_analysis fundamental_analysis
    sentiment_analysis economic_analysis : analysis) (direction0 : string)
    : list Q :=
  agreeing technical_analysis direction0 ++
  agreeing fundamental_analysis direction0 ++
  agreeing sentiment_analysis direction0 ++
  agreeing economic_analysis direction0.

(** Line 214.  The list is non-empty when it is divided by its length. *)
Definition mean_or_half (l : list Q) : Q :=
  match l with
  | [] => 0.5
  | _ => sum l / len l
  end.

Definition reasoning_text (t f s e : string) : string :=
  "Technical analysis indicates " +:+ t +:+
  ", fundamental analysis indicates " +:+ f +:+
  ", sentiment analysis indicates " +:+ s +:+
  ", and economic calendar analysis indicates " +:+ e +:+ ".".

Definition fallback_combine_analyses (currency_pair timeframe : string)
    (technical_analysis fundamental_analysis sentiment_analysis
     economic_analysis : analysis) : combined_analysis :=
  let tech_direction := default "NEUTRAL" (direction technical_analysis) in
  let fund_direction := default "NEUTRAL" (direction fundamental_analysis) in
  let sent_direction := default "NEUTRAL" (direction sentiment_analysis) in
  let econ_direction := default "NEUTRAL" (direction economic_analysis) in
  let combined := combined_value technical_analysis fundamental_analysis
                    sentiment_analysis economic_analysis in
  let direction0 := direction_of combined in
  let confidence := mean_or_half
        (confidence_factors technical_analysis fundamental_analysis
           sentiment_analysis economic_analysis direction0) in
  {| ca_currency_pair := currency_pair;
     ca_timeframe := timeframe;
     ca_direction := direction0;
     ca_confidence_score := confidence;
     ca_technical_factors := Some (default [] (factors technical_analysis));
     ca_fundamental_factors := default [] (factors fundamental_analysis);
     ca_sentiment_factors := default [] (factors sentiment_analysis);
     ca_economic_factors := default [] (factors economic_analysis);
     ca_reasoning := reasoning_text tech_direction fund_direction
                       sent_direction econ_direction |}.

(** The dictionary returned by [generate_trading_signal] when
    ["generate"] is [True].  ["id"] is only present on stored signals. *)
Record signal := {
  sg_id : option string;
  sg_currency_pair : string;
  sg_direction : string;
  sg_timeframe : string;
  sg_entry_price : Q;
  sg_stop_loss : Q;
  sg_take_profit : Q;
  sg_risk_reward_ratio : Q;
  sg_confidence_score : Q;
  sg_expected_duration : string;
  sg_technical_factors : list jelem;
  sg_fundamental_factors : list jelem;
  sg_economic_events : list jelem;
  sg_ai_reasoning : string
}.

(** [{"generate": False, ...}] or [{"generate": True, ...}]. *)
Inductive signal_result :=
| NoSignal
| Generated (s : signal).

(** [current_price], with its ["ask"] and ["bid"]. *)
Record price := { ask : Q; bid : Q }.

(** ["atr" in l]: list membership compares each element with the string;
    a dictionary is never equal to a string. *)
Definition is_str_atr (e : jelem) : bool :=
  match e with
  | JStr s => String.eqb s "atr"
  | JDict _ _ => false
  end.

Definition contains_atr (l : list jelem) : bool := existsb is_str_atr l.

(** [next((f for f in l if f.get("name") == "atr"), {}).get("value", 0)]:
    the generator calls [.get] on every element up to the first match, and
    a string has no [.get]. *)
Fixpoint next_atr_value (l : list jelem) : result Q :=
  match l with
  | [] => Ret 0
  | JStr _ :: _ => Raise AttributeError
  | JDict name value :: l' =>
      match name with
      | Some n => if String.eqb n "atr" then Ret (default 0 value)
                  else next_atr_value l'
      | None => next_atr_value l'
      end
  end.

(** Lines 258-265: the volatility unit. *)
Definition volatility_unit (ca : combined_analysis) (entry_price : Q)
    : result Q :=
  if contains_atr (default [] (ca_technical_factors ca)) then
    match ca_technical_factors ca with
    | None => Raise (KeyError "technical_factors")
    | Some l =>
        rbind (next_atr_value l) (fun atr =>
        if Qeq_bool atr 0 then Ret (entry_price * 0.005) else Ret atr)
    end
  else Ret (entry_price * 0.005).

(** Lines 280-288. *)
Definition timeframe_duration_map : gmap string string :=
  <["M15" := "2-8 hours"]> (<["H1" := "1-2 days"]> (<["H4" := "2-5 days"]>
    (<["D1" := "1-3 weeks"]> (<["W1" := "3-8 weeks"]> ∅)))).

(** Lines 275-278. *)
Definition risk_reward (entry_price stop_loss take_profit : Q) : result Q :=
  let risk := Qabs (entry_price - stop_loss) in
  let reward := Qabs (take_profit - entry_price) in
  if Qgtb risk 0 then truediv reward risk else Ret 0.

Definition generate_trading_signal (currency_pair timeframe : string)
    (ca : combined_analysis) (current_price : price) : result signal_result :=
  let direction0 := ca_direction ca in
  if String.eqb direction0 "NEUTRAL" || Qltb (ca_confidence_score ca) 0.65
  then Ret NoSignal
  else
    let entry_price :=
      if String.eqb direction0 "BUY" then ask current_price
      else bid current_price in
    rbind (volatility_unit ca entry_price) (fun atr =>
    let stop_loss :=
      if String.eqb direction0 "BUY" then entry_price - atr * 1.5
      else entry_price + atr * 1.5 in
    let take_profit :=
      if String.eqb direction0 "BUY" then entry_price + atr * 2.5
      else entry_price - atr * 2.5 in
    rbind (risk_reward entry_price stop_loss take_profit)
      (fun risk_reward_ratio =>
    let expected_duration :=
      default "Unknown" (timeframe_duration_map !! timeframe) in
    match ca_technical_factors ca with
    | None => Raise (KeyError "technical_factors")
    | Some technical_factors =>
        Ret (Generated
          {| sg_id := None;
             sg_currency_pair := currency_pair;
             sg_direction := direction0;
             sg_timeframe := timeframe;
             sg_entry_price := entry_price;
             sg_stop_loss := stop_loss;
             sg_take_profit := take_profit;
             sg_risk_reward_ratio := risk_reward_ratio;
             sg_confidence_score := ca_confidence_score ca;
             sg_expected_duration := expected_duration;
             sg_technical_factors := technical_factors;
             sg_fundamental_factors := ca_fundamental_factors ca;
             sg_economic_events := ca_economic_factors ca;
             sg_ai_reasoning := ca_reasoning ca |})
    end)).

(** [actual_outcome], read with [.get("exit_price", 0)]. *)
Record actual_outcome := { exit_price : option Q }.

(** The keys both return paths of [reflect_on_signal_outcome] compute
    without the reasoning service. *)
Record reflection := {
  rf_signal_id : string;
  rf_currency_pair : string;
  rf_timeframe : string;
  was_successful : bool;
  profit_loss_pips : Q
}.

(** Lines 322-331: the locals [profit_loss_pips] and [was_successful]. *)
Definition outcome_metrics (s : signal) (o : actual_outcome) : Q * bool :=
  let exit_price0 := default 0 (exit_price o) in
  if String.eqb (sg_direction s) "BUY"
  then ((exit_price0 - sg_entry_price s) * 10000,
        Qgeb exit_price0 (sg_entry_price s))
  else ((sg_entry_price s - exit_price0) * 10000,
        Qleb exit_price0 (sg_entry_price s)).

(** Lines 338-361: the prompt.  It is an f-string, and the JSON template at
    its end is written with single braces: that makes a replacement field
    of the expression ["analysis"] with the rest of the template as its
    format specification, which no string accepts.  Formatting the prompt
    raises [ValueError], whatever the other fields hold. *)
Definition user_message (s : signal) (o : actual_outcome)
    (was_successful0 : bool) (profit_loss_pips0 : Q) : result string :=
  Raise ValueError.

(** [reflect_on_signal_outcome].  The prompt is built before the [try] of
    line 363, so nothing catches its exception; the dictionary of lines
    380-384 / 396-400 would follow. *)
Definition reflect_on_signal_outcome (s : signal) (o : actual_outcome)
    : result reflection :=
  let '(pips, ok) := outcome_metrics s o in
  rbind (user_message s o ok pips) (fun _ =>
  Ret {| rf_signal_id := default "unknown" (sg_id s);
         rf_currency_pair := sg_currency_pair s;
         rf_timeframe := sg_timeframe s;
         was_successful := ok;
         profit_loss_pips := pips |}).

End AiEngine.

(** ** backend/app/db/reflection.py *)

Module ReflectionEngine.
Import Py.
Local Open Scope Q_scope.

(** A [Dict[str, float]] whose insertion order is kept: [d.get(k)] and
    [d[k] = v] (an existing key keeps its place, a new key goes last). *)
Fixpoint dict_get {V} (k : string) (d : list (string * V)) : option V :=
  match d with
  | [] => None
  | (k', v) :: d' => if String.eqb k' k then Some v else dict_get k d'
  end.

Fixpoint dict_set {V} (k : string) (v : V) (d : list (string * V))
    : list (string * V) :=
  match d with
  | [] => [(k, v)]
  | (k', v') :: d' =>
      if String.eqb k' k then (k', v) :: d' else (k', v') :: dict_set k v d'
  end.

Definition values {V} (d : list (string * V)) : list V := map snd d.

(** The body of the signal-outcome request. *)
Record outcome_data := {
  outcome_type : option string;
  price_at_close : option Q;
  profit_loss_pips : option Q
}.

(** One entry of [factors_analysis]. *)
Record factor_analysis := {
  impact : option Q;
  accuracy : option Q
}.

(** The parsed answer of the reasoning service. *)
Record ai_reflection := {
  reflection : option string;
  factors_analysis : option (list (string * factor_analysis));
  lessons_learned : option (list string)
}.

(** A row of [ai_performance_metrics]. *)
Record performance := {
  currency_pair : string;
  timeframe : string;
  total_signals : Z;
  accurate_signals : Z;
  accuracy_rate : Q;
  factor_weights : list (string * Q);
  factor_accuracy : list (string * Q);
  recent_signals : list bool
}.

(** The row stored by [Database.save_signal_outcome]. *)
Record reflection_data := {
  rd_signal_id : string;
  rd_profit_loss_pips : Q;
  rd_factors_analysis : list (string * factor_analysis);
  rd_accuracy_score : Q
}.

(** The tables the engine reads and writes through [Database]. *)
Record database := {
  signals : gmap string AiEngine.signal;
  signal_outcomes : list reflection_data;
  ai_performance_metrics : gmap (string * string) performance
}.

(** Lines 64-69. *)
Definition was_accurate (s : AiEngine.signal) (o : outcome_data) : bool :=
  let profit_loss_pips0 := default 0 (profit_loss_pips o) in
  if String.eqb (AiEngine.sg_direction s) "BUY" && Qgtb profit_loss_pips0 0
  then true
  else if String.eqb (AiEngine.sg_direction s) "SELL"
          && Qltb profit_loss_pips0 0
  then true
  else false.

(** Lines 220-229: what [_generate_ai_reflection] returns when the call to
    the reasoning service fails. *)
Definition error_reflection : ai_reflection :=
  let z := {| impact := Some 0; accuracy := Some 0 |} in
  {| reflection := Some "Error generating reflection";
     factors_analysis :=
       Some [("technical", z); ("fundamental", z);
             ("sentiment", z); ("economic", z)];
     lessons_learned := Some ["Error generating lessons learned"] |}.

(** Lines 253-272. *)
Definition new_performance (currency_pair0 timeframe0 : string)
    : performance :=
  {| currency_pair := currency_pair0;
     timeframe := timeframe0;
     total_signals := 0;
     accurate_signals := 0;
     accuracy_rate := 0;
     factor_weights :=
       [("technical", 0.25); ("fundamental", 0.25);
        ("sentiment", 0.25); ("economic", 0.25)];
     factor_accuracy :=
       [("technical", 0); ("fundamental", 0);
        ("sentiment", 0); ("economic", 0)];
     recent_signals := [] |}.

(** Lines 283-294: the loop over [factors_analysis.items()], threading the
    two dictionaries it assigns to. *)
Fixpoint update_factors (total : Z)
    (items : list (string * factor_analysis))
    (acc wts : list (string * Q))
    : result (list (string * Q) * list (string * Q)) :=
  match items with
  | [] => Ret (acc, wts)
  | (factor, analysis) :: items' =>
      let current_accuracy := default 0 (dict_get factor acc) in
      let new_accuracy := default 0 (accuracy analysis) in
      rbind (truediv (current_accuracy * inject_Z (total - 1) + new_accuracy)
                     (inject_Z total)) (fun updated_accuracy =>
      let acc' := dict_set factor updated_accuracy acc in
      let impact0 := default 0 (impact analysis) in
      let wts' :=
        dict_set factor
          (default 0.25 (dict_get factor wts) * 0.8 + impact0 * 0.2) wts in
      update_factors total items' acc' wts')
  end.

(** Lines 296-299: every weight is divided by the total. *)
Fixpoint normalize (total_weight : Q) (wts : list (string * Q))
    : result (list (string * Q)) :=
  match wts with
  | [] => Ret []
  | (factor, w) :: wts' =>
      rbind (truediv w total_weight) (fun w' =>
      rbind (normalize total_weight wts') (fun rest =>
      Ret ((factor, w') :: rest)))
  end.

(** [l[-10:]] when [len(l) > 10]. *)
Definition last10 {A} (l : list A) : list A :=
  if (10 <? length l)%nat then skipn (length l - 10) l else l.

(** Lines 274-308, on the row read or created at lines 249-272. *)
Definition updated_performance (p : performance) (was_accurate0 : bool)
    (items : list (string * factor_analysis)) : result performance :=
  let total := (total_signals p + 1)%Z in
  let accurate :=
    if was_accurate0 then (accurate_signals p + 1)%Z
    else accurate_signals p in
  rbind (truediv (inject_Z accurate) (inject_Z total)) (fun rate =>
  rbind (update_factors total items (factor_accuracy p) (factor_weights p))
    (fun '(acc, wts) =>
  let total_weight := sum (values wts) in
  rbind (normalize total_weight wts) (fun wts' =>
  Ret {| currency_pair := currency_pair p;
         timeframe := timeframe p;
         total_signals := total;
         accurate_signals := accurate;
         accuracy_rate := rate;
         factor_weights := wts';
         factor_accuracy := acc;
         recent_signals := last10 (recent_signals p ++ [was_accurate0]) |}))).

(** [_update_performance_metrics]: the row is read, updated and saved; an
    exception on the way is logged and nothing is saved. *)
Definition _update_performance_metrics (db : database)
    (currency_pair0 timeframe0 : string) (was_accurate0 : bool)
    (items : list (string * factor_analysis)) : database :=
  let p :=
    default (new_performance currency_pair0 timeframe0)
            (ai_performance_metrics db !! (currency_pair0, timeframe0)) in
  match updated_performance p was_accurate0 items with
  | Ret p' =>
      {| signals := signals db;
         signal_outcomes := signal_outcomes db;
         ai_performance_metrics :=
           <[(currency_pair p', timeframe p') := p']>
             (ai_performance_metrics db) |}
  | Raise _ => db
  end.

(** [reflect_on_signal_outcome]; [ai] is the answer of the reasoning
    service, [None] when the call fails.  The result is [None] on the
    "signal not found" path. *)
Definition reflect_on_signal_outcome (db : database) (signal_id : string)
    (o : outcome_data) (ai : option ai_reflection)
    : database * option reflection_data :=
  match signals db !! signal_id with
  | None => (db, None)
  | Some s =>
      let ok := was_accurate s o in
      let r := default error_reflection ai in
      let rd :=
        {| rd_signal_id := signal_id;
           rd_profit_loss_pips := default 0 (profit_loss_pips o);
           rd_factors_analysis := default [] (factors_analysis r);
           rd_accuracy_score := if ok then 1 else 0 |} in
      let db1 :=
        {| signals := signals db;
           signal_outcomes := signal_outcomes db ++ [rd];
           ai_performance_metrics := ai_performance_metrics db |} in
      (_update_performance_metrics db1 (AiEngine.sg_currency_pair s)
         (AiEngine.sg_timeframe s) ok (default [] (factors_analysis r)),
       Some rd)
  end.

End ReflectionEngine.

(** ** sentiment_integration.py *)

Module Sentiment.
Import Py.
Local Open Scope Q_scope.

(** The raw sentiment dictionary, read with [.get(key, 0)]. *)
Record sentiment := {
  s_sentiment_score : option Q;
  s_confidence : option Q;
  s_news_count : option Q
}.

(** The dictionary [format_sentiment_result] returns ([top_articles] and
    [explanation] are copied from the input and left out here).  It has
    neither a ["confidence_score"] nor a ["factors"] key. *)
Record sentiment_result := {
  sentiment_score : Q;
  confidence : Q;
  direction : string;
  strength : string;
  signal_weight : Q;
  news_count : Q
}.

Definition format_sentiment_result (s : sentiment) : sentiment_result :=
  let sentiment_score0 := default 0 (s_sentiment_score s) in
  let confidence0 := default 0 (s_confidence s) in
  let news_count0 := default 0 (s_news_count s) in
  let direction0 :=
    if Qgtb sentiment_score0 0.2 then "bullish"
    else if Qltb sentiment_score0 (-0.2) then "bearish"
    else "neutral" in
  let abs_score := Qabs sentiment_score0 in
  let strength0 :=
    if Qgtb abs_score 0.6 && Qgtb confidence0 0.7 then "strong"
    else if Qgtb abs_score 0.3 && Qgtb confidence0 0.5 then "moderate"
    else "weak" in
  let base_weight := abs_score * confidence0 in
  let news_factor := Qmin 1 (news_count0 / 10) in
  let signal_weight0 := base_weight * (0.7 + 0.3 * news_factor) in
  {| sentiment_score := sentiment_score0;
     confidence := confidence0;
     direction := direction0;
     strength := strength0;
     signal_weight := Qmin 0.7 signal_weight0;
     news_count := news_count0 |}.

(** The keys of that dictionary that [fallback_combine_analyses] looks up. *)
Definition as_analysis (r : sentiment_result) : AiEngine.analysis :=
  {| AiEngine.direction := Some (direction r);
     AiEngine.confidence_score := None;
     AiEngine.factors := None |}.

End Sentiment.

(** ** numpy floats and the indicator frame *)

Module Np.
Import Py.
Local Open Scope Q_scope.

(** A float64 cell: a finite number, an infinity, or NaN. *)
Inductive npfloat :=
| Fin (q : Q)
| PInf
| NInf
| NaN.

Definition inf (positive : bool) : npfloat := if positive then PInf else NInf.

(** The infinity [x * inf positive] for a finite [x]; NaN when [x] is 0. *)
Definition scaled_inf (positive : bool) (x : Q) : npfloat :=
  if Qeq_bool x 0 then NaN else inf (Bool.eqb positive (Qltb 0 x)).

Definition neg (a : npfloat) : npfloat :=
  match a with
  | Fin x => Fin (- x)
  | PInf => NInf
  | NInf => PInf
  | NaN => NaN
  end.

Definition add (a b : npfloat) : npfloat :=
  match a, b with
  | NaN, _ | _, NaN => NaN
  | Fin x, Fin y => Fin (x + y)
  | PInf, NInf | NInf, PInf => NaN
  | PInf, _ | _, PInf => PInf
  | NInf, _ | _, NInf => NInf
  end.

Definition sub (a b : npfloat) : npfloat := add a (neg b).

Definition mul (a b : npfloat) : npfloat :=
  match a, b with
  | NaN, _ | _, NaN => NaN
  | Fin x, Fin y => Fin (x * y)
  | Fin x, PInf | PInf, Fin x => scaled_inf true x
  | Fin x, NInf | NInf, Fin x => scaled_inf false x
  | PInf, PInf | NInf, NInf => PInf
  | PInf, NInf | NInf, PInf => NInf
  end.

(** Division never raises: a finite number over zero is an infinity of its
    sign, zero over zero is NaN. *)
Definition div (a b : npfloat) : npfloat :=
  match a, b with
  | NaN, _ | _, NaN => NaN
  | Fin x, Fin y => if Qeq_bool y 0 then scaled_inf true x else Fin (x / y)
  | Fin _, _ => Fin 0
  | PInf, Fin y => if Qltb y 0 then NInf else PInf
  | NInf, Fin y => if Qltb y 0 then PInf else NInf
  | _, _ => NaN
  end.

Definition abs (a : npfloat) : npfloat :=
  match a with
  | Fin x => Fin (Qabs x)
  | PInf | NInf => PInf
  | NaN => NaN
  end.

(** Comparisons; every comparison with NaN is false. *)
Definition gt (a b : npfloat) : bool :=
  match a, b with
  | NaN, _ | _, NaN => false
  | Fin x, Fin y => Qgtb x y
  | PInf, PInf | NInf, _ | Fin _, PInf => false
  | PInf, _ | Fin _, NInf => true
  end.

Definition lt (a b : npfloat) : bool := gt b a.

Definition ge (a b : npfloat) : bool :=
  match a, b with
  | NaN, _ | _, NaN => false
  | Fin x, Fin y => Qgeb x y
  | PInf, _ | _, NInf => true
  | _, _ => false
  end.

Definition le (a b : npfloat) : bool := ge b a.

(** Truth value of a float: everything but zero. *)
Definition truthy (a : npfloat) : bool :=
  match a with
  | Fin x => negb (Qeq_bool x 0)
  | _ => true
  end.

(** Python's [max(a, b, c)]: the first argument, replaced by each later one
    that compares greater. *)
Definition max3 (a b c : npfloat) : npfloat :=
  let m := if gt b a then b else a in
  if gt c m then c else m.

(** [sum(l)], which starts from the integer 0. *)
Definition sum (l : list npfloat) : npfloat := fold_left add l (Fin 0).

(** One period of [technical_data["indicators"]]: column name to number,
    [None] for a null. *)
Definition record := gmap string (option Q).

(** [pd.DataFrame(records)]: the columns are the keys met in any record; a
    cell whose record lacks the key, or holds a null, is NaN (as pandas has
    it in a column that holds numbers). *)
Record DataFrame := {
  columns : gset string;
  rows : list (gmap string (option Q))
}.

Definition frame (records : list (gmap string (option Q))) : DataFrame :=
  {| columns := ⋃ (dom <$> records); rows := records |}.

Definition cell (c : string) (r : gmap string (option Q)) : npfloat :=
  match r !! c with
  | Some (Some q) => Fin q
  | _ => NaN
  end.

(** [df.tail(n)] *)
Definition tail (n : nat) (df : DataFrame) : DataFrame :=
  {| columns := columns df;
     rows := skipn (length (rows df) - n) (rows df) |}.

(** [c in df.columns] *)
Definition has_column (df : DataFrame) (c : string) : bool :=
  bool_decide (c ∈ columns df).

(** [df[c]], a KeyError when there is no such column. *)
Definition column (df : DataFrame) (c : string) : result (list npfloat) :=
  if has_column df c then Ret (cell c <$> rows df) else Raise (KeyError c).

(** [s.iloc[i]] and [a[i]], negative positions counting from the end. *)
Definition iloc (s : list npfloat) (i : Z) : result npfloat :=
  let n := Z.of_nat (length s) in
  let j := if (i <? 0)%Z then (n + i)%Z else i in
  if (j <? 0)%Z || (n <=? j)%Z then Raise IndexError
  else match s !! Z.to_nat j with
       | Some x => Ret x
       | None => Raise IndexError
       end.

End Np.

(** ** technical.py *)

Module Technical.
Import Py Np.
Local Open Scope Q_scope.

(** The value of an evidence factor. *)
Inductive fvalue :=
| VNum (x : npfloat)
| VInt (n : Z)
| VStr (s : string)
| VSummary (buy_signals sell_signals : Q) (total_signals : Z)
           (buy_score sell_score : Q).

Record factor := { name : string; value : fvalue }.

(** The locals the four indicator groups update ([neutral_signals] is
    initialised but never touched again). *)
Record tally := {
  analysis_factors : list factor;
  buy_signals : Q;
  sell_signals : Q;
  total_signals : Z
}.

(** A block of the function body: it updates the locals and either runs to
    its end or raises.  What it did before raising stays done. *)
Definition block (A : Type) : Type := tally -> tally * result A.

Definition ret {A} (a : A) : block A := fun s => (s, Ret a).

Definition bind {A B} (m : block A) (k : A -> block B) : block B :=
  fun s =>
    match m s with
    | (s', Ret a) => k a s'
    | (s', Raise e) => (s', Raise e)
    end.

Notation "x <~ m ;; k" := (bind m (fun x => k))
  (at level 200, m at level 99, k at level 200, right associativity).
Notation "m ;;; k" := (bind m (fun _ => k))
  (at level 100, k at level 200, right associativity).

Definition lift {A} (r : result A) : block A := fun s => (s, r).

(** [try: body except Exception: logger.error(...)] *)
Definition try_except (body : block unit) (s : tally) : tally := fst (body s).

(** [analysis_factors.append({"name": n, "value": v, ...})] *)
Definition append (n : string) (v : npfloat) : block unit :=
  fun s =>
    ({| analysis_factors :=
          analysis_factors s ++ [{| name := n; value := VNum v |}];
        buy_signals := buy_signals s;
        sell_signals := sell_signals s;
        total_signals := total_signals s |}, Ret tt).

(** [buy_signals += w], [sell_signals += w], [total_signals += n] *)
Definition buy (w : Q) : block unit :=
  fun s =>
    ({| analysis_factors := analysis_factors s;
        buy_signals := buy_signals s + w;
        sell_signals := sell_signals s;
        total_signals := total_signals s |}, Ret tt).

Definition sell (w : Q) : block unit :=
  fun s =>
    ({| analysis_factors := analysis_factors s;
        buy_signals := buy_signals s;
        sell_signals := sell_signals s + w;
        total_signals := total_signals s |}, Ret tt).

Definition total (n : Z) : block unit :=
  fun s =>
    ({| analysis_factors := analysis_factors s;
        buy_signals := buy_signals s;
        sell_signals := sell_signals s;
        total_signals := (total_signals s + n)%Z |}, Ret tt).

(** [recent_data[c].iloc[i]] *)
Definition at_ (df : DataFrame) (c : string) (i : Z) : block npfloat :=
  lift (rbind (column df c) (fun s => iloc s i)).

(** Lines 45-125: trend, moving averages. *)
Definition trend_analysis (recent_data : DataFrame) : block unit :=
  last_close <~ at_ recent_data "close" (-1) ;;
  last_sma_20 <~ at_ recent_data "sma_20" (-1) ;;
  last_sma_50 <~ at_ recent_data "sma_50" (-1) ;;
  last_sma_200 <~ at_ recent_data "sma_200" (-1) ;;
  (if gt last_close last_sma_20 then
     append "price_above_sma_20" (div last_close last_sma_20) ;;; buy 1
   else if lt last_close last_sma_20 then
     append "price_below_sma_20" (div last_sma_20 last_close) ;;; sell 1
   else ret tt) ;;;
  (if gt last_close last_sma_50 then
     append "price_above_sma_50" (div last_close last_sma_50) ;;; buy 1
   else if lt last_close last_sma_50 then
     append "price_below_sma_50" (div last_sma_50 last_close) ;;; sell 1
   else ret tt) ;;;
  (if gt last_close last_sma_200 then
     append "price_above_sma_200" (div last_close last_sma_200) ;;; buy 2
   else if lt last_close last_sma_200 then
     append "price_below_sma_200" (div last_sma_200 last_close) ;;; sell 2
   else ret tt) ;;;
  last_ema_12 <~ at_ recent_data "ema_12" (-1) ;;
  last_ema_26 <~ at_ recent_data "ema_26" (-1) ;;
  prev_ema_12 <~ at_ recent_data "ema_12" (-2) ;;
  prev_ema_26 <~ at_ recent_data "ema_26" (-2) ;;
  (if gt last_ema_12 last_ema_26 && le prev_ema_12 prev_ema_26 then
     append "ema_12_26_bullish_crossover" (div last_ema_12 last_ema_26) ;;;
     buy 2
   else if lt last_ema_12 last_ema_26 && ge prev_ema_12 prev_ema_26 then
     append "ema_12_26_bearish_crossover" (div last_ema_26 last_ema_12) ;;;
     sell 2
   else ret tt) ;;;
  total 7.

(** Lines 129-164: MACD, when both of its columns exist. *)
Definition macd (recent_data : DataFrame) : block unit :=
  if has_column recent_data "MACD_12_26_9"
     && has_column recent_data "MACDs_12_26_9" then
    last_macd <~ at_ recent_data "MACD_12_26_9" (-1) ;;
    last_macd_signal <~ at_ recent_data "MACDs_12_26_9" (-1) ;;
    prev_macd <~ at_ recent_data "MACD_12_26_9" (-2) ;;
    prev_macd_signal <~ at_ recent_data "MACDs_12_26_9" (-2) ;;
    (if gt last_macd last_macd_signal && le prev_macd prev_macd_signal then
       append "macd_bullish_crossover" (sub last_macd last_macd_signal) ;;;
       buy 2
     else if lt last_macd last_macd_signal
             && ge prev_macd prev_macd_signal then
       append "macd_bearish_crossover" (sub last_macd_signal last_macd) ;;;
       sell 2
     else ret tt) ;;;
    (if gt last_macd (Fin 0) then append "macd_positive" last_macd ;;; buy 1
     else if lt last_macd (Fin 0) then
       append "macd_negative" last_macd ;;; sell 1
     else ret tt)
  else ret tt.

(** Lines 166-195: RSI. *)
Definition rsi (recent_data : DataFrame) : block unit :=
  last_rsi <~ at_ recent_data "rsi_14" (-1) ;;
  if gt last_rsi (Fin 70) then append "rsi_overbought" last_rsi ;;; sell 1
  else if lt last_rsi (Fin 30) then append "rsi_oversold" last_rsi ;;; buy 1
  else if gt last_rsi (Fin 50) then append "rsi_bullish" last_rsi ;;; buy 0.5
  else if lt last_rsi (Fin 50) then
    append "rsi_bearish" last_rsi ;;; sell 0.5
  else ret tt.

(** Lines 197-232: stochastic oscillator, when both of its columns exist. *)
Definition stochastic (recent_data : DataFrame) : block unit :=
  if has_column recent_data "STOCHk_14_3_3"
     && has_column recent_data "STOCHd_14_3_3" then
    last_stoch_k <~ at_ recent_data "STOCHk_14_3_3" (-1) ;;
    last_stoch_d <~ at_ recent_data "STOCHd_14_3_3" (-1) ;;
    prev_stoch_k <~ at_ recent_data "STOCHk_14_3_3" (-2) ;;
    prev_stoch_d <~ at_ recent_data "STOCHd_14_3_3" (-2) ;;
    (if gt last_stoch_k last_stoch_d && le prev_stoch_k prev_stoch_d then
       append "stoch_bullish_crossover" (sub last_stoch_k last_stoch_d) ;;;
       buy 1
     else if lt last_stoch_k last_stoch_d
             && ge prev_stoch_k prev_stoch_d then
       append "stoch_bearish_crossover" (sub last_stoch_d last_stoch_k) ;;;
       sell 1
     else ret tt) ;;;
    (if gt last_stoch_k (Fin 80) && gt last_stoch_d (Fin 80) then
       append "stoch_overbought" last_stoch_k ;;; sell 1
     else if lt last_stoch_k (Fin 20) && lt last_stoch_d (Fin 20) then
       append "stoch_oversold" last_stoch_k ;;; buy 1
     else ret tt)
  else ret tt.

(** Lines 127-236: momentum. *)
Definition momentum_analysis (recent_data : DataFrame) : block unit :=
  macd recent_data ;;;
  rsi recent_data ;;;
  stochastic recent_data ;;;
  total 8.

(** Lines 275-282: the true ranges, for [i] from 1 to [len(closes) - 1]. *)
Definition true_ranges (highs lows closes : list npfloat) : list npfloat :=
  zip_with (fun h lc =>
      max3 (sub h (fst lc)) (abs (sub h (snd lc)))
           (abs (sub (fst lc) (snd lc))))
    (List.tl highs) (zip (List.tl lows) closes).

(** [l[-n:]] *)
Definition lastn {A} (n : nat) (l : list A) : list A :=
  skipn (length l - n) l.

(** Lines 240-267: Bollinger bands, when the three columns exist. *)
Definition bollinger (recent_data : DataFrame) : block unit :=
  if has_column recent_data "BBL_20_2.0"
     && has_column recent_data "BBM_20_2.0"
     && has_column recent_data "BBU_20_2.0" then
    last_close <~ at_ recent_data "close" (-1) ;;
    last_bbl <~ at_ recent_data "BBL_20_2.0" (-1) ;;
    last_bbm <~ at_ recent_data "BBM_20_2.0" (-1) ;;
    last_bbu <~ at_ recent_data "BBU_20_2.0" (-1) ;;
    let bb_width := div (sub last_bbu last_bbl) last_bbm in
    append "bollinger_band_width" bb_width ;;;
    (if lt last_close last_bbl then
       append "price_below_lower_bb" (div last_bbl last_close) ;;; buy 1
     else if gt last_close last_bbu then
       append "price_above_upper_bb" (div last_close last_bbu) ;;; sell 1
     else ret tt)
  else ret tt.

(** Lines 269-307: average true range.  [last_close] is the local bound at
    line 48 or 242, in both places to [recent_data["close"].iloc[-1]]; it is
    read only when [atr] is set, that is when the frame has rows and a
    ["close"] column. *)
Definition average_true_range (recent_data : DataFrame) : block unit :=
  highs <~ lift (column recent_data "high") ;;
  lows <~ lift (column recent_data "low") ;;
  closes <~ lift (column recent_data "close") ;;
  let trs := true_ranges highs lows closes in
  let atr :=
    if (14 <=? length trs)%nat
    then Some (div (sum (lastn 14 trs)) (Fin 14)) else None in
  match atr with
  | Some atr =>
      if truthy atr then
        last_close <~ lift (iloc closes (-1)) ;;
        let atr_percentage := mul (div atr last_close) (Fin 100) in
        append "atr" atr ;;;
        (if gt atr_percentage (Fin 1) then
           append "high_volatility" atr_percentage
         else if lt atr_percentage (Fin 0.3) then
           append "low_volatility" atr_percentage
         else ret tt)
      else ret tt
  | None => ret tt
  end.

(** Lines 238-311: volatility. *)
Definition volatility_analysis (recent_data : DataFrame) : block unit :=
  bollinger recent_data ;;;
  average_true_range recent_data ;;;
  total 3.

(** [all(s.iloc[i] `cmp` s.iloc[i + d] for d in ds)] *)
Fixpoint all_cmp (cmp : npfloat -> npfloat -> bool) (s : list npfloat)
    (i : Z) (ds : list Z) : result bool :=
  match ds with
  | [] => Ret true
  | d :: ds' =>
      rbind (iloc s i) (fun x =>
      rbind (iloc s (i + d)) (fun y =>
      if cmp x y then all_cmp cmp s i ds' else Ret false))
  end.

(** [range(1, window + 1)], and the same offsets to the left. *)
Definition after (window : Z) : list Z := seqZ 1 window.
Definition before (window : Z) : list Z := Z.opp <$> seqZ 1 window.

(** One side-by-side test of lines 322-323 or 327-328 on the column [c]:
    the candle at [i], when it beats its neighbours under [cmp]. *)
Definition swing (recent_data : DataFrame) (c : string)
    (cmp : npfloat -> npfloat -> bool) (window i : Z)
    : result (option npfloat) :=
  rbind (column recent_data c) (fun s =>
  rbind (all_cmp cmp s i (before window)) (fun left =>
  if left then
    rbind (all_cmp cmp s i (after window)) (fun right =>
    if right then rbind (iloc s i) (fun x => Ret (Some x)) else Ret None)
  else Ret None)).

(** Lines 320-329: the loop over [range(window, len(recent_data) - window)],
    collecting the levels of the swing highs and lows. *)
Fixpoint swings (recent_data : DataFrame) (window : Z) (range : list Z)
    (swing_highs swing_lows : list npfloat)
    : result (list npfloat * list npfloat) :=
  match range with
  | [] => Ret (swing_highs, swing_lows)
  | i :: range' =>
      rbind (swing recent_data "high" gt window i) (fun h =>
      rbind (swing recent_data "low" lt window i) (fun l =>
      swings recent_data window range'
        (swing_highs ++ option_list h) (swing_lows ++ option_list l)))
  end.

(** [l.sort()] under the order [leb] ([l.sort(reverse=True)] under its
    converse), by insertion. *)
Fixpoint insert_sorted (leb : npfloat -> npfloat -> bool) (x : npfloat)
    (l : list npfloat) : list npfloat :=
  match l with
  | [] => [x]
  | y :: l' => if leb x y then x :: l else y :: insert_sorted leb x l'
  end.

Definition sort (leb : npfloat -> npfloat -> bool) (l : list npfloat)
    : list npfloat :=
  foldr (insert_sorted leb) [] l.

(** [if level:] on [level = l[0] if l else None] *)
Definition truthy_level (level : option npfloat) : option npfloat :=
  match level with
  | Some x => if truthy x then Some x else None
  | None => None
  end.

(** Lines 313-406: support and resistance. *)
Definition support_resistance_analysis (recent_data : DataFrame)
    : block unit :=
  let window := 5%Z in
  let n := Z.of_nat (length (rows recent_data)) in
  sw <~ lift (swings recent_data window
                (seqZ window (n - window - window)) [] []) ;;
  let swing_highs := fst sw in
  let swing_lows := snd sw in
  last_close <~ at_ recent_data "close" (-1) ;;
  let resistances :=
    sort le (List.filter (fun level => gt level last_close) swing_highs) in
  let supports :=
    sort ge (List.filter (fun level => lt level last_close) swing_lows) in
  let nearest_resistance := head resistances in
  let nearest_support := head supports in
  match truthy_level nearest_resistance with
  | Some nearest_resistance =>
      let resistance_distance :=
        mul (div (sub nearest_resistance last_close) last_close) (Fin 100) in
      append "nearest_resistance" nearest_resistance ;;;
      (if lt resistance_distance (Fin 0.5) then
         append "close_to_resistance" resistance_distance ;;; sell 1
       else ret tt)
  | None => ret tt
  end ;;;
  match truthy_level nearest_support with
  | Some nearest_support =>
      let support_distance :=
        mul (div (sub last_close nearest_support) last_close) (Fin 100) in
      append "nearest_support" nearest_support ;;;
      (if lt support_distance (Fin 0.5) then
         append "close_to_support" support_distance ;;; buy 1
       else ret tt)
  | None => ret tt
  end ;;;
  match truthy_level nearest_support, truthy_level nearest_resistance with
  | Some nearest_support, Some nearest_resistance =>
      let risk := div (sub last_close nearest_support) last_close in
      let reward := div (sub nearest_resistance last_close) last_close in
      let rr_ratio := if gt risk (Fin 0) then div reward risk else Fin 0 in
      append "risk_reward_ratio" rr_ratio ;;;
      (if gt rr_ratio (Fin 2) then
         append "favorable_risk_reward_long" rr_ratio ;;; buy 1
       else if lt rr_ratio (Fin 0.5) then
         append "unfavorable_risk_reward_long" rr_ratio ;;; sell 1
       else ret tt)
  | _, _ => ret tt
  end ;;;
  total 3.

(** The dictionary [analyze_technical_data] returns. *)
Record technical_analysis := {
  direction : string;
  confidence_score : Q;
  factors : list factor;
  error : option string
}.

(** [technical_data] once line 19 has read its ["instrument"]; its
    ["indicators"] key is read inside the outer [try]. *)
Record technical_data := {
  instrument : string;
  indicators : option (list (gmap string (option Q)))
}.

(** Lines 409-410. *)
Definition buy_score (s : tally) : Q :=
  if (0 <? total_signals s)%Z
  then buy_signals s / inject_Z (total_signals s) else 0.

Definition sell_score (s : tally) : Q :=
  if (0 <? total_signals s)%Z
  then sell_signals s / inject_Z (total_signals s) else 0.

(** Lines 413-423. *)
Definition direction_and_confidence (buy_score sell_score : Q)
    : string * Q :=
  if Qgtb buy_score sell_score then
    ("BUY", 0.5 + Qmin 0.5 ((buy_score - sell_score) * 2))
  else if Qgtb sell_score buy_score then
    ("SELL", 0.5 + Qmin 0.5 ((sell_score - buy_score) * 2))
  else ("NEUTRAL", 0.5).

(** Lines 38-406: the four indicator groups, each in its own [try]. *)
Definition tally_votes (recent_data : DataFrame) : tally :=
  let s0 := {| analysis_factors := []; buy_signals := 0;
               sell_signals := 0; total_signals := 0 |} in
  let s1 := try_except (trend_analysis recent_data) s0 in
  let s2 := try_except (momentum_analysis recent_data) s1 in
  let s3 := try_except (volatility_analysis recent_data) s2 in
  try_except (support_resistance_analysis recent_data) s3.

(** Lines 408-442. *)
Definition verdict (s : tally) : technical_analysis :=
  let '(direction0, confidence) :=
    direction_and_confidence (buy_score s) (sell_score s) in
  {| direction := direction0;
     confidence_score := confidence;
     factors :=
       analysis_factors s ++
       [{| name := "signal_summary";
           value := VSummary (buy_signals s) (sell_signals s)
                      (total_signals s) (buy_score s) (sell_score s) |}];
     error := None |}.

Definition analyze_technical_data (td : technical_data) (timeframe : string)
    : technical_analysis :=
  match indicators td with
  | None =>
      {| direction := "NEUTRAL";
         confidence_score := 0;
         factors := [{| name := "error"; value := VStr "'indicators'" |}];
         error := Some "'indicators'" |}
  | Some records =>
      let indicators0 := frame records in
      if (length (rows indicators0) <? 50)%nat then
        {| direction := "NEUTRAL";
           confidence_score := 0;
           factors :=
             [{| name := "insufficient_data";
                 value := VInt (Z.of_nat (length (rows indicators0))) |}];
           error := Some "Insufficient data points for reliable analysis" |}
      else verdict (tally_votes (tail 30 indicators0))
  end.

(** [technical_data] as a caller passes it: either key may be missing. *)
Record technical_dict := {
  td_instrument : option string;
  td_indicators : option (list (gmap string (option Q)))
}.

(** The whole call.  Line 19 formats its log message with
    [technical_data['instrument']] before the [try]: without that key the
    [KeyError] reaches the caller.  Lines 21-451 are
    [analyze_technical_data] above. *)
Definition analyze_technical_data_call (d : technical_dict)
    (timeframe : string) : result technical_analysis :=
  match td_instrument d with
  | None => Raise (KeyError "instrument")
  | Some instrument0 =>
      Ret (analyze_technical_data
             {| instrument := instrument0; indicators := td_indicators d |}
             timeframe)
  end.

End Technical.

(** ** The specification's reading, and vocabulary for the properties *)

Module Claims.
Import Py.
Local Open Scope Q_scope.

(** The four analysis sources. *)
Inductive source := technical | fundamental | sentiment | economic.

Definition source_eqb (i j : source) : bool :=
  match i, j with
  | technical, technical | fundamental, fundamental
  | sentiment, sentiment | economic, economic => true
  | _, _ => false
  end.

(** The four opinions handed to the fusion, by source. *)
Definition fuse (currency_pair timeframe : string)
    (q : source -> AiEngine.analysis) : AiEngine.combined_analysis :=
  AiEngine.fallback_combine_analyses currency_pair timeframe
    (q technical) (q fundamental) (q sentiment) (q economic).

Definition combined_of (q : source -> AiEngine.analysis) : Q :=
  AiEngine.combined_value
    (q technical) (q fundamental) (q sentiment) (q economic).

(** The same four opinions with the one of source [i] replaced by [a]. *)
Definition replace (i : source) (a : AiEngine.analysis)
    (q : source -> AiEngine.analysis) : source -> AiEngine.analysis :=
  fun j => if source_eqb i j then a else q j.

(** An opinion with its direction, or its confidence, overwritten. *)
Definition with_direction (a : AiEngine.analysis) (d : string)
    : AiEngine.analysis :=
  {| AiEngine.direction := Some d;
     AiEngine.confidence_score := AiEngine.confidence_score a;
     AiEngine.factors := AiEngine.factors a |}.

Definition with_confidence (a : AiEngine.analysis) (c : option Q)
    : AiEngine.analysis :=
  {| AiEngine.direction := AiEngine.direction a;
     AiEngine.confidence_score := c;
     AiEngine.factors := AiEngine.factors a |}.

(** The value of a direction, as the fusion maps it. *)
Definition value_of (a : AiEngine.analysis) : Q :=
  inject_Z (AiEngine.direction_value
              (default "NEUTRAL" (AiEngine.direction a))).

(** The weight the specification gives a source in the fallback fusion: the
    learned weight of the bucket of the pair and timeframe, and the default
    0.4 / 0.3 / 0.15 / 0.15 when the bucket has no learned weights. *)
Definition spec_weight (db : ReflectionEngine.database)
    (currency_pair timeframe : string) (k : string) : Q :=
  match ReflectionEngine.ai_performance_metrics db
          !! (currency_pair, timeframe) with
  | Some p =>
      default 0
        (ReflectionEngine.dict_get k (ReflectionEngine.factor_weights p))
  | None =>
      if String.eqb k "technical" then 0.4
      else if String.eqb k "fundamental" then 0.3
      else if String.eqb k "sentiment" then 0.15
      else if String.eqb k "economic" then 0.15
      else 0
  end.

(** The weighted vote as the specification states it. *)
Definition spec_combined (db : ReflectionEngine.database)
    (currency_pair timeframe : string)
    (q : source -> AiEngine.analysis) : Q :=
  value_of (q technical) * spec_weight db currency_pair timeframe "technical" +
  value_of (q fundamental)
    * spec_weight db currency_pair timeframe "fundamental" +
  value_of (q sentiment) * spec_weight db currency_pair timeframe "sentiment" +
  value_of (q economic) * spec_weight db currency_pair timeframe "economic".

(** The value the specification gives a direction: BUY +1, SELL -1,
    NEUTRAL 0 (and 0 for a missing or any other direction). *)
Definition spec_direction_value (a : AiEngine.analysis) : Q :=
  let d := default "NEUTRAL" (AiEngine.direction a) in
  if String.eqb d "BUY" then 1
  else if String.eqb d "SELL" then -1
  else 0.

(** The weighted sum of the four direction values, written out with the
    weights 0.4, 0.3, 0.15 and 0.15. *)
Definition spec_vote (t f s e : AiEngine.analysis) : Q :=
  spec_direction_value t * 0.4 + spec_direction_value f * 0.3 +
  spec_direction_value s * 0.15 + spec_direction_value e * 0.15.

(** The accuracy of a closed signal as the specification states it, from
    the direction, the entry price and the exit price. *)
Definition spec_was_accurate (s : AiEngine.signal) (exit_price : Q) : bool :=
  (String.eqb (AiEngine.sg_direction s) "BUY"
   && Qgeb exit_price (AiEngine.sg_entry_price s))
  || (String.eqb (AiEngine.sg_direction s) "SELL"
      && Qleb exit_price (AiEngine.sg_entry_price s)).

(** A database with no row at all. *)
Definition empty_db : ReflectionEngine.database :=
  {| ReflectionEngine.signals := ∅;
     ReflectionEngine.signal_outcomes := [];
     ReflectionEngine.ai_performance_metrics := ∅ |}.

(** *** Concrete inputs *)

Definition opinion (d : string) (c : Q) : AiEngine.analysis :=
  {| AiEngine.direction := Some d;
     AiEngine.confidence_score := Some c;
     AiEngine.factors := Some [] |}.

(** Technical says BUY, the three other sources are NEUTRAL. *)
Definition technical_buy_only (i : source) : AiEngine.analysis :=
  match i with
  | technical => opinion "BUY" 0.8
  | _ => opinion "NEUTRAL" 0.5
  end.

Definition impact_only (x : Q) : ReflectionEngine.factor_analysis :=
  {| ReflectionEngine.impact := Some x; ReflectionEngine.accuracy := Some x |}.

(** The database after one reflection on EUR/USD H1 that attributes the
    whole outcome to the fundamental source. *)
Definition learned_db : ReflectionEngine.database :=
  ReflectionEngine._update_performance_metrics empty_db "EUR/USD" "H1" true
    [("technical", impact_only 0); ("fundamental", impact_only 1);
     ("sentiment", impact_only 0); ("economic", impact_only 0)].

(** Scenario A: technical BUY at 0.8, fundamental SELL at 0.6, sentiment
    NEUTRAL at 0.5, economic BUY at 0.7. *)
Definition scenario_A (i : source) : AiEngine.analysis :=
  match i with
  | technical => opinion "BUY" 0.8
  | fundamental => opinion "SELL" 0.6
  | sentiment => opinion "NEUTRAL" 0.5
  | economic => opinion "BUY" 0.7
  end.

(** A raw sentiment reading with a clearly positive score. *)
Definition positive_news : Sentiment.sentiment :=
  {| Sentiment.s_sentiment_score := Some 0.6;
     Sentiment.s_confidence := Some 0.9;
     Sentiment.s_news_count := Some 12 |}.

(** Scenario A of the specification, with the sentiment opinion replaced by
    what the sentiment adapter returns for [positive_news]. *)
Definition with_adapter_sentiment (i : source) : AiEngine.analysis :=
  match i with
  | technical => opinion "BUY" 0.8
  | fundamental => opinion "SELL" 0.6
  | sentiment =>
      Sentiment.as_analysis (Sentiment.format_sentiment_result positive_news)
  | economic => opinion "BUY" 0.7
  end.

(** A BUY decision at confidence 0.8 whose technical factors carry the
    scorer's ATR factor with value 0.0050, and a quote asking 1.1000. *)
Definition decision_with_atr : AiEngine.combined_analysis :=
  {| AiEngine.ca_currency_pair := "EUR/USD";
     AiEngine.ca_timeframe := "H1";
     AiEngine.ca_direction := "BUY";
     AiEngine.ca_confidence_score := 0.8;
     AiEngine.ca_technical_factors :=
       Some [JDict (Some "price_above_sma_20") (Some 1.01);
             JDict (Some "atr") (Some 0.005)];
     AiEngine.ca_fundamental_factors := [];
     AiEngine.ca_sentiment_factors := [];
     AiEngine.ca_economic_factors := [];
     AiEngine.ca_reasoning := "" |}.

(** Scenario C: the same decision at confidence 0.60. *)
Definition decision_at_060 : AiEngine.combined_analysis :=
  {| AiEngine.ca_currency_pair := "EUR/USD";
     AiEngine.ca_timeframe := "H1";
     AiEngine.ca_direction := "BUY";
     AiEngine.ca_confidence_score := 0.6;
     AiEngine.ca_technical_factors := Some [];
     AiEngine.ca_fundamental_factors := [];
     AiEngine.ca_sentiment_factors := [];
     AiEngine.ca_economic_factors := [];
     AiEngine.ca_reasoning := "" |}.

Definition quote_11000 : AiEngine.price :=
  {| AiEngine.ask := 1.1; AiEngine.bid := 1.0998 |}.

(** A quote at price zero, where risk and reward are both zero. *)
Definition quote_zero : AiEngine.price :=
  {| AiEngine.ask := 0; AiEngine.bid := 0 |}.

(** [isinstance(e, dict)] *)
Definition is_dict (e : jelem) : bool :=
  match e with
  | JDict _ _ => true
  | JStr _ => false
  end.

(** *** Sequences of reflections *)

(** The key is one of the four sources. *)
Definition is_source (k : string) : bool :=
  String.eqb k "technical" || String.eqb k "fundamental"
  || String.eqb k "sentiment" || String.eqb k "economic".

(** A per-source analysis whose impacts lie in [0, 1]. *)
Definition impacts_in_unit_interval
    (items : list (string * ReflectionEngine.factor_analysis)) : Prop :=
  Forall (fun ka =>
            is_source (fst ka) = true /\
            0 <= default 0 (ReflectionEngine.impact (snd ka)) <= 1) items.

(** One call of [_update_performance_metrics]. *)
Record update := {
  u_currency_pair : string;
  u_timeframe : string;
  u_was_accurate : bool;
  u_items : list (string * ReflectionEngine.factor_analysis)
}.

Definition apply_update (db : ReflectionEngine.database) (u : update)
    : ReflectionEngine.database :=
  ReflectionEngine._update_performance_metrics db
    (u_currency_pair u) (u_timeframe u) (u_was_accurate u) (u_items u).

(** The database after the updates [us], from no row at all. *)
Definition run (us : list update) : ReflectionEngine.database :=
  fold_left apply_update us empty_db.

Definition for_bucket (currency_pair timeframe : string) (u : update)
    : bool :=
  String.eqb (u_currency_pair u) currency_pair
  && String.eqb (u_timeframe u) timeframe.

(** How many of the updates [us] are for the bucket. *)
Definition count (currency_pair timeframe : string) (us : list update) : Z :=
  Z.of_nat (length (List.filter (for_bucket currency_pair timeframe) us)).

(** The sum of the four factor weights. *)
Definition four_weights (w : list (string * Q)) : Q :=
  default 0 (ReflectionEngine.dict_get "technical" w) +
  default 0 (ReflectionEngine.dict_get "fundamental" w) +
  default 0 (ReflectionEngine.dict_get "sentiment" w) +
  default 0 (ReflectionEngine.dict_get "economic" w).

(** The four weights, in the order the row is created with. *)
Definition four (a b c d : Q) : list (string * Q) :=
  [("technical", a); ("fundamental", b); ("sentiment", c); ("economic", d)].

(** What every stored row satisfies after [n] updates of its bucket: it
    sits under its own key, has counted [n] signals, and holds four
    non-negative weights of sum 1. *)
Definition bucket_ok (cp tf : string) (n : Z)
    (p : ReflectionEngine.performance) : Prop :=
  ReflectionEngine.currency_pair p = cp /\
  ReflectionEngine.timeframe p = tf /\
  ReflectionEngine.total_signals p = n /\
  exists a b c d, ReflectionEngine.factor_weights p = four a b c d /\
    0 <= a /\ 0 <= b /\ 0 <= c /\ 0 <= d /\ a + b + c + d == 1.

(** Every bucket that [us] has updated has a row, and every row is as
    above. *)
Definition db_ok (us : list update) (db : ReflectionEngine.database) : Prop :=
  forall cp tf,
    match ReflectionEngine.ai_performance_metrics db !! (cp, tf) with
    | Some p => bucket_ok cp tf (count cp tf us) p
    | None => count cp tf us = 0%Z
    end.

(** Two reflections on EUR/USD H1 and one on GBP/USD D1. *)
Definition three_updates : list update :=
  [ {| u_currency_pair := "EUR/USD"; u_timeframe := "H1";
       u_was_accurate := true;
       u_items := [("technical", impact_only 0.9);
                   ("fundamental", impact_only 0.2);
                   ("sentiment", impact_only 0);
                   ("economic", impact_only 1)] |};
    {| u_currency_pair := "GBP/USD"; u_timeframe := "D1";
       u_was_accurate := false;
       u_items := [("sentiment", impact_only 0.5)] |};
    {| u_currency_pair := "EUR/USD"; u_timeframe := "H1";
       u_was_accurate := false;
       u_items := default
                    [] (ReflectionEngine.factors_analysis
                          ReflectionEngine.error_reflection) |} ].

(** A stored SELL signal entered at 1.1000, and the outcome of closing it
    at 1.0900, 100 pips in profit. *)
Definition sell_signal : AiEngine.signal :=
  {| AiEngine.sg_id := Some "sig-1";
     AiEngine.sg_currency_pair := "EUR/USD";
     AiEngine.sg_direction := "SELL";
     AiEngine.sg_timeframe := "H1";
     AiEngine.sg_entry_price := 1.1;
     AiEngine.sg_stop_loss := 1.10825;
     AiEngine.sg_take_profit := 1.08625;
     AiEngine.sg_risk_reward_ratio := 2.5 / 1.5;
     AiEngine.sg_confidence_score := 0.8;
     AiEngine.sg_expected_duration := "1-2 days";
     AiEngine.sg_technical_factors := [];
     AiEngine.sg_fundamental_factors := [];
     AiEngine.sg_economic_events := [];
     AiEngine.sg_ai_reasoning := "" |}.

Definition db_with_sell_signal : ReflectionEngine.database :=
  {| ReflectionEngine.signals := {["sig-1" := sell_signal]};
     ReflectionEngine.signal_outcomes := [];
     ReflectionEngine.ai_performance_metrics := ∅ |}.

Definition closed_in_profit : ReflectionEngine.outcome_data :=
  {| ReflectionEngine.outcome_type := Some "take_profit";
     ReflectionEngine.price_at_close := Some 1.09;
     ReflectionEngine.profit_loss_pips := Some 100 |}.

(** The same close as [ai_engine.reflect_on_signal_outcome] receives it. *)
Definition exit_at_10900 : AiEngine.actual_outcome :=
  {| AiEngine.exit_price := Some 1.09 |}.

(** *** Votes of the technical scorer *)

Inductive side := Buy | Sell.

Definition side_eqb (x y : side) : bool :=
  match x, y with
  | Buy, Buy | Sell, Sell => true
  | _, _ => false
  end.

(** The side and weight of the vote that comes with each evidence factor in
    technical.py; a factor that is not listed comes with no vote. *)
Definition code_votes : list (string * (side * Q)) :=
  [ ("price_above_sma_20", (Buy, 1)); ("price_below_sma_20", (Sell, 1));
    ("price_above_sma_50", (Buy, 1)); ("price_below_sma_50", (Sell, 1));
    ("price_above_sma_200", (Buy, 2)); ("price_below_sma_200", (Sell, 2));
    ("ema_12_26_bullish_crossover", (Buy, 2));
    ("ema_12_26_bearish_crossover", (Sell, 2));
    ("macd_bullish_crossover", (Buy, 2));
    ("macd_bearish_crossover", (Sell, 2));
    ("macd_positive", (Buy, 1)); ("macd_negative", (Sell, 1));
    ("rsi_overbought", (Sell, 1)); ("rsi_oversold", (Buy, 1));
    ("rsi_bullish", (Buy, 0.5)); ("rsi_bearish", (Sell, 0.5));
    ("stoch_bullish_crossover", (Buy, 1));
    ("stoch_bearish_crossover", (Sell, 1));
    ("stoch_overbought", (Sell, 1)); ("stoch_oversold", (Buy, 1));
    ("price_below_lower_bb", (Buy, 1)); ("price_above_upper_bb", (Sell, 1));
    ("close_to_resistance", (Sell, 1)); ("close_to_support", (Buy, 1));
    ("favorable_risk_reward_long", (Buy, 1));
    ("unfavorable_risk_reward_long", (Sell, 1)) ].

(** The same relationships with the weights the specification states:
    2 for the 200-period trend and for every crossover, 1 otherwise. *)
Definition spec_votes : list (string * (side * Q)) :=
  [ ("price_above_sma_20", (Buy, 1)); ("price_below_sma_20", (Sell, 1));
    ("price_above_sma_50", (Buy, 1)); ("price_below_sma_50", (Sell, 1));
    ("price_above_sma_200", (Buy, 2)); ("price_below_sma_200", (Sell, 2));
    ("ema_12_26_bullish_crossover", (Buy, 2));
    ("ema_12_26_bearish_crossover", (Sell, 2));
    ("macd_bullish_crossover", (Buy, 2));
    ("macd_bearish_crossover", (Sell, 2));
    ("macd_positive", (Buy, 1)); ("macd_negative", (Sell, 1));
    ("rsi_overbought", (Sell, 1)); ("rsi_oversold", (Buy, 1));
    ("rsi_bullish", (Buy, 1)); ("rsi_bearish", (Sell, 1));
    ("stoch_bullish_crossover", (Buy, 2));
    ("stoch_bearish_crossover", (Sell, 2));
    ("stoch_overbought", (Sell, 1)); ("stoch_oversold", (Buy, 1));
    ("price_below_lower_bb", (Buy, 1)); ("price_above_upper_bb", (Sell, 1));
    ("close_to_resistance", (Sell, 1)); ("close_to_support", (Buy, 1));
    ("favorable_risk_reward_long", (Buy, 1));
    ("unfavorable_risk_reward_long", (Sell, 1)) ].

(** The weight a factor named [n] adds to side [sd] under [table]. *)
Definition vote (table : list (string * (side * Q))) (sd : side)
    (n : string) : Q :=
  match ReflectionEngine.dict_get n table with
  | Some (sd', w) => if side_eqb sd sd' then w else 0
  | None => 0
  end.

(** The votes for side [sd] that the recorded factors stand for. *)
Definition cast (table : list (string * (side * Q))) (sd : side)
    (fs : list Technical.factor) : Q :=
  fold_left (fun acc f => acc + vote table sd (Technical.name f)) fs 0.

(** The two vote counters are what the recorded factors stand for. *)
Definition accounts (table : list (string * (side * Q)))
    (s : Technical.tally) : Prop :=
  Technical.buy_signals s ==
    cast table Buy (Technical.analysis_factors s) /\
  Technical.sell_signals s ==
    cast table Sell (Technical.analysis_factors s).

(** A block keeps the counters in line with the factors. *)
Definition preserves {A} (table : list (string * (side * Q)))
    (m : Technical.block A) : Prop :=
  forall s, accounts table s -> accounts table (fst (m s)).

(** A period of which only the RSI is known, at 60. *)
Definition rsi_60 : gmap string (option Q) := {["rsi_14" := Some 60]}.

Definition fifty_periods : Technical.technical_data :=
  {| Technical.instrument := "EUR_USD";
     Technical.indicators := Some (replicate 50 rsi_60) |}.

(** Scenario B: 40 periods. *)
Definition forty_periods : Technical.technical_data :=
  {| Technical.instrument := "EUR_USD";
     Technical.indicators := Some (replicate 40 rsi_60) |}.

(** Scenario B as the caller passes it. *)
Definition forty_periods_call : Technical.technical_dict :=
  {| Technical.td_instrument := Some "EUR_USD";
     Technical.td_indicators := Some (replicate 40 rsi_60) |}.

(** 49 periods with %K below %D and a last one with %K above %D, the RSI
    at 50 throughout. *)
Definition stochastic_period (k : Q) : gmap string (option Q) :=
  <["rsi_14" := Some 50]> (<["STOCHk_14_3_3" := Some k]>
    {["STOCHd_14_3_3" := Some 50]}).

Definition stochastic_crossing : list (gmap string (option Q)) :=
  replicate 49 (stochastic_period 40) ++ [stochastic_period 60].

End Claims.

(** ** economic_calendar.py *)

Module EconomicCalendar.
Import Py Stdlib.Strings.Ascii.
Local Open Scope Q_scope.

(** A calendar event as it is fetched; every key is read with [.get].  A
    date is a valid time, in seconds. *)
Record event := {
  title : option string;
  currency : option string;
  impact : option string;
  date : option Q
}.

(** The dictionary lines 91-100 build for an event (the texts
    ["forecast"], ["previous"] and the rounded ["time_until_hours"], which
    only go into the prompt of the reasoning service, are left out). *)
Record formatted_event := {
  fe_name : string;
  fe_currency : string;
  fe_impact : string;
  fe_time : Q;
  fe_is_past : bool
}.

(** The same dictionary read with [.get], as
    [create_fallback_economic_analysis] reads its events. *)
Record event_dict := {
  ed_name : option string;
  ed_currency : option string;
  ed_impact : option string;
  ed_time : option Q;
  ed_is_past : option bool
}.

Definition as_dict (f : formatted_event) : event_dict :=
  {| ed_name := Some (fe_name f);
     ed_currency := Some (fe_currency f);
     ed_impact := Some (fe_impact f);
     ed_time := Some (fe_time f);
     ed_is_past := Some (fe_is_past f) |}.

(** A factor of the analysis: one of the fallback's, or the one the error
    path reports, whose value is the message of the [ValueError] raised
    for that impact. *)
Inductive factor :=
| EventFactor (event_name currency0 impact0 interpretation : string)
| ErrorFactor (impact_level : string).

(** The dictionary an analysis returns ([summary], a formatted float, is
    left out). *)
Record economic_analysis := {
  direction : string;
  confidence_score : Q;
  factors : list factor;
  events : list event_dict
}.

Definition slash : ascii := "/"%char.

(** [s.split('/')] *)
Fixpoint split_slash (s : string) : list string :=
  match s with
  | EmptyString => [EmptyString]
  | String c s' =>
      if Ascii.eqb c slash then EmptyString :: split_slash s'
      else match split_slash s' with
           | p :: ps => String c p :: ps
           | [] => [String c EmptyString]
           end
  end.

(** [s[:n]] and [s[n:]] *)
Fixpoint take_chars (n : nat) (s : string) : string :=
  match n, s with
  | S n', String c s' => String c (take_chars n' s')
  | _, _ => EmptyString
  end.

Fixpoint drop_chars (n : nat) (s : string) : string :=
  match n, s with
  | S n', String _ s' => drop_chars n' s'
  | _, _ => s
  end.

(** Lines 54-59: base and quote currency of a pair. *)
Definition currencies (currency_pair : string) : string * string :=
  match split_slash currency_pair with
  | [base_currency; quote_currency] => (base_currency, quote_currency)
  | _ => (take_chars 3 currency_pair, drop_chars 3 currency_pair)
  end.

(** [event.get("currency") in [base_currency, quote_currency]] *)
Definition relevant (base_currency quote_currency : string) (e : event)
    : bool :=
  match currency e with
  | Some c => String.eqb c base_currency || String.eqb c quote_currency
  | None => false
  end.

(** [["LOW", "MEDIUM", "HIGH"].index(x)], a [ValueError] for another
    string. *)
Definition impact_index (x : string) : option Z :=
  if String.eqb x "LOW" then Some 0%Z
  else if String.eqb x "MEDIUM" then Some 1%Z
  else if String.eqb x "HIGH" then Some 2%Z
  else None.

(** The sort key of lines 69-72: impact, highest first, then distance in
    time.  The clock is read twice for it: [t0] is the reading that stands
    for a missing date, [t1] the later one the date is compared with. *)
Definition sort_key (t0 t1 : Q) (e : event) : string + Z * Q :=
  let impact_level := default "LOW" (impact e) in
  match impact_index impact_level with
  | Some i => inr ((- i)%Z, Qabs (default t0 (date e) - t1))
  | None => inl impact_level
  end.

(** The keys of all the elements, computed in order before the list is
    rearranged; the first that raises ends the sort.  [clock n] is the
    [n]-th reading of the clock during the call, counted from 0, and [k]
    the number of readings made so far. *)
Fixpoint keyed (clock : nat -> Q) (k : nat) (l : list event)
    : string + list (Z * Q * event) :=
  match l with
  | [] => inr []
  | e :: l' =>
      match sort_key (clock k) (clock (S k)) e with
      | inl x => inl x
      | inr key =>
          match keyed clock (S (S k)) l' with
          | inl x => inl x
          | inr kl => inr ((key, e) :: kl)
          end
      end
  end.

(** The order of the key tuples. *)
Definition key_le (k1 k2 : Z * Q) : bool :=
  (fst k1 <? fst k2)%Z || ((fst k1 =? fst k2)%Z && Qleb (snd k1) (snd k2)).

(** [list.sort(key=...)], which is stable: insertion from the right, each
    element before the first one whose key is not smaller. *)
Fixpoint insert_by_key (x : Z * Q * event) (l : list (Z * Q * event))
    : list (Z * Q * event) :=
  match l with
  | [] => [x]
  | y :: l' =>
      if key_le (fst x) (fst y) then x :: l else y :: insert_by_key x l'
  end.

Definition sort_by_key (l : list (Z * Q * event)) : list (Z * Q * event) :=
  foldr insert_by_key [] l.

(** Lines 89-100, for one event.  The clock is read twice again: [t0]
    stands for a missing date (line 89), [t1] is the reading of line 90. *)
Definition formatted (t0 t1 : Q) (e : event) : formatted_event :=
  let event_time := default t0 (date e) in
  let time_until := (event_time - t1) / 3600 in
  {| fe_name := default "Unknown Event" (title e);
     fe_currency := default "" (currency e);
     fe_impact := default "LOW" (impact e);
     fe_time := event_time;
     fe_is_past := Qltb time_until 0 |}.

(** Lines 87-101: the loop, after [k] readings of the clock. *)
Fixpoint formatted_events (clock : nat -> Q) (k : nat) (l : list event)
    : list formatted_event :=
  match l with
  | [] => []
  | e :: l' =>
      formatted (clock k) (clock (S k)) e
      :: formatted_events clock (S (S k)) l'
  end.

(** [{"LOW": 0.2, "MEDIUM": 0.5, "HIGH": 1.0}.get(impact_level, 0.2)] *)
Definition impact_value (impact_level : string) : Q :=
  if String.eqb impact_level "LOW" then 0.2
  else if String.eqb impact_level "MEDIUM" then 0.5
  else if String.eqb impact_level "HIGH" then 1
  else 0.2.

Definition factor_of (currency_pair currency0 impact_level : string)
    (e : event_dict) : factor :=
  EventFactor (default "Unknown Event" (ed_name e)) currency0
    (impact_level +:+ " impact on " +:+ currency_pair)
    (impact_level +:+ " impact event for " +:+ currency0).

(** Lines 236-259: the loop over the events, from the values [factors],
    [base_score] and [quote_score] have before it. *)
Fixpoint score_events (currency_pair base_currency quote_currency : string)
    (l : list event_dict) (factors0 : list factor)
    (base_score quote_score : Q) : list factor * Q * Q :=
  match l with
  | [] => (factors0, base_score, quote_score)
  | e :: l' =>
      let currency0 := default "" (ed_currency e) in
      let impact_level := default "LOW" (ed_impact e) in
      let v := impact_value impact_level in
      if String.eqb currency0 base_currency then
        score_events currency_pair base_currency quote_currency l'
          (factors0 ++ [factor_of currency_pair currency0 impact_level e])
          (base_score + v) quote_score
      else if String.eqb currency0 quote_currency then
        score_events currency_pair base_currency quote_currency l'
          (factors0 ++ [factor_of currency_pair currency0 impact_level e])
          base_score (quote_score + v)
      else
        score_events currency_pair base_currency quote_currency l'
          factors0 base_score quote_score
  end.

(** Lines 261-270. *)
Definition bias (base_score quote_score : Q) : string * Q :=
  if Qgtb base_score (quote_score + 0.3) then
    ("BUY", Qmin 0.7 (0.5 + (base_score - quote_score) * 0.2))
  else if Qgtb quote_score (base_score + 0.3) then
    ("SELL", Qmin 0.7 (0.5 + (quote_score - base_score) * 0.2))
  else ("NEUTRAL", 0.5).

Definition create_fallback_economic_analysis (events0 : list event_dict)
    (currency_pair base_currency quote_currency : string)
    : economic_analysis :=
  let '(factors0, base_score, quote_score) :=
    score_events currency_pair base_currency quote_currency events0 [] 0 0 in
  let '(direction0, confidence) := bias base_score quote_score in
  {| direction := direction0;
     confidence_score := confidence;
     factors := factors0;
     events := events0 |}.

(** The dictionary returned when there is nothing to analyse. *)
Definition no_events : economic_analysis :=
  {| direction := "NEUTRAL"; confidence_score := 0; factors := [];
     events := [] |}.

(** [analyze_events_with_ai] on the formatted events, which have every key
    the prompt reads.  [ai] is the parsed answer of the reasoning service,
    taken to have the keys it is asked for; [None] when the call or the
    parsing fails. *)
Definition analyze_events_with_ai (events0 : list formatted_event)
    (currency_pair base_currency quote_currency : string)
    (ai : option economic_analysis)
    : economic_analysis :=
  match events0 with
  | [] => no_events
  | _ =>
      match ai with
      | Some analysis =>
          {| direction := direction analysis;
             confidence_score := confidence_score analysis;
             factors := factors analysis;
             events := map as_dict events0 |}
      | None =>
          create_fallback_economic_analysis (map as_dict events0)
            currency_pair base_currency quote_currency
      end
  end.

(** Lines 75-76 after the sort: [relevant_events[:5]]. *)
Definition top_events (clock : nat -> Q) (relevant_events : list event)
    : string + list event :=
  match keyed clock 0 relevant_events with
  | inl x => inl x
  | inr kl => inr (take 5 (map snd (sort_by_key kl)))
  end.

(** [analyze_economic_events], with the readings [clock] of the clock: two
    for every key of the sort, then two for every formatted event.  The
    exception the typed input leaves is the [ValueError] of an impact that
    is none of LOW, MEDIUM, HIGH; the handler of lines 112-119 turns it
    into a result. *)
Definition analyze_economic_events (clock : nat -> Q)
    (events0 : list event)
    (currency_pair : string) (ai : option economic_analysis)
    : economic_analysis :=
  let '(base_currency, quote_currency) := currencies currency_pair in
  let relevant_events :=
    List.filter (relevant base_currency quote_currency) events0 in
  match top_events clock relevant_events with
  | inl x =>
      {| direction := "NEUTRAL"; confidence_score := 0;
         factors := [ErrorFactor x]; events := [] |}
  | inr [] => no_events
  | inr top =>
      analyze_events_with_ai
        (formatted_events clock (2 * length relevant_events) top)
        currency_pair base_currency quote_currency ai
  end.

End EconomicCalendar.

(** ** sentiment.py: combining the two engines *)

Module SentimentAnalyzer.
Import Py.
Local Open Scope Q_scope.

(** What [analyze_with_finbert] returns, on both of its paths (the label
    and the three class scores are left out). *)
Record finbert_result := {
  fb_confidence : Q;
  composite_score : Q
}.

(** A sentiment dictionary: the parsed answer of [analyze_with_openai],
    whose keys may be missing, and the ["combined"] entry of
    [analyze_text]. *)
Record text_sentiment := {
  sentiment_score : option Q;
  confidence : option Q;
  explanation : option string;
  timeframe : option string;
  relevance : option Q
}.

(** [max(x, y)]: the first argument unless the second is larger. *)
Definition Qmax (x y : Q) : Q := if Qgtb y x then y else x.

(** The ["combined"] entry that [analyze_text] computes from the results
    of the engines in use. *)
Definition analyze_text (use_finbert use_openai : bool)
    (finbert : finbert_result) (openai : text_sentiment)
    : result text_sentiment :=
  if use_finbert && use_openai then
    let finbert_score := composite_score finbert in
    match sentiment_score openai with
    | None => Raise (KeyError "sentiment_score")
    | Some openai_score =>
        let finbert_weight := fb_confidence finbert in
        match confidence openai with
        | None => Raise (KeyError "confidence")
        | Some openai_weight =>
            let total_weight := finbert_weight + openai_weight in
            let weighted_score :=
              if Qgtb total_weight 0 then
                (finbert_score * finbert_weight
                 + openai_score * openai_weight) / total_weight
              else 0 in
            Ret {| sentiment_score := Some weighted_score;
                   confidence := Some (Qmax finbert_weight openai_weight);
                   explanation :=
                     Some (default "No explanation provided"
                             (explanation openai));
                   timeframe := Some (default "unknown" (timeframe openai));
                   relevance := Some (default 0.5 (relevance openai)) |}
        end
    end
  else if use_finbert then
    Ret {| sentiment_score := Some (composite_score finbert);
           confidence := Some (fb_confidence finbert);
           explanation := Some "Analysis based on FinBERT model only";
           timeframe := Some "unknown";
           relevance := Some 0.5 |}
  else if use_openai then Ret openai
  else
    Ret {| sentiment_score := Some 0;
           confidence := Some 0;
           explanation := Some "No sentiment analysis performed";
           timeframe := Some "unknown";
           relevance := Some 0 |}.

End SentimentAnalyzer.

(** ** sentiment_integration.py: the entry point *)

Module SentimentIntegration.
Import Py Sentiment.
Local Open Scope Q_scope.

(** The dictionary of the [except] branch. *)
Definition failed : sentiment_result :=
  {| sentiment_score := 0;
     confidence := 0;
     direction := "neutral";
     strength := "weak";
     signal_weight := 0;
     news_count := 0 |}.

(** [analyze_sentiment_data].  [fetched] is what [analyze_news_sentiment]
    returns for the pair, [None] when it raises. *)
Definition analyze_sentiment_data (sentiment_data : sentiment)
    (fetched : option sentiment) : sentiment_result :=
  match s_sentiment_score sentiment_data with
  | Some _ => format_sentiment_result sentiment_data
  | None =>
      match fetched with
      | Some sentiment0 => format_sentiment_result sentiment0
      | None => failed
      end
  end.

End SentimentIntegration.

(** ** ai_engine.py: the pipeline *)

Module Pipeline.
Import Py AiEngine.
Local Open Scope Q_scope.

(** [combine_analyses].  [llm] is the parsed answer of the reasoning
    service, taken to have the keys it is asked for; [None] when the call or
    the parsing fails. *)
Definition combine_analyses (currency_pair timeframe : string)
    (technical_analysis fundamental_analysis sentiment_analysis
     economic_analysis : analysis) (llm : option combined_analysis)
    : combined_analysis :=
  match llm with
  | Some analysis0 =>
      {| ca_currency_pair := currency_pair;
         ca_timeframe := timeframe;
         ca_direction := ca_direction analysis0;
         ca_confidence_score := ca_confidence_score analysis0;
         ca_technical_factors := ca_technical_factors analysis0;
         ca_fundamental_factors := ca_fundamental_factors analysis0;
         ca_sentiment_factors := ca_sentiment_factors analysis0;
         ca_economic_factors := ca_economic_factors analysis0;
         ca_reasoning := ca_reasoning analysis0 |}
  | None =>
      fallback_combine_analyses currency_pair timeframe technical_analysis
        fundamental_analysis sentiment_analysis economic_analysis
  end.

(** [combined_analysis["signal"]]: the pipeline's own refusal, or what
    [generate_trading_signal] returns. *)
Inductive pipeline_signal :=
| BelowThreshold
| Built (s : signal_result).

(** Steps 2 and 3 of [analyze_forex_pair], from the four dictionaries that
    step 1 obtains from the analysis services.  [current_price] is
    [technical_data["current_price"]], read only in step 3. *)
Definition analyze_forex_pair (currency_pair timeframe : string)
    (technical_analysis fundamental_analysis sentiment_analysis
     economic_analysis : analysis) (llm : option combined_analysis)
    (current_price : option price)
    : result (combined_analysis * pipeline_signal) :=
  let combined_analysis0 :=
    combine_analyses currency_pair timeframe technical_analysis
      fundamental_analysis sentiment_analysis economic_analysis llm in
  if Qgeb (ca_confidence_score combined_analysis0) 0.65 then
    match current_price with
    | None => Raise (KeyError "current_price")
    | Some p =>
        rbind (generate_trading_signal currency_pair timeframe
                 combined_analysis0 p)
          (fun signal0 => Ret (combined_analysis0, Built signal0))
    end
  else Ret (combined_analysis0, BelowThreshold).

End Pipeline.

(** ** Vocabulary and inputs for the further properties *)

Module Extra.
Import Py.
Local Open Scope Q_scope.

(** *** Fusion *)

(** [BUY] and [SELL] exchanged. *)
Definition mirror (d : string) : string :=
  if String.eqb d "BUY" then "SELL"
  else if String.eqb d "SELL" then "BUY" else d.

Definition mirror_analysis (a : AiEngine.analysis) : AiEngine.analysis :=
  {| AiEngine.direction := mirror <$> AiEngine.direction a;
     AiEngine.confidence_score := AiEngine.confidence_score a;
     AiEngine.factors := AiEngine.factors a |}.

(** The confidence a source enters the mean with. *)
Definition confidence_of (a : AiEngine.analysis) : Q :=
  default 0.5 (AiEngine.confidence_score a).

(** The direction string of a source, as the fusion reads it. *)
Definition direction_of_source (a : AiEngine.analysis) : string :=
  default "NEUTRAL" (AiEngine.direction a).

(** Technical and fundamental say BUY, the two others SELL. *)
Definition majors_buy (i : Claims.source) : AiEngine.analysis :=
  match i with
  | Claims.technical => Claims.opinion "BUY" 0.8
  | Claims.fundamental => Claims.opinion "BUY" 0.6
  | _ => Claims.opinion "SELL" 0.9
  end.

(** Sentiment and economic say BUY, the two others are NEUTRAL. *)
Definition minors_buy (i : Claims.source) : AiEngine.analysis :=
  match i with
  | Claims.sentiment => Claims.opinion "BUY" 0.7
  | Claims.economic => Claims.opinion "BUY" 0.6
  | _ => Claims.opinion "NEUTRAL" 0.5
  end.

(** *** Signals *)

(** [isinstance(e, str)] *)
Definition is_str (e : jelem) : bool :=
  match e with
  | JStr _ => true
  | JDict _ _ => false
  end.


(** A BUY decision whose technical factors are the names of factors, as
    the reasoning service may list them. *)
Definition decision_with_names : AiEngine.combined_analysis :=
  {| AiEngine.ca_currency_pair := "EUR/USD";
     AiEngine.ca_timeframe := "H1";
     AiEngine.ca_direction := "BUY";
     AiEngine.ca_confidence_score := 0.9;
     AiEngine.ca_technical_factors := Some [JStr "rsi_oversold"; JStr "atr"];
     AiEngine.ca_fundamental_factors := [];
     AiEngine.ca_sentiment_factors := [];
     AiEngine.ca_economic_factors := [];
     AiEngine.ca_reasoning := "" |}.

(** *** Reflection *)

(** The outcomes, oldest first, of the updates of [us] for the bucket. *)
Definition outcomes (currency_pair timeframe : string)
    (us : list Claims.update) : list bool :=
  map Claims.u_was_accurate
    (List.filter (Claims.for_bucket currency_pair timeframe) us).

(** How many of them were accurate. *)
Definition accurate (l : list bool) : Z :=
  Z.of_nat (length (List.filter (fun b : bool => b) l)).

(** A per-source analysis whose accuracies lie in [0, 1]. *)
Definition accuracies_in_unit_interval
    (items : list (string * ReflectionEngine.factor_analysis)) : Prop :=
  Forall (fun ka =>
            0 <= default 0 (ReflectionEngine.accuracy (snd ka)) <= 1) items.

(** Every value of the dictionary lies in [0, 1]. *)
Definition in_unit_interval (d : list (string * Q)) : Prop :=
  Forall (fun kv => 0 <= snd kv <= 1) d.

(** What a row records of the history [l] of its bucket. *)
Definition records_history (l : list bool)
    (p : ReflectionEngine.performance) : Prop :=
  ReflectionEngine.recent_signals p = ReflectionEngine.last10 l /\
  ReflectionEngine.accurate_signals p = accurate l /\
  ReflectionEngine.accuracy_rate p ==
    inject_Z (accurate l) / inject_Z (Z.of_nat (length l)) /\
  in_unit_interval (ReflectionEngine.factor_accuracy p).

(** Every stored row records the history of its bucket. *)
Definition history_ok (us : list Claims.update)
    (db : ReflectionEngine.database) : Prop :=
  forall cp tf p,
    ReflectionEngine.ai_performance_metrics db !! (cp, tf) = Some p ->
    records_history (outcomes cp tf us) p.

(** Both kinds of numbers of every update lie in [0, 1]. *)
Definition well_formed (us : list Claims.update) : Prop :=
  Forall (fun u =>
            Claims.impacts_in_unit_interval (Claims.u_items u) /\
            accuracies_in_unit_interval (Claims.u_items u)) us.

(** The weight of source [k] that the next fusion or update would read:
    the stored one, or the one of a new row. *)
Definition weight_in (db : ReflectionEngine.database)
    (currency_pair timeframe k : string) : Q :=
  default 0
    (ReflectionEngine.dict_get k
       (ReflectionEngine.factor_weights
          (default (ReflectionEngine.new_performance currency_pair timeframe)
             (ReflectionEngine.ai_performance_metrics db
                !! (currency_pair, timeframe))))).

(** The items of the analysis substituted for a failed reasoning call. *)
Definition error_items : list (string * ReflectionEngine.factor_analysis) :=
  default []
    (ReflectionEngine.factors_analysis ReflectionEngine.error_reflection).


(** *** Technical scorer *)

(** A block adds at most [B] to the BUY votes, [S] to the SELL votes and
    [V] to both together, takes none away, and adds 0 or [T] to the total. *)
Definition adds {A} (B S V : Q) (T : Z) (m : Technical.block A) : Prop :=
  forall s, let s' := fst (m s) in
    Technical.buy_signals s <= Technical.buy_signals s'
      <= Technical.buy_signals s + B /\
    Technical.sell_signals s <= Technical.sell_signals s'
      <= Technical.sell_signals s + S /\
    Technical.buy_signals s' + Technical.sell_signals s'
      <= Technical.buy_signals s + Technical.sell_signals s + V /\
    (Technical.total_signals s' = Technical.total_signals s \/
     Technical.total_signals s' = Technical.total_signals s + T)%Z.

(** The locals before the first indicator group. *)
Definition no_votes : Technical.tally :=
  {| Technical.analysis_factors := []; Technical.buy_signals := 0;
     Technical.sell_signals := 0; Technical.total_signals := 0 |}.



(** *** Economic calendar *)

(** The number of slashes of a string, and the parts of a split joined
    again. *)
Fixpoint slashes (s : string) : nat :=
  match s with
  | EmptyString => 0
  | String c s' =>
      if Ascii.eqb c EconomicCalendar.slash then S (slashes s')
      else slashes s'
  end.

Fixpoint join_slash (l : list string) : string :=
  match l with
  | [] => EmptyString
  | [p] => p
  | p :: ps => p +:+ "/" +:+ join_slash ps
  end.

(** The currency and the impact value the fallback analysis reads from an
    event. *)
Definition currency_of (e : EconomicCalendar.event_dict) : string :=
  default "" (EconomicCalendar.ed_currency e).

Definition value_of_event (e : EconomicCalendar.event_dict) : Q :=
  EconomicCalendar.impact_value
    (default "LOW" (EconomicCalendar.ed_impact e)).

(** The summed impact of the events of one currency. *)
Definition exposure (c : string) (l : list EconomicCalendar.event_dict)
    : Q :=
  Py.sum (map value_of_event
            (List.filter (fun e => String.eqb (currency_of e) c) l)).

(** Whether the fallback analysis counts an event. *)
Definition counted (base_currency quote_currency : string)
    (e : EconomicCalendar.event_dict) : bool :=
  String.eqb (currency_of e) base_currency
  || String.eqb (currency_of e) quote_currency.



(** A clock that advances by a microsecond from one reading to the
    next. *)
Definition ticking (n : nat) : Q := inject_Z (Z.of_nat n) * 0.000001.


(** A week of events around the time 0. *)
Definition nfp : EconomicCalendar.event :=
  {| EconomicCalendar.title := Some "Non-Farm Payrolls";
     EconomicCalendar.currency := Some "USD";
     EconomicCalendar.impact := Some "HIGH";
     EconomicCalendar.date := Some 7200 |}.

Definition ecb_speech : EconomicCalendar.event :=
  {| EconomicCalendar.title := Some "ECB speech";
     EconomicCalendar.currency := Some "EUR";
     EconomicCalendar.impact := Some "MEDIUM";
     EconomicCalendar.date := Some (-3600) |}.

Definition boj_rate : EconomicCalendar.event :=
  {| EconomicCalendar.title := Some "BoJ rate";
     EconomicCalendar.currency := Some "JPY";
     EconomicCalendar.impact := Some "HIGH";
     EconomicCalendar.date := Some 100 |}.

Definition holiday : EconomicCalendar.event :=
  {| EconomicCalendar.title := Some "Bank holiday";
     EconomicCalendar.currency := Some "USD";
     EconomicCalendar.impact := Some "Non-Economic";
     EconomicCalendar.date := None |}.

Definition week : list EconomicCalendar.event :=
  [ecb_speech; boj_rate; nfp].

(** *** Sentiment *)

(** A strongly negative reading, and an empty dictionary. *)
Definition negative_news : Sentiment.sentiment :=
  {| Sentiment.s_sentiment_score := Some (-0.8);
     Sentiment.s_confidence := Some 0.9;
     Sentiment.s_news_count := Some 3 |}.

Definition no_sentiment : Sentiment.sentiment :=
  {| Sentiment.s_sentiment_score := None;
     Sentiment.s_confidence := None;
     Sentiment.s_news_count := None |}.

(** A confident positive reading of the classifier and a mildly negative
    answer of the reasoning service. *)
Definition finbert_positive : SentimentAnalyzer.finbert_result :=
  {| SentimentAnalyzer.fb_confidence := 0.9;
     SentimentAnalyzer.composite_score := 0.8 |}.

Definition openai_negative : SentimentAnalyzer.text_sentiment :=
  {| SentimentAnalyzer.sentiment_score := Some (-0.2);
     SentimentAnalyzer.confidence := Some 0.3;
     SentimentAnalyzer.explanation := None;
     SentimentAnalyzer.timeframe := Some "short-term";
     SentimentAnalyzer.relevance := None |}.

End Extra.

(** * Properties *)

(** ** Comparisons of floats *)

Section Comparisons.
Import Py.
Local Open Scope Q_scope.

Lemma Qltb_lt (x y : Q) : Qltb x y = true <-> x < y.
Proof.
  unfold Qltb. rewrite negb_true_iff, <- not_true_iff_false, Qle_bool_iff.
  split; [apply Qnot_le_lt | apply Qlt_not_le].
Qed.

Lemma Qltb_ge (x y : Q) : Qltb x y = false <-> y <= x.
Proof. unfold Qltb. rewrite negb_false_iff. apply Qle_bool_iff. Qed.

Lemma Qgtb_gt (x y : Q) : Qgtb x y = true <-> y < x.
Proof. apply Qltb_lt. Qed.

Lemma Qgtb_le (x y : Q) : Qgtb x y = false <-> x <= y.
Proof. apply Qltb_ge. Qed.

Lemma Qleb_le (x y : Q) : Qleb x y = true <-> x <= y.
Proof. apply Qle_bool_iff. Qed.

Lemma Qgeb_ge (x y : Q) : Qgeb x y = true <-> y <= x.
Proof. apply Qle_bool_iff. Qed.

Lemma Qltb_spec (x y : Q) : reflect (x < y) (Qltb x y).
Proof.
  destruct (Qltb x y) eqn:E; constructor.
  - by apply Qltb_lt.
  - apply Qltb_ge in E. by apply Qle_not_lt.
Qed.

Lemma Qmin_le_l (x y : Q) : Qmin x y <= x.
Proof. unfold Qmin. destruct (Qltb_spec y x); lra. Qed.

Lemma Qmin_le_r (x y : Q) : Qmin x y <= y.
Proof. unfold Qmin. destruct (Qltb_spec y x); lra. Qed.

Lemma Qmin_cases (x y : Q) :
  (y < x /\ Qmin x y = y) \/ (x <= y /\ Qmin x y = x).
Proof.
  unfold Qmin. destruct (Qltb_spec y x); [left | right]; split; lra || done.
Qed.

End Comparisons.

(** ** The fallback fusion *)

Section Fusion.
Import Py AiEngine.
Local Open Scope Q_scope.

Lemma weight_literal :
  weight "technical" = 0.4 /\ weight "fundamental" = 0.3 /\
  weight "sentiment" = 0.15 /\ weight "economic" = 0.15.
Proof. repeat split; reflexivity. Qed.

Lemma direction_value_known :
  direction_value "BUY" = 1%Z /\ direction_value "NEUTRAL" = 0%Z /\
  direction_value "SELL" = (-1)%Z.
Proof. repeat split; reflexivity. Qed.

Lemma direction_value_other (d : string) :
  d <> "BUY" -> d <> "SELL" -> d <> "NEUTRAL" -> direction_value d = 0%Z.
Proof.
  intros Hb Hs Hn. unfold direction_value, direction_map.
  by rewrite !lookup_insert_ne, lookup_empty.
Qed.

Lemma direction_of_cases (c : Q) :
  (0.2 < c /\ direction_of c = "BUY") \/
  (c < -0.2 /\ direction_of c = "SELL") \/
  (-0.2 <= c <= 0.2 /\ direction_of c = "NEUTRAL").
Proof.
  unfold direction_of, Qgtb.
  destruct (Qltb_spec 0.2 c); [by left|].
  destruct (Qltb_spec c (-0.2)); [right; by left|].
  right; right. split; [lra | done].
Qed.

Lemma direction_of_range (c : Q) :
  direction_of c = "BUY" \/ direction_of c = "SELL" \/
  direction_of c = "NEUTRAL".
Proof. destruct (direction_of_cases c) as [[_ ->]|[[_ ->]|[_ ->]]]; auto. Qed.

Lemma agreeing_other (a : analysis) (d : string) (c : Q) :
  direction a = Some d -> d <> "BUY" -> d <> "SELL" -> d <> "NEUTRAL" ->
  agreeing a (direction_of c) = [].
Proof.
  intros Ha Hb Hs Hn. unfold agreeing. rewrite Ha. simpl.
  destruct (String.eqb_spec d (direction_of c)) as [E|]; [|done].
  destruct (direction_of_range c) as [H|[H|H]]; congruence.
Qed.

(** The vote the code computes, through its dictionaries of values and
    weights, is the weighted sum written out. *)
Lemma combined_value_is_spec_vote (t f s e : analysis) :
  combined_value t f s e == Claims.spec_vote t f s e.
Proof.
  assert (H : forall a,
            inject_Z (direction_value (default "NEUTRAL" (direction a)))
            == Claims.spec_direction_value a).
  { intros a. unfold Claims.spec_direction_value. cbn zeta.
    destruct (String.eqb_spec (default "NEUTRAL" (direction a)) "BUY")
      as [-> | Hb]; [reflexivity|].
    destruct (String.eqb_spec (default "NEUTRAL" (direction a)) "SELL")
      as [-> | Hs]; [reflexivity|].
    destruct (String.eqb_spec (default "NEUTRAL" (direction a)) "NEUTRAL")
      as [-> | Hn]; [reflexivity|].
    by rewrite direction_value_other. }
  destruct weight_literal as (Wt & Wf & Ws & We).
  unfold combined_value, Claims.spec_vote. cbn zeta.
  by rewrite !H, Wt, Wf, Ws, We.
Qed.

(** C3.  With [combined] the weighted sum of the four direction values
    (BUY +1, NEUTRAL 0, SELL -1; weights 0.4, 0.3, 0.15, 0.15), which is
    the vote the code computes, the direction returned by the fallback
    fusion is NEUTRAL exactly when [combined] lies in [-0.2, 0.2], BUY
    exactly when it is above 0.2 and SELL exactly when it is below -0.2. *)
Theorem fallback_direction_thresholds (currency_pair timeframe : string)
    (t f s e : analysis) :
  let combined := Claims.spec_vote t f s e in
  let d := ca_direction
             (fallback_combine_analyses currency_pair timeframe t f s e) in
  combined_value t f s e == combined /\
  (d = "NEUTRAL" <-> -0.2 <= combined <= 0.2) /\
  (d = "BUY" <-> 0.2 < combined) /\
  (d = "SELL" <-> combined < -0.2).
Proof.
  cbn zeta. cbn [fallback_combine_analyses ca_direction].
  pose proof (combined_value_is_spec_vote t f s e) as Hv.
  split; [exact Hv|].
  destruct (direction_of_cases (combined_value t f s e))
    as [[H ->]|[[H ->]|[H ->]]];
    repeat split; intros; try done; lra.
Qed.

(** Scenario A: the vote is 0.25, the direction BUY and the confidence the
    mean 0.75 of the two agreeing sources. *)
Lemma scenario_A_fallback :
  Claims.combined_of Claims.scenario_A == 0.25 /\
  ca_direction (Claims.fuse "EUR/USD" "H1" Claims.scenario_A) = "BUY" /\
  ca_confidence_score (Claims.fuse "EUR/USD" "H1" Claims.scenario_A) == 0.75.
Proof.
  repeat split; try (apply Qeq_bool_eq; vm_compute; reflexivity).
Qed.

(** C1, as the code has it.  The weighted vote of the fallback fusion uses
    the fixed weights 0.4 / 0.3 / 0.15 / 0.15 for technical / fundamental /
    sentiment / economic: whatever the performance metrics of the pair and
    timeframe hold, it is the vote the specification describes for a bucket
    without learned weights. *)
Theorem fallback_weights_are_fixed (db : ReflectionEngine.database)
    (currency_pair timeframe : string) (q : Claims.source -> analysis) :
  Claims.combined_of q ==
    Claims.value_of (q Claims.technical) * 0.4 +
    Claims.value_of (q Claims.fundamental) * 0.3 +
    Claims.value_of (q Claims.sentiment) * 0.15 +
    Claims.value_of (q Claims.economic) * 0.15 /\
  Claims.combined_of q ==
    Claims.spec_combined Claims.empty_db currency_pair timeframe q /\
  ca_direction (Claims.fuse currency_pair timeframe q) =
    direction_of
      (Claims.spec_combined Claims.empty_db currency_pair timeframe q).
Proof.
  assert (E : Claims.combined_of q =
              Claims.spec_combined Claims.empty_db currency_pair timeframe q)
    by reflexivity.
  split; [reflexivity|]. split; [by rewrite E|].
  unfold Claims.fuse. cbn [fallback_combine_analyses ca_direction].
  by rewrite <- E.
Qed.

(** C1, as stated, fails: once a reflection has stored learned weights for
    EUR/USD H1 (0.2 / 0.4 / 0.2 / 0.2), the specification's vote for a lone
    technical BUY is 0.2 (NEUTRAL), the code's is 0.4 (BUY). *)
Lemma fallback_ignores_learned_weights :
  Claims.spec_combined Claims.learned_db "EUR/USD" "H1"
    Claims.technical_buy_only == 0.2 /\
  Claims.combined_of Claims.technical_buy_only == 0.4 /\
  ~ (Claims.combined_of Claims.technical_buy_only ==
       Claims.spec_combined Claims.learned_db "EUR/USD" "H1"
         Claims.technical_buy_only) /\
  ca_direction (Claims.fuse "EUR/USD" "H1" Claims.technical_buy_only) = "BUY" /\
  direction_of (Claims.spec_combined Claims.learned_db "EUR/USD" "H1"
                  Claims.technical_buy_only) = "NEUTRAL".
Proof.
  repeat split; try (apply Qeq_bool_eq; vm_compute; reflexivity);
    try (vm_compute; reflexivity).
  apply Qeq_bool_neq. vm_compute. reflexivity.
Qed.

(** C10.  An opinion whose direction is none of "BUY", "SELL", "NEUTRAL"
    weighs 0 in the vote, as a NEUTRAL opinion does; it never equals the
    chosen direction, so its confidence never enters the combined
    confidence: the decision is the same whatever that confidence is. *)
Theorem unknown_direction_is_inert (currency_pair timeframe : string)
    (q : Claims.source -> analysis) (i : Claims.source) (d : string) :
  direction (q i) = Some d ->
  d <> "BUY" -> d <> "SELL" -> d <> "NEUTRAL" ->
  direction_value d = 0%Z /\
  Claims.combined_of q =
    Claims.combined_of
      (Claims.replace i (Claims.with_direction (q i) "NEUTRAL") q) /\
  agreeing (q i)
    (ca_direction (Claims.fuse currency_pair timeframe q)) = [] /\
  forall c : option Q,
    let q' := Claims.replace i (Claims.with_confidence (q i) c) q in
    ca_direction (Claims.fuse currency_pair timeframe q') =
      ca_direction (Claims.fuse currency_pair timeframe q) /\
    ca_confidence_score (Claims.fuse currency_pair timeframe q') =
      ca_confidence_score (Claims.fuse currency_pair timeframe q).
Proof.
  intros Hd Hb Hs Hn.
  pose proof (direction_value_other d Hb Hs Hn) as Hv.
  split; [done|]. split.
  { unfold Claims.combined_of, combined_value.
    destruct i; cbn [Claims.replace Claims.source_eqb Claims.with_direction
                     direction]; rewrite Hd; cbn [from_option id];
      rewrite Hv; reflexivity. }
  split.
  { unfold Claims.fuse. cbn [fallback_combine_analyses ca_direction].
    by eapply agreeing_other. }
  intros c q'.
  assert (Hc : Claims.combined_of q' = Claims.combined_of q).
  { unfold q', Claims.combined_of, combined_value.
    destruct i; reflexivity. }
  unfold Claims.combined_of in Hc.
  unfold Claims.fuse.
  cbn [fallback_combine_analyses ca_direction ca_confidence_score].
  rewrite Hc. split; [done|]. f_equal.
  set (x := combined_value _ _ _ _).
  assert (Hq : agreeing (q i) (direction_of x) = [])
    by (by eapply agreeing_other).
  assert (Hq' : agreeing (Claims.with_confidence (q i) c) (direction_of x)
                = []) by (by eapply agreeing_other).
  unfold confidence_factors, q'.
  destruct i; cbn [Claims.replace Claims.source_eqb];
    rewrite Hq, Hq'; reflexivity.
Qed.

Lemma format_sentiment_direction (s : Sentiment.sentiment) :
  let d := Sentiment.direction (Sentiment.format_sentiment_result s) in
  d = "bullish" \/ d = "bearish" \/ d = "neutral".
Proof.
  cbn. destruct (Qgtb _ _); [by left|].
  destruct (Qltb _ _); [right; by left | right; by right].
Qed.

(** The sentiment adapter's "bullish" opinion, in Scenario A. *)
Lemma unknown_direction_is_inert_witness :
  direction_value "bullish" = 0%Z /\
  ca_direction (Claims.fuse "EUR/USD" "H1" Claims.with_adapter_sentiment)
    = "BUY" /\
  agreeing (Claims.with_adapter_sentiment Claims.sentiment) "BUY" = [].
Proof.
  destruct (unknown_direction_is_inert "EUR/USD" "H1"
              Claims.with_adapter_sentiment Claims.sentiment "bullish")
    as (Hv & _ & Ha & _); [reflexivity | done | done | done |].
  split; [exact Hv|]. split; [reflexivity|]. exact Ha.
Defined.

End Fusion.

(** ** The signal builder *)

Section SignalBuilder.
Import Py AiEngine.
Local Open Scope Q_scope.

Lemma Qeq_bool_false_neq (x y : Q) : Qeq_bool x y = false <-> ~ x == y.
Proof.
  split; [apply Qeq_bool_neq|]. intros H.
  destruct (Qeq_bool x y) eqn:E; [|done]. by apply Qeq_bool_eq in E.
Qed.

Lemma risk_reward_spec (entry_price stop_loss take_profit : Q) :
  exists r, risk_reward entry_price stop_loss take_profit = Ret r /\
    (Qabs (entry_price - stop_loss) == 0 -> r == 0) /\
    (~ Qabs (entry_price - stop_loss) == 0 ->
     r == Qabs (take_profit - entry_price) / Qabs (entry_price - stop_loss)).
Proof.
  unfold risk_reward, Qgtb, truediv.
  pose proof (Qabs_nonneg (entry_price - stop_loss)) as Hpos.
  destruct (Qltb_spec 0 (Qabs (entry_price - stop_loss))) as [Hlt|Hge].
  - assert (Hne : ~ Qabs (entry_price - stop_loss) == 0) by lra.
    apply Qeq_bool_false_neq in Hne. rewrite Hne.
    eexists; split; [done|]. split; [lra | done].
  - exists 0. split; [done|]. split; [done | lra].
Qed.

Lemma next_atr_value_exn (l : list jelem) (e : exn) :
  next_atr_value l = Raise e -> e = AttributeError.
Proof.
  induction l as [|[name value|s] l IH]; simpl; [done| |congruence].
  destruct name as [n|]; [|done]. by destruct (String.eqb n "atr").
Qed.

Lemma volatility_unit_exn (ca : combined_analysis) (entry_price : Q)
    (e : exn) :
  volatility_unit ca entry_price = Raise e -> e <> ZeroDivisionError.
Proof.
  unfold volatility_unit. destruct (contains_atr _); [|done].
  destruct (ca_technical_factors ca) as [l|]; [|congruence].
  destruct (next_atr_value l) eqn:E; simpl.
  - by destruct (Qeq_bool a 0).
  - apply next_atr_value_exn in E. congruence.
Qed.

(** C8.  Building a signal never raises a division by zero, and every
    generated signal has [risk_reward_ratio = reward / risk], or 0 when the
    risk is 0, for [risk = |entry_price - stop_loss|] and
    [reward = |take_profit - entry_price|]. *)
Theorem risk_reward_ratio_total (currency_pair timeframe : string)
    (ca : combined_analysis) (current_price : price) :
  generate_trading_signal currency_pair timeframe ca current_price
    <> Raise ZeroDivisionError /\
  forall s : signal,
    generate_trading_signal currency_pair timeframe ca current_price
      = Ret (Generated s) ->
    let risk := Qabs (sg_entry_price s - sg_stop_loss s) in
    let reward := Qabs (sg_take_profit s - sg_entry_price s) in
    (risk == 0 -> sg_risk_reward_ratio s == 0) /\
    (~ risk == 0 -> sg_risk_reward_ratio s == reward / risk).
Proof.
  unfold generate_trading_signal.
  destruct (_ || _); [split; [done | intros s [=]]|].
  set (entry_price := if String.eqb _ _ then _ else _).
  destruct (volatility_unit ca entry_price) as [atr|e] eqn:Ev; simpl.
  2: { apply volatility_unit_exn in Ev. split; [congruence | done]. }
  set (stop_loss := if String.eqb _ _ then _ else _).
  set (take_profit := if String.eqb _ _ then _ else _).
  destruct (risk_reward_spec entry_price stop_loss take_profit)
    as (r & -> & H0 & H1); simpl.
  destruct (ca_technical_factors ca); [|split; [done | intros s [=]]].
  split; [done|]. intros s [= <-]. simpl. auto.
Qed.

(** An ordinary quote, where the risk is not zero, and a quote at zero,
    where it is. *)
Lemma risk_reward_ratio_total_witness :
  (exists s,
     generate_trading_signal "EUR/USD" "H1" Claims.decision_with_atr
       Claims.quote_11000 = Ret (Generated s) /\
     ~ Qabs (sg_entry_price s - sg_stop_loss s) == 0 /\
     sg_risk_reward_ratio s ==
       Qabs (sg_take_profit s - sg_entry_price s)
       / Qabs (sg_entry_price s - sg_stop_loss s)) /\
  (exists s,
     generate_trading_signal "EUR/USD" "H1" Claims.decision_with_atr
       Claims.quote_zero = Ret (Generated s) /\
     Qabs (sg_entry_price s - sg_stop_loss s) == 0 /\
     sg_risk_reward_ratio s == 0).
Proof.
  split.
  - destruct (generate_trading_signal "EUR/USD" "H1" Claims.decision_with_atr
                Claims.quote_11000) as [[|s]|] eqn:E; try discriminate E.
    exists s. split; [reflexivity|].
    destruct (risk_reward_ratio_total "EUR/USD" "H1" Claims.decision_with_atr
                Claims.quote_11000) as [_ H].
    destruct (H s E) as [_ H1]. injection E as <-.
    assert (Hr : ~ Qabs (1.1 - (1.1 - 1.1 * 0.005 * 1.5)) == 0)
      by (apply Qeq_bool_neq; vm_compute; reflexivity).
    split; [exact Hr | exact (H1 Hr)].
  - destruct (generate_trading_signal "EUR/USD" "H1" Claims.decision_with_atr
                Claims.quote_zero) as [[|s]|] eqn:E; try discriminate E.
    exists s. split; [reflexivity|].
    destruct (risk_reward_ratio_total "EUR/USD" "H1" Claims.decision_with_atr
                Claims.quote_zero) as [_ H].
    destruct (H s E) as [H0 _]. injection E as <-.
    assert (Hr : Qabs (0 - (0 - 0 * 0.005 * 1.5)) == 0)
      by (vm_compute; reflexivity).
    split; [exact Hr | exact (H0 Hr)].
Defined.

(** Scenario C: at confidence 0.60 no signal is built. *)
Lemma scenario_C_suppressed :
  generate_trading_signal "EUR/USD" "H1" Claims.decision_at_060
    Claims.quote_11000 = Ret NoSignal.
Proof. reflexivity. Qed.

(** Stop and target of a generated signal lie 1.5 and 2.5 volatility units
    from the entry, on the sides its direction asks for. *)
Lemma stop_and_target (currency_pair timeframe : string)
    (ca : combined_analysis) (current_price : price) (s : signal) :
  generate_trading_signal currency_pair timeframe ca current_price
    = Ret (Generated s) ->
  exists atr, volatility_unit ca (sg_entry_price s) = Ret atr /\
    if String.eqb (sg_direction s) "BUY"
    then sg_entry_price s = ask current_price /\
         sg_stop_loss s = sg_entry_price s - atr * 1.5 /\
         sg_take_profit s = sg_entry_price s + atr * 2.5
    else sg_entry_price s = bid current_price /\
         sg_stop_loss s = sg_entry_price s + atr * 1.5 /\
         sg_take_profit s = sg_entry_price s - atr * 2.5.
Proof.
  unfold generate_trading_signal.
  destruct (_ || _); [done|].
  set (entry_price := if String.eqb _ _ then _ else _).
  destruct (volatility_unit ca entry_price) as [atr|e] eqn:Ev; [|done].
  cbn [rbind]. destruct (risk_reward _ _ _); [|done]. cbn [rbind].
  destruct (ca_technical_factors ca); [|done].
  intros [= <-]. cbn. exists atr. split; [exact Ev|].
  unfold entry_price. by destruct (String.eqb (ca_direction ca) "BUY").
Qed.

Lemma contains_atr_dicts (l : list jelem) :
  forallb Claims.is_dict l = true -> contains_atr l = false.
Proof.
  induction l as [|[name value|x] l IH]; simpl; [done| |done].
  apply IH.
Qed.

(** Whatever factor dictionaries the technical factors hold, an ATR factor
    among them or not, the volatility unit is 0.5% of the entry price: the
    membership test of line 260 looks for the string "atr" itself. *)
Lemma volatility_unit_of_dicts (ca : combined_analysis) (l : list jelem)
    (entry_price : Q) :
  ca_technical_factors ca = Some l -> forallb Claims.is_dict l = true ->
  volatility_unit ca entry_price = Ret (entry_price * 0.005).
Proof.
  intros Hl Hd. unfold volatility_unit. rewrite Hl. cbn [from_option id].
  by rewrite contains_atr_dicts.
Qed.

(** C7, at a BUY decision that carries the ATR factor 0.0050, quoted at
    1.1000.  The factor is not used: the volatility unit is 0.5% of the
    entry, 0.0055, so the stop is 1.09175 and the target 1.11375, not the
    1.0925 and 1.1125 that 1.5 and 2.5 times the ATR give. *)
Theorem atr_factor_is_not_used :
  volatility_unit Claims.decision_with_atr 1.1 = Ret (1.1 * 0.005) /\
  exists s,
    generate_trading_signal "EUR/USD" "H1" Claims.decision_with_atr
      Claims.quote_11000 = Ret (Generated s) /\
    sg_entry_price s == 1.1 /\
    sg_stop_loss s == 1.09175 /\ sg_take_profit s == 1.11375 /\
    ~ sg_stop_loss s == 1.1 - 1.5 * 0.005 /\
    ~ sg_take_profit s == 1.1 + 2.5 * 0.005.
Proof.
  split; [reflexivity|]. eexists. split; [vm_compute; reflexivity|].
  repeat split; try (apply Qeq_bool_eq; vm_compute; reflexivity);
    apply Qeq_bool_neq; vm_compute; reflexivity.
Qed.

End SignalBuilder.

(** ** The reflection engine *)

Section Reflection.
Import Py ReflectionEngine.
Local Open Scope Q_scope.

Lemma is_source_cases (k : string) :
  Claims.is_source k = true ->
  k = "technical" \/ k = "fundamental" \/ k = "sentiment" \/ k = "economic".
Proof.
  unfold Claims.is_source. rewrite !orb_true_iff, !String.eqb_eq. tauto.
Qed.

Lemma truediv_nonzero (x y : Q) : ~ y == 0 -> truediv x y = Ret (x / y).
Proof.
  intros H. unfold truediv. apply Qeq_bool_false_neq in H. by rewrite H.
Qed.

Lemma inject_Z_nonzero (n : Z) : (0 < n)%Z -> ~ inject_Z n == 0.
Proof. unfold Qeq. simpl. lia. Qed.

Lemma update_factors_four (total : Z)
    (items : list (string * factor_analysis)) :
  (0 < total)%Z ->
  Claims.impacts_in_unit_interval items ->
  forall (acc : list (string * Q)) (a b c d : Q),
    0 <= a -> 0 <= b -> 0 <= c -> 0 <= d -> 0 < a + b + c + d ->
    exists acc' a' b' c' d',
      update_factors total items acc (Claims.four a b c d)
        = Ret (acc', Claims.four a' b' c' d') /\
      0 <= a' /\ 0 <= b' /\ 0 <= c' /\ 0 <= d' /\ 0 < a' + b' + c' + d'.
Proof.
  intros Ht Hitems.
  induction Hitems as [|ka items Hka Hitems IH];
    intros acc a b c d Ha Hb Hc Hd Hs.
  - simpl. by exists acc, a, b, c, d.
  - destruct ka as [k fa]. destruct Hka as [Hk Hi].
    cbn [update_factors]. rewrite truediv_nonzero by by apply inject_Z_nonzero.
    cbn [rbind]. simpl in Hk, Hi.
    destruct (is_source_cases k Hk) as [-> | [-> | [-> | ->]]];
      cbn -[update_factors Qmult Qplus]; apply IH; lra.
Qed.

Lemma normalize_four (t a b c d : Q) :
  ~ t == 0 ->
  normalize t (Claims.four a b c d)
    = Ret (Claims.four (a / t) (b / t) (c / t) (d / t)).
Proof.
  intros Ht. unfold Claims.four. cbn [normalize].
  rewrite !truediv_nonzero by done. reflexivity.
Qed.

Lemma Qdiv_nonneg (x t : Q) : 0 <= x -> 0 < t -> 0 <= x / t.
Proof. intros Hx Ht. apply Qle_shift_div_l; lra. Qed.

Lemma updated_performance_ok (p : performance) (ok : bool)
    (items : list (string * factor_analysis)) (cp tf : string) (n : Z) :
  (0 <= n)%Z -> Claims.bucket_ok cp tf n p ->
  Claims.impacts_in_unit_interval items ->
  exists p', updated_performance p ok items = Ret p' /\
    Claims.bucket_ok cp tf (n + 1) p' /\
    accurate_signals p' = (accurate_signals p + if ok then 1 else 0)%Z /\
    accuracy_rate p' ==
      inject_Z (accurate_signals p') / inject_Z (total_signals p').
Proof.
  intros Hn (Hcp & Htf & Htot & a & b & c & d & Hw & Ha & Hb & Hc & Hd & Hs)
    Hitems.
  unfold updated_performance. rewrite Htot, Hw.
  rewrite truediv_nonzero by (apply inject_Z_nonzero; lia). cbn [rbind].
  destruct (update_factors_four (n + 1) items ltac:(lia) Hitems
              (factor_accuracy p) a b c d) as
    (acc' & a' & b' & c' & d' & -> & Ha' & Hb' & Hc' & Hd' & Hs');
    try lra.
  cbn [rbind]. unfold Claims.four at 1. cbn [values map snd sum fold_left].
  fold (Claims.four a' b' c' d').
  set (t := 0 + a' + b' + c' + d').
  assert (Ht : 0 < t) by (unfold t; lra).
  rewrite normalize_four by lra. cbn [rbind].
  eexists. split; [reflexivity|]. split; [|split].
  - repeat split; cbn; try done.
    exists (a' / t), (b' / t), (c' / t), (d' / t).
    split; [done|]. repeat split; try (apply Qdiv_nonneg; lra).
    unfold t. field. lra.
  - cbn. by destruct ok; rewrite ?Z.add_0_r.
  - cbn. reflexivity.
Qed.

Lemma count_nonneg (cp tf : string) (us : list Claims.update) :
  (0 <= Claims.count cp tf us)%Z.
Proof. unfold Claims.count. lia. Qed.

Lemma count_snoc (cp tf : string) (us : list Claims.update)
    (u : Claims.update) :
  Claims.count cp tf (us ++ [u]) =
    (Claims.count cp tf us + if Claims.for_bucket cp tf u then 1 else 0)%Z.
Proof.
  unfold Claims.count. rewrite List.filter_app, length_app. simpl.
  destruct (Claims.for_bucket cp tf u); simpl; lia.
Qed.

Lemma for_bucket_true (cp tf : string) (u : Claims.update) :
  Claims.for_bucket cp tf u = true <->
  (Claims.u_currency_pair u, Claims.u_timeframe u) = (cp, tf).
Proof.
  unfold Claims.for_bucket. rewrite andb_true_iff, !String.eqb_eq.
  split; [intros [-> ->]; done | intros [= -> ->]; done].
Qed.

Lemma new_performance_ok (cp tf : string) :
  Claims.bucket_ok cp tf 0 (new_performance cp tf).
Proof.
  repeat split. exists 0.25, 0.25, 0.25, 0.25.
  split; [done|]. repeat split; lra.
Qed.

Lemma apply_update_ok (us : list Claims.update) (db : database)
    (u : Claims.update) :
  Claims.db_ok us db -> Claims.impacts_in_unit_interval (Claims.u_items u) ->
  Claims.db_ok (us ++ [u]) (Claims.apply_update db u).
Proof.
  intros Hdb Hu. unfold Claims.apply_update, _update_performance_metrics.
  set (cp0 := Claims.u_currency_pair u). set (tf0 := Claims.u_timeframe u).
  set (p := default _ _).
  assert (Hp : Claims.bucket_ok cp0 tf0 (Claims.count cp0 tf0 us) p).
  { unfold p. specialize (Hdb cp0 tf0).
    destruct (ai_performance_metrics db !! (cp0, tf0)); simpl; [done|].
    rewrite Hdb. apply new_performance_ok. }
  destruct (updated_performance_ok p (Claims.u_was_accurate u)
              (Claims.u_items u) cp0 tf0 _ (count_nonneg _ _ _) Hp Hu)
    as (p' & -> & Hp' & _).
  pose proof Hp' as (Hcp & Htf & _). rewrite Hcp, Htf.
  intros cp tf. cbn [ai_performance_metrics]. rewrite count_snoc.
  destruct (Claims.for_bucket cp tf u) eqn:E.
  - apply for_bucket_true in E. fold cp0 tf0 in E. injection E as <- <-.
    by rewrite lookup_insert_eq.
  - rewrite lookup_insert_ne, Z.add_0_r; [apply Hdb|].
    intros [= <- <-].
    assert (Claims.for_bucket cp0 tf0 u = true) by by apply for_bucket_true.
    congruence.
Qed.

Lemma run_ok (us : list Claims.update) :
  Forall (fun u => Claims.impacts_in_unit_interval (Claims.u_items u)) us ->
  Claims.db_ok us (Claims.run us).
Proof.
  induction us as [|u us IH] using rev_ind; intros Hus.
  - intros cp tf. reflexivity.
  - apply Forall_app in Hus as [Hus Hu]. rewrite Forall_singleton in Hu.
    unfold Claims.run. rewrite fold_left_app. cbn [fold_left].
    apply apply_update_ok; [by apply IH | done].
Qed.

Lemma four_weights_four (a b c d : Q) :
  Claims.four_weights (Claims.four a b c d) = a + b + c + d.
Proof. reflexivity. Qed.

(** C6.  After any sequence of reflection updates whose per-source impacts
    lie in [0, 1], starting from no stored metrics, every update has been
    applied (the row of a bucket counts as many signals as it had updates)
    and the four factor weights of every row sum to 1. *)
Theorem factor_weights_sum_to_one (us : list Claims.update) :
  Forall (fun u => Claims.impacts_in_unit_interval (Claims.u_items u)) us ->
  forall currency_pair0 timeframe0 : string,
    match ai_performance_metrics (Claims.run us)
            !! (currency_pair0, timeframe0) with
    | Some p =>
        Claims.four_weights (factor_weights p) == 1 /\
        total_signals p = Claims.count currency_pair0 timeframe0 us
    | None => Claims.count currency_pair0 timeframe0 us = 0%Z
    end.
Proof.
  intros Hus cp tf. pose proof (run_ok us Hus cp tf) as H.
  destruct (ai_performance_metrics (Claims.run us) !! (cp, tf)); [|done].
  destruct H as (_ & _ & Htot & a & b & c & d & -> & _ & _ & _ & _ & Hs).
  by rewrite four_weights_four.
Qed.

(** Three updates, two of them on EUR/USD H1, the last with the all-zero
    analysis of a failed reasoning call. *)
Lemma factor_weights_sum_to_one_witness :
  Forall (fun u => Claims.impacts_in_unit_interval (Claims.u_items u))
    Claims.three_updates /\
  exists p,
    ai_performance_metrics (Claims.run Claims.three_updates)
      !! ("EUR/USD", "H1") = Some p /\
    Claims.four_weights (factor_weights p) == 1 /\ total_signals p = 2%Z.
Proof.
  assert (H : Forall (fun u =>
                Claims.impacts_in_unit_interval (Claims.u_items u))
                Claims.three_updates).
  { repeat constructor; simpl; lra. }
  split; [exact H|].
  pose proof (factor_weights_sum_to_one Claims.three_updates H
                "EUR/USD" "H1") as Hs.
  destruct (ai_performance_metrics (Claims.run Claims.three_updates)
              !! ("EUR/USD", "H1")) as [p|] eqn:E.
  - exists p. split; [reflexivity|]. exact Hs.
  - exfalso. vm_compute in Hs. discriminate Hs.
Defined.

(** Every call of [ai_engine.reflect_on_signal_outcome] raises: no value of
    [was_successful] or [profit_loss_pips] is returned. *)
Lemma ai_engine_reflection_raises (s : AiEngine.signal)
    (o : AiEngine.actual_outcome) :
  AiEngine.reflect_on_signal_outcome s o = Raise ValueError.
Proof.
  unfold AiEngine.reflect_on_signal_outcome.
  by destruct (AiEngine.outcome_metrics s o).
Qed.

Lemma was_accurate_iff (s : AiEngine.signal) (o : outcome_data) :
  let pips := default 0 (profit_loss_pips o) in
  was_accurate s o = true <->
  (AiEngine.sg_direction s = "BUY" /\ 0 < pips) \/
  (AiEngine.sg_direction s = "SELL" /\ pips < 0).
Proof.
  cbn zeta. unfold was_accurate, Qgtb.
  destruct (String.eqb_spec (AiEngine.sg_direction s) "BUY") as [E|E];
    destruct (String.eqb_spec (AiEngine.sg_direction s) "SELL") as [E'|E'];
    try congruence;
    destruct (Qltb_spec 0 (default 0 (profit_loss_pips o)));
    destruct (Qltb_spec (default 0 (profit_loss_pips o)) 0);
    cbn; intuition (try congruence; try lra).
Qed.

Lemma losing_buy_not_accurate (s : AiEngine.signal) (o : outcome_data) :
  AiEngine.sg_direction s = "BUY" -> default 0 (profit_loss_pips o) <= 0 ->
  was_accurate s o = false.
Proof.
  intros Hd Hp. apply not_true_iff_false. rewrite was_accurate_iff.
  intros [[_ H]|[H _]]; [lra | congruence].
Qed.

(** C2, at a SELL signal entered at 1.1000 and closed at 1.0900, 100 pips in
    profit.  By the claim's formula it is accurate (exit below entry); the
    reflection engine, which looks at the sign of the pips, finds it
    inaccurate, scores it 0.0 and leaves [accurate_signals] at 0 in the
    bucket it creates.  [ai_engine.reflect_on_signal_outcome], whose lines
    322-331 have the claim's comparison, returns nothing: it raises. *)
Theorem sell_in_profit_is_scored_inaccurate :
  let r := reflect_on_signal_outcome Claims.db_with_sell_signal "sig-1"
             Claims.closed_in_profit None in
  Claims.spec_was_accurate Claims.sell_signal
    (default 0 (price_at_close Claims.closed_in_profit)) = true /\
  AiEngine.reflect_on_signal_outcome Claims.sell_signal
    Claims.exit_at_10900 = Raise ValueError /\
  was_accurate Claims.sell_signal Claims.closed_in_profit = false /\
  (rd_accuracy_score <$> snd r) = Some 0 /\
  exists p,
    ai_performance_metrics (fst r) !! ("EUR/USD", "H1") = Some p /\
    total_signals p = 1%Z /\ accurate_signals p = 0%Z /\
    accuracy_rate p == 0.
Proof.
  cbn zeta. split; [reflexivity|]. split; [reflexivity|].
  split; [reflexivity|]. split; [reflexivity|].
  eexists. split; [vm_compute; reflexivity|].
  split; [reflexivity|]. split; [reflexivity|]. reflexivity.
Qed.
End Reflection.

(** ** The technical scorer *)

Section Scorer.
Import Py Np Technical.
Local Open Scope Q_scope.

Variable table : list (string * (Claims.side * Q)).

Lemma cast_snoc (sd : Claims.side) (fs : list factor) (f : factor) :
  Claims.cast table sd (fs ++ [f]) =
    Claims.cast table sd fs + Claims.vote table sd (name f).
Proof. unfold Claims.cast. by rewrite fold_left_app. Qed.

Lemma preserves_ret {A} (a : A) : Claims.preserves table (ret a).
Proof. by intros s Hs. Qed.

Lemma preserves_lift {A} (r : result A) : Claims.preserves table (lift r).
Proof. by intros s Hs. Qed.

Lemma preserves_total (n : Z) : Claims.preserves table (total n).
Proof. by intros s Hs. Qed.

Lemma preserves_bind {A B} (m : block A) (k : A -> block B) :
  Claims.preserves table m -> (forall a, Claims.preserves table (k a)) ->
  Claims.preserves table (bind m k).
Proof.
  intros Hm Hk s Hs. unfold bind. specialize (Hm s Hs).
  destruct (m s) as [s' [a|e]]; [by apply Hk | done].
Qed.

Lemma preserves_note (n : string) (v : npfloat) :
  Claims.vote table Claims.Buy n = 0 -> Claims.vote table Claims.Sell n = 0 ->
  Claims.preserves table (append n v).
Proof.
  intros Hb Hs s [H1 H2]. unfold Claims.accounts, bind, append, buy, sell.
  cbn [fst analysis_factors buy_signals sell_signals].
  rewrite !cast_snoc. cbn [name]. rewrite Hb, Hs. split; lra.
Qed.

Lemma preserves_buy (n : string) (v : npfloat) (w : Q) :
  Claims.vote table Claims.Buy n = w -> Claims.vote table Claims.Sell n = 0 ->
  Claims.preserves table (append n v ;;; buy w).
Proof.
  intros Hb Hs s [H1 H2]. unfold Claims.accounts, bind, append, buy, sell.
  cbn [fst analysis_factors buy_signals sell_signals].
  rewrite !cast_snoc. cbn [name]. rewrite Hb, Hs. split; lra.
Qed.

Lemma preserves_sell (n : string) (v : npfloat) (w : Q) :
  Claims.vote table Claims.Buy n = 0 -> Claims.vote table Claims.Sell n = w ->
  Claims.preserves table (append n v ;;; sell w).
Proof.
  intros Hb Hs s [H1 H2]. unfold Claims.accounts, bind, append, buy, sell.
  cbn [fst analysis_factors buy_signals sell_signals].
  rewrite !cast_snoc. cbn [name]. rewrite Hb, Hs. split; lra.
Qed.

Lemma preserves_try (body : block unit) (s : tally) :
  Claims.preserves table body -> Claims.accounts table s ->
  Claims.accounts table (try_except body s).
Proof. intros Hb Hs. by apply Hb. Qed.

End Scorer.

Ltac preserves_step :=
  first
    [ apply preserves_ret
    | apply preserves_lift
    | apply preserves_total
    | apply preserves_buy; reflexivity
    | apply preserves_sell; reflexivity
    | apply preserves_note; reflexivity
    | apply preserves_bind; [|intros ?]
    | match goal with
      | |- Claims.preserves _ (if ?c then _ else _) => destruct c
      | |- Claims.preserves _ (match ?x with _ => _ end) => destruct x
      end ].

Section Groups.
Import Py Np Technical.
Local Open Scope Q_scope.

Lemma trend_preserves (df : DataFrame) :
  Claims.preserves Claims.code_votes (trend_analysis df).
Proof. unfold trend_analysis. repeat preserves_step. Qed.

Lemma momentum_preserves (df : DataFrame) :
  Claims.preserves Claims.code_votes (momentum_analysis df).
Proof.
  unfold momentum_analysis, macd, rsi, stochastic. repeat preserves_step.
Qed.

Lemma volatility_preserves (df : DataFrame) :
  Claims.preserves Claims.code_votes (volatility_analysis df).
Proof.
  unfold volatility_analysis, bollinger, average_true_range.
  cbn zeta. repeat preserves_step.
Qed.

Lemma support_resistance_preserves (df : DataFrame) :
  Claims.preserves Claims.code_votes (support_resistance_analysis df).
Proof.
  unfold support_resistance_analysis. cbn zeta. repeat preserves_step.
Qed.


Lemma tally_votes_accounts (df : DataFrame) :
  Claims.accounts Claims.code_votes (tally_votes df).
Proof.
  unfold tally_votes.
  apply preserves_try; [apply support_resistance_preserves|].
  apply preserves_try; [apply volatility_preserves|].
  apply preserves_try; [apply momentum_preserves|].
  apply preserves_try; [apply trend_preserves|].
  split; reflexivity.
Qed.

(** C5, as the code has it.  On every frame the BUY and SELL votes are the
    sums, over the evidence factors recorded, of the weights of
    [Claims.code_votes]: 2 for the 200-period trend and for the EMA 12/26
    and MACD/signal crossovers, 0.5 for an RSI between 50 and 70 or between
    30 and 50, and 1 for every other relationship, the stochastic %K/%D
    crossover included. *)
Theorem votes_weigh_as_listed (df : DataFrame) :
  let s := tally_votes df in
  buy_signals s ==
    Claims.cast Claims.code_votes Claims.Buy (analysis_factors s) /\
  sell_signals s ==
    Claims.cast Claims.code_votes Claims.Sell (analysis_factors s).
Proof. apply tally_votes_accounts. Qed.

(** C5, as stated, fails.  With the RSI at 60 the only relationship that
    fires is "rsi_bullish", and it adds 0.5 to the BUY votes, not 1; with
    %K crossing above %D the only one is "stoch_bullish_crossover", and it
    adds 1, not 2. *)
Lemma rsi_and_stochastic_votes_differ :
  (let s := tally_votes (tail 30 (frame (replicate 50 Claims.rsi_60))) in
   name <$> analysis_factors s = ["rsi_bullish"] /\
   buy_signals s == 0.5 /\
   Claims.cast Claims.spec_votes Claims.Buy (analysis_factors s) == 1 /\
   ~ Claims.accounts Claims.spec_votes s) /\
  (let s := tally_votes (tail 30 (frame Claims.stochastic_crossing)) in
   name <$> analysis_factors s = ["stoch_bullish_crossover"] /\
   buy_signals s == 1 /\
   Claims.cast Claims.spec_votes Claims.Buy (analysis_factors s) == 2 /\
   ~ Claims.accounts Claims.spec_votes s).
Proof.
  cbn zeta. split.
  - split; [vm_compute; reflexivity|].
    split; [apply Qeq_bool_eq; vm_compute; reflexivity|].
    split; [apply Qeq_bool_eq; vm_compute; reflexivity|].
    intros [H _]. revert H. apply Qeq_bool_neq. vm_compute. reflexivity.
  - split; [vm_compute; reflexivity|].
    split; [apply Qeq_bool_eq; vm_compute; reflexivity|].
    split; [apply Qeq_bool_eq; vm_compute; reflexivity|].
    intros [H _]. revert H. apply Qeq_bool_neq. vm_compute. reflexivity.
Qed.

Lemma direction_and_confidence_spec (b s : Q) :
  let c := snd (direction_and_confidence b s) in
  0.5 <= c <= 1 /\ (c == 0.5 <-> b == s) /\
  (~ b == s -> c == 0.5 + Qmin 0.5 (2 * Qabs (b - s))).
Proof.
  cbn zeta. unfold direction_and_confidence, Qgtb.
  destruct (Qltb_spec s b) as [H|H]; [|destruct (Qltb_spec b s) as [H'|H']];
    cbn [snd].
  - pose proof (Qabs_pos (b - s) ltac:(lra)) as Ea.
    destruct (Qmin_cases 0.5 ((b - s) * 2)) as [[? ->]|[? ->]];
      destruct (Qmin_cases 0.5 (2 * Qabs (b - s))) as [[? ->]|[? ->]];
      repeat split; intros; lra.
  - pose proof (Qabs_neg (b - s) ltac:(lra)) as Ea.
    destruct (Qmin_cases 0.5 ((s - b) * 2)) as [[? ->]|[? ->]];
      destruct (Qmin_cases 0.5 (2 * Qabs (b - s))) as [[? ->]|[? ->]];
      repeat split; intros; lra.
  - repeat split; intros; lra.
Qed.

(** C4, as the code has it.  When at least 50 periods are supplied, the
    confidence lies in [0.5, 1], is 0.5 exactly when the two scores are
    equal, and is [0.5 + min(0.5, 2 |buy_score - sell_score|)] otherwise. *)
Theorem confidence_of_scored_data (td : technical_data) (timeframe : string)
    (records : list (gmap string (option Q))) :
  indicators td = Some records -> (50 <= length records)%nat ->
  let s := tally_votes (tail 30 (frame records)) in
  let c := confidence_score (analyze_technical_data td timeframe) in
  0.5 <= c <= 1 /\
  (c == 0.5 <-> buy_score s == sell_score s) /\
  (~ buy_score s == sell_score s ->
   c == 0.5 + Qmin 0.5 (2 * Qabs (buy_score s - sell_score s))).
Proof.
  intros Hi Hn. cbn zeta. unfold analyze_technical_data. rewrite Hi.
  cbn [frame rows]. destruct (Nat.ltb_spec (length records) 50); [lia|].
  set (s := tally_votes _). unfold verdict.
  pose proof (direction_and_confidence_spec (buy_score s) (sell_score s))
    as Hc.
  destruct (direction_and_confidence (buy_score s) (sell_score s)) as [d c].
  exact Hc.
Qed.

(** A dictionary without the ["instrument"] key raises to the caller,
    whatever its indicators. *)
Lemma missing_instrument_raises (d : technical_dict) (timeframe : string) :
  td_instrument d = None ->
  analyze_technical_data_call d timeframe = Raise (KeyError "instrument").
Proof. intros H. unfold analyze_technical_data_call. by rewrite H. Qed.

(** C9.  For an input record (it names its instrument) with fewer than 50
    periods the scorer raises nothing: it returns direction NEUTRAL,
    confidence 0.0 and the single factor "insufficient_data" holding the
    number of periods. *)
Theorem insufficient_data_is_degraded (d : technical_dict)
    (timeframe instrument0 : string)
    (records : list (gmap string (option Q))) :
  td_instrument d = Some instrument0 -> td_indicators d = Some records ->
  (length records < 50)%nat ->
  analyze_technical_data_call d timeframe =
    Ret {| direction := "NEUTRAL";
           confidence_score := 0;
           factors := [{| name := "insufficient_data";
                          value := VInt (Z.of_nat (length records)) |}];
           error :=
             Some "Insufficient data points for reliable analysis" |}.
Proof.
  intros Ht Hi Hn. unfold analyze_technical_data_call. rewrite Ht.
  unfold analyze_technical_data. cbn [indicators]. rewrite Hi.
  cbn [frame rows].
  by destruct (Nat.ltb_spec (length records) 50); [|lia].
Qed.

(** C4, as stated, fails: on 40 periods the confidence is 0.0. *)
Lemma short_series_has_confidence_zero :
  confidence_score (analyze_technical_data Claims.forty_periods "H1") == 0 /\
  ~ (0.5 <= confidence_score
               (analyze_technical_data Claims.forty_periods "H1") <= 1).
Proof.
  assert (E : confidence_score
                (analyze_technical_data Claims.forty_periods "H1") = 0)
    by reflexivity.
  rewrite E. split; lra.
Qed.

(** Scenario B: 40 periods. *)
Lemma insufficient_data_is_degraded_witness :
  exists r,
    analyze_technical_data_call Claims.forty_periods_call "H1" = Ret r /\
    direction r = "NEUTRAL" /\ confidence_score r = 0 /\
    name <$> factors r = ["insufficient_data"].
Proof.
  eexists. split.
  - apply (insufficient_data_is_degraded Claims.forty_periods_call "H1"
             "EUR_USD" (replicate 40 Claims.rsi_60) eq_refl eq_refl).
    rewrite length_replicate. lia.
  - done.
Defined.

(** 50 periods with the RSI at 60: BUY at confidence 0.625. *)
Lemma confidence_of_scored_data_witness :
  confidence_score (analyze_technical_data Claims.fifty_periods "H1")
    == 0.625.
Proof.
  destruct (confidence_of_scored_data Claims.fifty_periods "H1"
              (replicate 50 Claims.rsi_60) eq_refl) as (_ & _ & H).
  { rewrite length_replicate. lia. }
  rewrite H.
  - apply Qeq_bool_eq. vm_compute. reflexivity.
  - apply Qeq_bool_neq. vm_compute. reflexivity.
Defined.

End Groups.

(** ** More on the fallback fusion *)

Section FusionMore.
Import Py AiEngine.
Local Open Scope Q_scope.

Lemma sum_from (l : list Q) (a : Q) : fold_left Qplus l a == a + sum l.
Proof.
  unfold sum. revert a. induction l as [|x l IH]; intros a; simpl.
  - lra.
  - rewrite (IH (a + x)), (IH (0 + x)). lra.
Qed.

Lemma sum_cons (x : Q) (l : list Q) : sum (x :: l) == x + sum l.
Proof. unfold sum at 1. simpl. rewrite sum_from. lra. Qed.

Lemma len_cons {A} (x : A) (l : list A) : len (x :: l) == 1 + len l.
Proof.
  unfold len. cbn [length]. rewrite Nat2Z.inj_succ, <- Z.add_1_l.
  by rewrite inject_Z_plus.
Qed.

Lemma len_nonneg {A} (l : list A) : 0 <= len l.
Proof. unfold len. change 0 with (inject_Z 0). rewrite <- Zle_Qle. lia. Qed.

Lemma sum_bounds (lo hi : Q) (l : list Q) :
  Forall (fun x => lo <= x <= hi) l ->
  len l * lo <= sum l <= len l * hi.
Proof.
  induction 1 as [|x l Hx _ IH].
  - change (len []) with 0. change (sum []) with 0. lra.
  - rewrite sum_cons, len_cons. lra.
Qed.

Lemma mean_or_half_bounds (lo hi : Q) (l : list Q) :
  lo <= 0.5 <= hi -> Forall (fun x => lo <= x <= hi) l ->
  lo <= mean_or_half l <= hi.
Proof.
  intros Hh Hl. destruct l as [|x l]; [done|].
  unfold mean_or_half. pose proof (sum_bounds lo hi _ Hl) as Hs.
  set (s := sum (x :: l)) in *. set (n := len (x :: l)) in *.
  assert (Hn : 0 < n).
  { unfold n. rewrite len_cons. pose proof (len_nonneg l). lra. }
  split.
  - apply Qle_shift_div_l; lra.
  - apply Qle_shift_div_r; lra.
Qed.

Lemma agreeing_bounds (lo hi : Q) (a : analysis) (d : string) :
  lo <= Extra.confidence_of a <= hi ->
  Forall (fun x => lo <= x <= hi) (agreeing a d).
Proof.
  intros H. unfold agreeing.
  destruct (String.eqb _ _);
    [apply List.Forall_cons; [exact H|] |]; apply List.Forall_nil.
Qed.

(** X1.  The combined confidence lies between any bounds that hold for the
    default 0.5 and for the four confidences. *)
Theorem fallback_confidence_bounds (currency_pair timeframe : string)
    (q : Claims.source -> analysis) (lo hi : Q) :
  lo <= 0.5 <= hi ->
  (forall i, lo <= Extra.confidence_of (q i) <= hi) ->
  lo <= ca_confidence_score (Claims.fuse currency_pair timeframe q) <= hi.
Proof.
  intros Hh Hq. unfold Claims.fuse.
  cbn [fallback_combine_analyses ca_confidence_score].
  apply mean_or_half_bounds; [done|]. unfold confidence_factors.
  rewrite !Forall_app. repeat split; by apply agreeing_bounds.
Qed.

Lemma fallback_confidence_bounds_witness :
  0 <= ca_confidence_score (Claims.fuse "EUR/USD" "H1" Claims.scenario_A)
    <= 1.
Proof.
  apply (fallback_confidence_bounds "EUR/USD" "H1" Claims.scenario_A 0 1).
  - lra.
  - intros []; vm_compute; split; discriminate.
Defined.

Lemma direction_value_cases (d : string) :
  (d = "BUY" /\ direction_value d = 1%Z) \/
  (d = "SELL" /\ direction_value d = (-1)%Z) \/
  (d <> "BUY" /\ d <> "SELL" /\ direction_value d = 0%Z).
Proof.
  destruct (String.eqb_spec d "BUY") as [->|Hb]; [by left|].
  destruct (String.eqb_spec d "SELL") as [->|Hs]; [right; by left|].
  right; right. repeat split; try done.
  destruct (String.eqb_spec d "NEUTRAL") as [->|Hn]; [done|].
  by apply direction_value_other.
Qed.

Lemma value_of_cases (a : analysis) :
  (Extra.direction_of_source a = "BUY" /\ Claims.value_of a == 1) \/
  (Extra.direction_of_source a = "SELL" /\ Claims.value_of a == -1) \/
  (Extra.direction_of_source a <> "BUY" /\
   Extra.direction_of_source a <> "SELL" /\ Claims.value_of a == 0).
Proof.
  unfold Claims.value_of, Extra.direction_of_source.
  destruct (direction_value_cases (default "NEUTRAL" (direction a)))
    as [[? ->]|[[? ->]|(? & ? & ->)]]; [left | right; left | right; right];
    repeat split; done.
Qed.

Lemma combined_of_fixed (q : Claims.source -> analysis) :
  Claims.combined_of q ==
    Claims.value_of (q Claims.technical) * 0.4 +
    Claims.value_of (q Claims.fundamental) * 0.3 +
    Claims.value_of (q Claims.sentiment) * 0.15 +
    Claims.value_of (q Claims.economic) * 0.15.
Proof. reflexivity. Qed.

Lemma fuse_direction (currency_pair timeframe : string)
    (q : Claims.source -> analysis) :
  ca_direction (Claims.fuse currency_pair timeframe q)
    = direction_of (Claims.combined_of q).
Proof. reflexivity. Qed.

(** X2.  A BUY or SELL decision is backed by at least one source of that
    direction. *)
Theorem directional_decision_has_support (currency_pair timeframe : string)
    (q : Claims.source -> analysis) :
  ca_direction (Claims.fuse currency_pair timeframe q) <> "NEUTRAL" ->
  exists i,
    Extra.direction_of_source (q i)
      = ca_direction (Claims.fuse currency_pair timeframe q) /\
    agreeing (q i) (ca_direction (Claims.fuse currency_pair timeframe q))
      = [Extra.confidence_of (q i)].
Proof.
  rewrite fuse_direction. pose proof (combined_of_fixed q) as Hc.
  intros Hd.
  assert (Hag : forall i, Extra.direction_of_source (q i)
                  = direction_of (Claims.combined_of q) ->
                agreeing (q i) (direction_of (Claims.combined_of q))
                  = [Extra.confidence_of (q i)]).
  { intros i Hi. unfold agreeing. fold (Extra.direction_of_source (q i)).
    rewrite Hi, String.eqb_refl. reflexivity. }
  destruct (direction_of_cases (Claims.combined_of q))
    as [[H E]|[[H E]|[_ E]]]; [| |congruence]; rewrite E in *.
  - destruct (value_of_cases (q Claims.technical)) as [[? ?]|[[? ?]|(?&?&?)]];
      [exists Claims.technical; auto| |];
      (destruct (value_of_cases (q Claims.fundamental))
         as [[? ?]|[[? ?]|(?&?&?)]];
       [exists Claims.fundamental; auto| |]);
      (destruct (value_of_cases (q Claims.sentiment))
         as [[? ?]|[[? ?]|(?&?&?)]];
       [exists Claims.sentiment; auto| |]);
      (destruct (value_of_cases (q Claims.economic))
         as [[? ?]|[[? ?]|(?&?&?)]];
       [exists Claims.economic; auto| |]); exfalso; lra.
  - destruct (value_of_cases (q Claims.technical)) as [[? ?]|[[? ?]|(?&?&?)]];
      [|exists Claims.technical; auto|];
      (destruct (value_of_cases (q Claims.fundamental))
         as [[? ?]|[[? ?]|(?&?&?)]];
       [|exists Claims.fundamental; auto|]);
      (destruct (value_of_cases (q Claims.sentiment))
         as [[? ?]|[[? ?]|(?&?&?)]];
       [|exists Claims.sentiment; auto|]);
      (destruct (value_of_cases (q Claims.economic))
         as [[? ?]|[[? ?]|(?&?&?)]];
       [|exists Claims.economic; auto|]); exfalso; lra.
Qed.

Lemma directional_decision_has_support_witness :
  exists i,
    Extra.direction_of_source (Claims.scenario_A i) = "BUY" /\
    agreeing (Claims.scenario_A i) "BUY"
      = [Extra.confidence_of (Claims.scenario_A i)].
Proof.
  apply (directional_decision_has_support "EUR/USD" "H1" Claims.scenario_A).
  vm_compute. discriminate.
Defined.

Lemma mirror_involutive (d : string) : Extra.mirror (Extra.mirror d) = d.
Proof.
  unfold Extra.mirror.
  destruct (String.eqb_spec d "BUY") as [->|Hb]; [done|].
  destruct (String.eqb_spec d "SELL") as [->|Hs]; [done|].
  destruct (String.eqb_spec d "BUY"); [done|].
  by destruct (String.eqb_spec d "SELL").
Qed.

Lemma mirror_eqb (x y : string) :
  String.eqb (Extra.mirror x) (Extra.mirror y) = String.eqb x y.
Proof.
  destruct (String.eqb_spec x y) as [->|Hne]; [apply String.eqb_refl|].
  apply String.eqb_neq. intros E. apply Hne.
  by rewrite <- (mirror_involutive x), E, mirror_involutive.
Qed.

Lemma direction_of_source_mirror (a : analysis) :
  Extra.direction_of_source (Extra.mirror_analysis a)
    = Extra.mirror (Extra.direction_of_source a).
Proof. unfold Extra.direction_of_source. by destruct a as [[d|] c f]. Qed.

Lemma direction_value_mirror (d : string) :
  direction_value (Extra.mirror d) = (- direction_value d)%Z.
Proof.
  unfold Extra.mirror.
  destruct (String.eqb_spec d "BUY") as [->|Hb]; [done|].
  destruct (String.eqb_spec d "SELL") as [->|Hs]; [done|].
  destruct (direction_value_cases d) as [[? _]|[[? _]|(_ & _ & ->)]]; done.
Qed.

Lemma value_of_mirror (a : analysis) :
  Claims.value_of (Extra.mirror_analysis a) == - Claims.value_of a.
Proof.
  unfold Claims.value_of.
  fold (Extra.direction_of_source (Extra.mirror_analysis a)).
  fold (Extra.direction_of_source a).
  rewrite direction_of_source_mirror, direction_value_mirror.
  by rewrite inject_Z_opp.
Qed.

Lemma direction_of_compat (c c' : Q) :
  c == c' -> direction_of c = direction_of c'.
Proof.
  intros E.
  destruct (direction_of_cases c) as [[? ->]|[[? ->]|[? ->]]];
    destruct (direction_of_cases c') as [[? ->]|[[? ->]|[? ->]]];
    try done; lra.
Qed.

Lemma direction_of_opp (c : Q) :
  direction_of (- c) = Extra.mirror (direction_of c).
Proof.
  destruct (direction_of_cases c) as [[? ->]|[[? ->]|[? ->]]];
    destruct (direction_of_cases (- c)) as [[? ->]|[[? ->]|[? ->]]];
    try done; lra.
Qed.

Lemma agreeing_mirror (a : analysis) (d : string) :
  agreeing (Extra.mirror_analysis a) (Extra.mirror d) = agreeing a d.
Proof.
  unfold agreeing.
  fold (Extra.direction_of_source (Extra.mirror_analysis a)).
  fold (Extra.direction_of_source a).
  by rewrite direction_of_source_mirror, mirror_eqb.
Qed.

(** X3.  Exchanging BUY and SELL in all four opinions exchanges them in the
    decision and leaves its confidence as it was. *)
Theorem fallback_mirror (currency_pair timeframe : string)
    (q : Claims.source -> analysis) :
  let q' := fun i => Extra.mirror_analysis (q i) in
  ca_direction (Claims.fuse currency_pair timeframe q') =
    Extra.mirror (ca_direction (Claims.fuse currency_pair timeframe q)) /\
  ca_confidence_score (Claims.fuse currency_pair timeframe q') =
    ca_confidence_score (Claims.fuse currency_pair timeframe q).
Proof.
  intros q'.
  assert (Hd : direction_of (Claims.combined_of q')
               = Extra.mirror (direction_of (Claims.combined_of q))).
  { rewrite <- direction_of_opp. apply direction_of_compat.
    rewrite !combined_of_fixed. unfold q'. rewrite !value_of_mirror. lra. }
  split; [by rewrite !fuse_direction|].
  unfold Claims.fuse.
  cbn [fallback_combine_analyses ca_confidence_score].
  fold (Claims.combined_of q') (Claims.combined_of q). rewrite Hd.
  unfold confidence_factors, q'. by rewrite !agreeing_mirror.
Qed.

(** X4.  When technical and fundamental both say BUY, or both say SELL, that
    is the decision, whatever sentiment and economic say. *)
Theorem technical_and_fundamental_decide (currency_pair timeframe : string)
    (q : Claims.source -> analysis) (d : string) :
  d = "BUY" \/ d = "SELL" ->
  Extra.direction_of_source (q Claims.technical) = d ->
  Extra.direction_of_source (q Claims.fundamental) = d ->
  ca_direction (Claims.fuse currency_pair timeframe q) = d.
Proof.
  intros Hd Ht Hf. rewrite fuse_direction.
  pose proof (combined_of_fixed q) as Hc.
  destruct (value_of_cases (q Claims.technical)) as [[? ?]|[[? ?]|(?&?&?)]];
    destruct (value_of_cases (q Claims.fundamental))
      as [[? ?]|[[? ?]|(?&?&?)]];
    destruct (value_of_cases (q Claims.sentiment))
      as [[? ?]|[[? ?]|(?&?&?)]];
    destruct (value_of_cases (q Claims.economic))
      as [[? ?]|[[? ?]|(?&?&?)]];
    destruct Hd as [-> | ->]; try congruence;
    destruct (direction_of_cases (Claims.combined_of q))
      as [[? ->]|[[? ->]|[? ->]]]; try done; exfalso; lra.
Qed.

(** X5.  Sentiment and economic together weigh 0.3: when technical and
    fundamental are both neither BUY nor SELL, the decision is BUY (SELL)
    exactly when sentiment and economic both say BUY (SELL). *)
Theorem minor_sources_decide_only_together
    (currency_pair timeframe : string) (q : Claims.source -> analysis)
    (d : string) :
  d = "BUY" \/ d = "SELL" ->
  Extra.direction_of_source (q Claims.technical) <> "BUY" ->
  Extra.direction_of_source (q Claims.technical) <> "SELL" ->
  Extra.direction_of_source (q Claims.fundamental) <> "BUY" ->
  Extra.direction_of_source (q Claims.fundamental) <> "SELL" ->
  (ca_direction (Claims.fuse currency_pair timeframe q) = d <->
   Extra.direction_of_source (q Claims.sentiment) = d /\
   Extra.direction_of_source (q Claims.economic) = d).
Proof.
  intros Hd Ht1 Ht2 Hf1 Hf2. rewrite fuse_direction.
  pose proof (combined_of_fixed q) as Hc.
  destruct (value_of_cases (q Claims.technical)) as [[? ?]|[[? ?]|(?&?&?)]];
    try done;
    destruct (value_of_cases (q Claims.fundamental))
      as [[? ?]|[[? ?]|(?&?&?)]]; try done;
    destruct (value_of_cases (q Claims.sentiment))
      as [[? ?]|[[? ?]|(?&?&?)]];
    destruct (value_of_cases (q Claims.economic))
      as [[? ?]|[[? ?]|(?&?&?)]];
    destruct Hd as [-> | ->];
    destruct (direction_of_cases (Claims.combined_of q))
      as [[? ->]|[[? ->]|[? ->]]];
    (split; [intros ?|intros [? ?]]); try congruence; try done;
    exfalso; lra.
Qed.
Lemma technical_and_fundamental_decide_witness :
  ca_direction (Claims.fuse "EUR/USD" "H1" Extra.majors_buy) = "BUY".
Proof.
  apply (technical_and_fundamental_decide "EUR/USD" "H1" Extra.majors_buy
           "BUY"); [by left | reflexivity | reflexivity].
Defined.

Lemma minor_sources_decide_only_together_witness :
  ca_direction (Claims.fuse "EUR/USD" "H1" Extra.minors_buy) = "BUY" <->
  Extra.direction_of_source (Extra.minors_buy Claims.sentiment) = "BUY" /\
  Extra.direction_of_source (Extra.minors_buy Claims.economic) = "BUY".
Proof.
  apply (minor_sources_decide_only_together "EUR/USD" "H1" Extra.minors_buy
           "BUY"); [by left | discriminate..].
Defined.

End FusionMore.

(** ** More on the signal builder *)

Section SignalMore.
Import Py AiEngine.
Local Open Scope Q_scope.

(** X6.  The gate of the signal builder: no signal exactly when the direction is
    NEUTRAL or the confidence is below 0.65; a generated signal carries the
    direction, the confidence and the factor lists of the decision. *)
Theorem signal_gate (currency_pair timeframe : string)
    (ca : combined_analysis) (current_price : price) :
  (generate_trading_signal currency_pair timeframe ca current_price
     = Ret NoSignal <->
   ca_direction ca = "NEUTRAL" \/ ca_confidence_score ca < 0.65) /\
  forall s,
    generate_trading_signal currency_pair timeframe ca current_price
      = Ret (Generated s) ->
    sg_direction s = ca_direction ca /\ sg_direction s <> "NEUTRAL" /\
    0.65 <= sg_confidence_score s /\
    sg_confidence_score s = ca_confidence_score ca /\
    ca_technical_factors ca = Some (sg_technical_factors s) /\
    sg_fundamental_factors s = ca_fundamental_factors ca /\
    sg_economic_events s = ca_economic_factors ca /\
    sg_ai_reasoning s = ca_reasoning ca.
Proof.
  unfold generate_trading_signal.
  destruct (String.eqb_spec (ca_direction ca) "NEUTRAL") as [En|En];
    destruct (Qltb_spec (ca_confidence_score ca) 0.65) as [Ec|Ec];
    cbn [orb]; try (split; [split; [auto | done] | intros s [=]]).
  set (entry_price := if String.eqb _ _ then _ else _).
  destruct (volatility_unit ca entry_price) as [atr|e]; cbn [rbind].
  2: { split; [split; [done | intros [?|?]; [done | lra]] | done]. }
  destruct (risk_reward _ _ _) as [r|e]; cbn [rbind].
  2: { split; [split; [done | intros [?|?]; [done | lra]] | done]. }
  destruct (ca_technical_factors ca) as [l|].
  2: { split; [split; [done | intros [?|?]; [done | lra]] | done]. }
  split; [split; [done | intros [?|?]; [done | lra]]|].
  intros s [= <-]. cbn. repeat split; try done. lra.
Qed.


Lemma gate_open (ca : combined_analysis) :
  ca_direction ca <> "NEUTRAL" -> 0.65 <= ca_confidence_score ca ->
  String.eqb (ca_direction ca) "NEUTRAL"
  || Qltb (ca_confidence_score ca) 0.65 = false.
Proof.
  intros Hd Hc. apply orb_false_iff. split.
  - by apply String.eqb_neq.
  - by apply Qltb_ge.
Qed.



Lemma next_atr_value_of_strings (l : list jelem) :
  forallb Extra.is_str l = true -> contains_atr l = true ->
  next_atr_value l = Raise AttributeError.
Proof. by destruct l as [|[name value|x] l]. Qed.

(** X8.  When the technical factors are strings and "atr" is one of them, a
    decision that passes the gate raises [AttributeError] instead of
    yielding a signal. *)
Theorem factor_names_raise (currency_pair timeframe : string)
    (ca : combined_analysis) (current_price : price) (l : list jelem) :
  ca_technical_factors ca = Some l ->
  forallb Extra.is_str l = true -> contains_atr l = true ->
  ca_direction ca <> "NEUTRAL" -> 0.65 <= ca_confidence_score ca ->
  generate_trading_signal currency_pair timeframe ca current_price
    = Raise AttributeError.
Proof.
  intros Hl Hs Ha Hn Hc. unfold generate_trading_signal.
  rewrite gate_open by done. unfold volatility_unit. rewrite Hl.
  cbn [from_option id]. rewrite Ha, (next_atr_value_of_strings l Hs Ha).
  reflexivity.
Qed.

Lemma factor_names_raise_witness :
  generate_trading_signal "EUR/USD" "H1" Extra.decision_with_names
    Claims.quote_11000 = Raise AttributeError.
Proof.
  apply (factor_names_raise "EUR/USD" "H1" Extra.decision_with_names
           Claims.quote_11000 _ eq_refl eq_refl eq_refl).
  - discriminate.
  - vm_compute. discriminate.
Defined.
End SignalMore.

(** ** More on the reflection engine *)

Section ReflectionMore.
Import Py ReflectionEngine.
Local Open Scope Q_scope.

Lemma last10_skipn {A} (l : list A) : last10 l = skipn (length l - 10) l.
Proof.
  unfold last10. destruct (Nat.ltb_spec 10 (length l)) as [H|H]; [done|].
  by replace (length l - 10)%nat with 0%nat by lia.
Qed.

Lemma last10_snoc {A} (l : list A) (x : A) :
  last10 (last10 l ++ [x]) = last10 (l ++ [x]).
Proof.
  rewrite !last10_skipn, !length_app, length_skipn. cbn [length].
  destruct (Nat.le_gt_cases (length l) 10) as [H|H].
  - replace (length l - 10)%nat with 0%nat by lia. cbn [skipn].
    by rewrite Nat.sub_0_r.
  - replace (length l - (length l - 10) + 1 - 10)%nat with 1%nat by lia.
    rewrite !skipn_app, length_skipn.
    replace (1 - (length l - (length l - 10)))%nat with 0%nat by lia.
    replace (length l + 1 - 10 - length l)%nat with 0%nat by lia.
    cbn [skipn]. f_equal. rewrite skipn_skipn. f_equal. lia.
Qed.

Lemma length_last10 {A} (l : list A) : (length (last10 l) <= 10)%nat.
Proof. rewrite last10_skipn, length_skipn. lia. Qed.

Lemma dict_set_in_unit_interval (k : string) (v : Q)
    (d : list (string * Q)) :
  0 <= v <= 1 -> Extra.in_unit_interval d ->
  Extra.in_unit_interval (dict_set k v d).
Proof.
  intros Hv. induction 1 as [|[k' v'] d Hkv Hd IH]; cbn [dict_set].
  - apply List.Forall_cons; [exact Hv | apply List.Forall_nil].
  - destruct (String.eqb k' k); apply List.Forall_cons; done.
Qed.

Lemma dict_get_in_unit_interval (k : string) (d : list (string * Q)) :
  Extra.in_unit_interval d -> 0 <= default 0 (dict_get k d) <= 1.
Proof.
  induction 1 as [|[k' v'] d Hkv Hd IH]; cbn [dict_get].
  - cbn. lra.
  - by destruct (String.eqb k' k).
Qed.

Lemma running_mean_in_unit_interval (cur new : Q) (n : Z) :
  (0 < n)%Z -> 0 <= cur <= 1 -> 0 <= new <= 1 ->
  0 <= (cur * inject_Z (n - 1) + new) / inject_Z n <= 1.
Proof.
  intros Hn Hc Hw.
  assert (Hn' : 0 < inject_Z n) by (change 0 with (inject_Z 0);
                                    by rewrite <- Zlt_Qlt).
  assert (E : inject_Z (n - 1) == inject_Z n - 1).
  { unfold Z.sub. rewrite inject_Z_plus. reflexivity. }
  assert (H1 : 1 <= inject_Z n)
    by (change 1 with (inject_Z 1); rewrite <- Zle_Qle; lia).
  rewrite E. set (N := inject_Z n) in *.
  assert (Hlo : 0 <= cur * (N - 1)) by (apply Qmult_le_0_compat; lra).
  assert (Hhi : 0 <= (1 - cur) * (N - 1))
    by (apply Qmult_le_0_compat; lra).
  split.
  - apply Qle_shift_div_l; [done|]. lra.
  - apply Qle_shift_div_r; [done|]. lra.
Qed.

Lemma update_factors_accuracy (total : Z)
    (items : list (string * factor_analysis)) :
  (0 < total)%Z -> Extra.accuracies_in_unit_interval items ->
  forall acc wts acc' wts',
    Extra.in_unit_interval acc ->
    update_factors total items acc wts = Ret (acc', wts') ->
    Extra.in_unit_interval acc'.
Proof.
  intros Ht Hitems.
  induction Hitems as [|[k fa] items Hka Hitems IH];
    intros acc wts acc' wts' Hacc; cbn [update_factors].
  - by intros [= <- _].
  - rewrite truediv_nonzero by by apply inject_Z_nonzero. cbn [rbind].
    apply IH. apply dict_set_in_unit_interval; [|done].
    apply running_mean_in_unit_interval; [done | | done].
    by apply dict_get_in_unit_interval.
Qed.

Lemma accurate_snoc (l : list bool) (b : bool) :
  Extra.accurate (l ++ [b]) = (Extra.accurate l + if b then 1 else 0)%Z.
Proof.
  unfold Extra.accurate. rewrite List.filter_app, length_app.
  destruct b; cbn; lia.
Qed.

Lemma outcomes_snoc (cp tf : string) (us : list Claims.update)
    (u : Claims.update) :
  Extra.outcomes cp tf (us ++ [u]) =
    Extra.outcomes cp tf us ++
    if Claims.for_bucket cp tf u then [Claims.u_was_accurate u] else [].
Proof.
  unfold Extra.outcomes. rewrite List.filter_app, map_app. cbn.
  by destruct (Claims.for_bucket cp tf u).
Qed.

Lemma length_outcomes (cp tf : string) (us : list Claims.update) :
  Z.of_nat (length (Extra.outcomes cp tf us)) = Claims.count cp tf us.
Proof. unfold Extra.outcomes, Claims.count. by rewrite length_map. Qed.

Lemma updated_performance_history (p p' : performance) (ok : bool)
    (items : list (string * factor_analysis)) (l : list bool) :
  total_signals p = Z.of_nat (length l) ->
  Extra.accuracies_in_unit_interval items ->
  Extra.records_history l p ->
  updated_performance p ok items = Ret p' ->
  Extra.records_history (l ++ [ok]) p'.
Proof.
  intros Htot Hitems (Hrec & Hacc & _ & Hfa). unfold updated_performance.
  assert (Hpos : (0 < total_signals p + 1)%Z) by lia.
  rewrite truediv_nonzero by by apply inject_Z_nonzero. cbn [rbind].
  destruct (update_factors _ _ _ _) as [[acc wts]|e] eqn:Eu; [|done].
  cbn [rbind]. destruct (normalize _ _) as [wts'|e]; [|done]. cbn [rbind].
  intros [= <-]. unfold Extra.records_history.
  cbn [recent_signals accurate_signals accuracy_rate factor_accuracy].
  rewrite Hrec, last10_snoc, accurate_snoc, Hacc, length_app, Htot.
  cbn [length]. split; [reflexivity|].
  assert (Ea : (if ok then (Extra.accurate l + 1)%Z else Extra.accurate l)
               = (Extra.accurate l + if ok then 1 else 0)%Z)
    by (destruct ok; lia).
  rewrite Ea. split; [reflexivity|]. split.
  - by replace (Z.of_nat (length l) + 1)%Z with (Z.of_nat (length l + 1))
      by lia.
  - by eapply update_factors_accuracy.
Qed.

Lemma new_performance_history (cp tf : string) :
  Extra.records_history [] (new_performance cp tf).
Proof.
  split; [done|]. split; [done|]. split; [reflexivity|].
  unfold Extra.in_unit_interval. cbn.
  repeat (apply List.Forall_cons; [cbn; lra|]). apply List.Forall_nil.
Qed.

Lemma apply_update_history (us : list Claims.update) (db : database)
    (u : Claims.update) :
  Claims.db_ok us db -> Extra.history_ok us db ->
  Claims.impacts_in_unit_interval (Claims.u_items u) ->
  Extra.accuracies_in_unit_interval (Claims.u_items u) ->
  Extra.history_ok (us ++ [u]) (Claims.apply_update db u).
Proof.
  intros Hdb Hh Hu Ha.
  unfold Claims.apply_update, _update_performance_metrics.
  set (cp0 := Claims.u_currency_pair u). set (tf0 := Claims.u_timeframe u).
  set (p := default _ _).
  assert (Hp : Claims.bucket_ok cp0 tf0 (Claims.count cp0 tf0 us) p /\
               Extra.records_history (Extra.outcomes cp0 tf0 us) p).
  { unfold p. specialize (Hdb cp0 tf0). specialize (Hh cp0 tf0).
    destruct (ai_performance_metrics db !! (cp0, tf0)) as [p0|];
      cbn [from_option id]; [by split; [|apply Hh]|].
    rewrite Hdb. split; [apply new_performance_ok|].
    assert (E : Extra.outcomes cp0 tf0 us = []).
    { apply length_zero_iff_nil, Nat2Z.inj. by rewrite length_outcomes. }
    rewrite E. apply new_performance_history. }
  destruct Hp as [Hp Hr].
  destruct (updated_performance_ok p (Claims.u_was_accurate u)
              (Claims.u_items u) cp0 tf0 _ (count_nonneg _ _ _) Hp Hu)
    as (p' & Ep & Hp' & _).
  rewrite Ep. pose proof Hp' as (Hcp & Htf & _). rewrite Hcp, Htf.
  intros cp tf q. cbn [ai_performance_metrics]. rewrite outcomes_snoc.
  destruct (Claims.for_bucket cp tf u) eqn:E.
  - apply for_bucket_true in E. fold cp0 tf0 in E. injection E as <- <-.
    rewrite lookup_insert_eq. intros [= <-].
    eapply updated_performance_history; [|exact Ha|exact Hr|exact Ep].
    rewrite length_outcomes. by destruct Hp as (_ & _ & ? & _).
  - rewrite lookup_insert_ne, app_nil_r; [apply Hh|].
    intros [= <- <-].
    assert (Claims.for_bucket cp0 tf0 u = true) by by apply for_bucket_true.
    congruence.
Qed.

Lemma run_history (us : list Claims.update) :
  Extra.well_formed us ->
  Claims.db_ok us (Claims.run us) /\ Extra.history_ok us (Claims.run us).
Proof.
  induction us as [|u us IH] using rev_ind; intros Hus.
  - split; [intros cp tf; reflexivity | intros cp tf p; done].
  - apply Forall_app in Hus as [Hus Hu]. rewrite Forall_singleton in Hu.
    destruct Hu as [Hi Ha]. destruct (IH Hus) as [Hdb Hh].
    unfold Claims.run. rewrite fold_left_app. cbn [fold_left].
    split; [by apply apply_update_ok | by apply apply_update_history].
Qed.

Lemma accurate_le_length (l : list bool) :
  (0 <= Extra.accurate l <= Z.of_nat (length l))%Z.
Proof.
  unfold Extra.accurate.
  pose proof (List.filter_length_le (fun b : bool => b) l). lia.
Qed.

(** X11.  After any sequence of updates with impacts and accuracies in [0, 1],
    a row keeps the last ten outcomes of its bucket, oldest first, counts
    the accurate ones among all of them, and its accuracy rate is that
    count over the number of signals, between 0 and 1. *)
Theorem row_records_outcomes (us : list Claims.update)
    (currency_pair0 timeframe0 : string) (p : performance) :
  Extra.well_formed us ->
  ai_performance_metrics (Claims.run us) !! (currency_pair0, timeframe0)
    = Some p ->
  let l := Extra.outcomes currency_pair0 timeframe0 us in
  recent_signals p = last10 l /\
  (length (recent_signals p) <= 10)%nat /\
  total_signals p = Z.of_nat (length l) /\
  accurate_signals p = Extra.accurate l /\
  (0 <= accurate_signals p <= total_signals p)%Z /\
  accuracy_rate p ==
    inject_Z (accurate_signals p) / inject_Z (total_signals p) /\
  0 <= accuracy_rate p <= 1.
Proof.
  intros Hus Hp l. destruct (run_history us Hus) as [Hdb Hh].
  specialize (Hdb currency_pair0 timeframe0). rewrite Hp in Hdb.
  destruct Hdb as (_ & _ & Htot & _). rewrite <- length_outcomes in Htot.
  destruct (Hh _ _ _ Hp) as (Hrec & Hacc & Hrate & _).
  fold l in Htot, Hrec, Hacc, Hrate.
  pose proof (accurate_le_length l) as Hle.
  split; [done|]. split; [rewrite Hrec; apply length_last10|].
  split; [done|]. split; [done|]. split; [lia|].
  rewrite Hacc, Htot. split; [done|]. rewrite Hrate.
  destruct (Z.eq_dec (Z.of_nat (length l)) 0%Z) as [E|E].
  - rewrite E. unfold Qdiv. change (/ inject_Z 0) with 0. lra.
  - assert (Hn : 0 < inject_Z (Z.of_nat (length l)))
      by (change 0 with (inject_Z 0); rewrite <- Zlt_Qlt; lia).
    assert (H0 : 0 <= inject_Z (Extra.accurate l))
      by (change 0 with (inject_Z 0); rewrite <- Zle_Qle; lia).
    assert (H1 : inject_Z (Extra.accurate l)
                 <= inject_Z (Z.of_nat (length l)))
      by (rewrite <- Zle_Qle; lia).
    split; [apply Qle_shift_div_l | apply Qle_shift_div_r]; lra.
Qed.

(** X12.  Under the same condition every stored factor accuracy lies between 0
    and 1. *)
Theorem factor_accuracy_in_unit_interval (us : list Claims.update)
    (currency_pair0 timeframe0 k : string) (p : performance) :
  Extra.well_formed us ->
  ai_performance_metrics (Claims.run us) !! (currency_pair0, timeframe0)
    = Some p ->
  0 <= default 0 (dict_get k (factor_accuracy p)) <= 1.
Proof.
  intros Hus Hp. destruct (run_history us Hus) as [_ Hh].
  destruct (Hh _ _ _ Hp) as (_ & _ & _ & Hfa).
  by apply dict_get_in_unit_interval.
Qed.

Lemma row_records_outcomes_witness :
  exists p,
    ai_performance_metrics (Claims.run Claims.three_updates)
      !! ("EUR/USD", "H1") = Some p /\
    recent_signals p = [true; false] /\ accurate_signals p = 1%Z /\
    accuracy_rate p == 0.5.
Proof.
  assert (H : Extra.well_formed Claims.three_updates).
  { repeat constructor; simpl; lra. }
  destruct (ai_performance_metrics (Claims.run Claims.three_updates)
              !! ("EUR/USD", "H1")) as [p|] eqn:E;
    [|vm_compute in E; discriminate E].
  destruct (row_records_outcomes Claims.three_updates "EUR/USD" "H1" p H E)
    as (Hrec & _ & Htot & Hacc & _ & Hrate & _).
  exists p. split; [reflexivity|]. split; [exact Hrec|]. split; [exact Hacc|].
  rewrite Hrate, Hacc, Htot. reflexivity.
Defined.

Lemma factor_accuracy_in_unit_interval_witness :
  exists p,
    ai_performance_metrics (Claims.run Claims.three_updates)
      !! ("EUR/USD", "H1") = Some p /\
    0 <= default 0 (dict_get "technical" (factor_accuracy p)) <= 1.
Proof.
  assert (H : Extra.well_formed Claims.three_updates).
  { repeat constructor; simpl; lra. }
  destruct (ai_performance_metrics (Claims.run Claims.three_updates)
              !! ("EUR/USD", "H1")) as [p|] eqn:E;
    [|vm_compute in E; discriminate E].
  exists p. split; [reflexivity|].
  exact (factor_accuracy_in_unit_interval Claims.three_updates
           "EUR/USD" "H1" "technical" p H E).
Defined.

Lemma update_factors_error_items (total : Z) (acc : list (string * Q))
    (a b c d : Q) :
  (0 < total)%Z ->
  exists acc',
    update_factors total Extra.error_items acc (Claims.four a b c d)
      = Ret (acc', Claims.four (a * 0.8 + 0 * 0.2) (b * 0.8 + 0 * 0.2)
                     (c * 0.8 + 0 * 0.2) (d * 0.8 + 0 * 0.2)).
Proof.
  intros Ht. unfold Extra.error_items, error_reflection.
  cbn [factors_analysis from_option id update_factors].
  repeat (rewrite truediv_nonzero by (by apply inject_Z_nonzero);
          cbn [rbind]).
  eexists. reflexivity.
Qed.

Lemma dict_get_four_compat (k : string) (a b c d a' b' c' d' : Q) :
  a' == a -> b' == b -> c' == c -> d' == d ->
  default 0 (dict_get k (Claims.four a' b' c' d'))
    == default 0 (dict_get k (Claims.four a b c d)).
Proof.
  intros. unfold Claims.four. cbn [dict_get].
  repeat (destruct (String.eqb _ k); [done|]). reflexivity.
Qed.

(** X13.  When the reasoning call fails, the reflection still counts the signal
    in the bucket of its pair and timeframe, and every factor weight of
    that bucket stays what it was. *)
Theorem failed_reasoning_keeps_weights (us : list Claims.update)
    (db : database) (signal_id : string) (s : AiEngine.signal)
    (o : outcome_data) :
  Claims.db_ok us db -> signals db !! signal_id = Some s ->
  let cp := AiEngine.sg_currency_pair s in
  let tf := AiEngine.sg_timeframe s in
  let db' := fst (reflect_on_signal_outcome db signal_id o None) in
  (exists p', ai_performance_metrics db' !! (cp, tf) = Some p' /\
     total_signals p' = (Claims.count cp tf us + 1)%Z) /\
  forall k, Extra.weight_in db' cp tf k == Extra.weight_in db cp tf k.
Proof.
  intros Hdb Hs cp tf db'.
  set (p := default (new_performance cp tf)
              (ai_performance_metrics db !! (cp, tf))).
  assert (Hp : Claims.bucket_ok cp tf (Claims.count cp tf us) p).
  { unfold p. specialize (Hdb cp tf).
    destruct (ai_performance_metrics db !! (cp, tf)); cbn [from_option id];
      [done|]. rewrite Hdb. apply new_performance_ok. }
  destruct Hp as (Hcp & Htf & Htot & a & b & c & d & Hw & Ha & Hb & Hc & Hd
                  & Hsum).
  assert (Hres : exists p' a' b' c' d',
            ai_performance_metrics db' !! (cp, tf) = Some p' /\
            total_signals p' = (Claims.count cp tf us + 1)%Z /\
            factor_weights p' = Claims.four a' b' c' d' /\
            a' == a /\ b' == b /\ c' == c /\ d' == d).
  { unfold db', reflect_on_signal_outcome. rewrite Hs.
    cbn [fst from_option id]. fold cp tf. fold Extra.error_items.
    unfold _update_performance_metrics. cbn [ai_performance_metrics].
    fold p. unfold updated_performance. rewrite Htot, Hw.
    pose proof (count_nonneg cp tf us) as Hn.
    rewrite truediv_nonzero by (apply inject_Z_nonzero; lia). cbn [rbind].
    destruct (update_factors_error_items (Claims.count cp tf us + 1)
                (factor_accuracy p) a b c d ltac:(lia)) as (acc' & ->).
    cbn [rbind]. unfold Claims.four at 1.
    cbn [values map snd sum fold_left].
    set (t := 0 + _ + _ + _ + _).
    assert (Ht : t == 0.8) by (unfold t; lra).
    rewrite normalize_four by lra. cbn [rbind].
    cbn [currency_pair timeframe ai_performance_metrics]. rewrite Hcp, Htf.
    do 5 eexists. split; [apply lookup_insert_eq|].
    split; [reflexivity|]. split; [reflexivity|].
    repeat split; rewrite Ht; field. }
  destruct Hres as (p' & a' & b' & c' & d' & Hl & Ht' & Hw' & Ea & Eb & Ec
                    & Ed).
  split; [by exists p'|]. intros k. unfold Extra.weight_in.
  rewrite Hl. fold p. cbn [from_option id]. rewrite Hw, Hw'.
  by apply dict_get_four_compat.
Qed.

Lemma failed_reasoning_keeps_weights_witness :
  Extra.weight_in
    (fst (reflect_on_signal_outcome Claims.db_with_sell_signal "sig-1"
            Claims.closed_in_profit None)) "EUR/USD" "H1" "technical"
  == Extra.weight_in Claims.db_with_sell_signal "EUR/USD" "H1" "technical".
Proof.
  assert (H : Claims.db_ok [] Claims.db_with_sell_signal)
    by (intros cp tf; reflexivity).
  exact (proj2 (failed_reasoning_keeps_weights [] Claims.db_with_sell_signal
                  "sig-1" Claims.sell_signal Claims.closed_in_profit H
                  eq_refl) "technical").
Defined.

(** X14.  An update changes the row of its own bucket only, and no signal or
    stored outcome. *)
Theorem update_touches_one_bucket (us : list Claims.update) (db : database)
    (currency_pair0 timeframe0 : string) (ok : bool)
    (items : list (string * factor_analysis)) (cp tf : string) :
  Claims.db_ok us db -> Claims.impacts_in_unit_interval items ->
  (cp, tf) <> (currency_pair0, timeframe0) ->
  let db' := _update_performance_metrics db currency_pair0 timeframe0 ok
               items in
  ai_performance_metrics db' !! (cp, tf)
    = ai_performance_metrics db !! (cp, tf) /\
  signals db' = signals db /\ signal_outcomes db' = signal_outcomes db.
Proof.
  intros Hdb Hitems Hne. unfold _update_performance_metrics.
  set (p := default _ _).
  assert (Hp : Claims.bucket_ok currency_pair0 timeframe0
                 (Claims.count currency_pair0 timeframe0 us) p).
  { unfold p. specialize (Hdb currency_pair0 timeframe0).
    destruct (ai_performance_metrics db !! _); cbn [from_option id];
      [done|]. rewrite Hdb. apply new_performance_ok. }
  destruct (updated_performance_ok p ok items _ _ _ (count_nonneg _ _ _)
              Hp Hitems) as (p' & -> & (Hcp & Htf & _) & _).
  cbn. rewrite Hcp, Htf. split; [|done].
  by rewrite lookup_insert_ne.
Qed.

Lemma update_touches_one_bucket_witness :
  ai_performance_metrics
    (_update_performance_metrics (Claims.run Claims.three_updates)
       "EUR/USD" "H1" true Extra.error_items) !! ("GBP/USD", "D1")
  = ai_performance_metrics (Claims.run Claims.three_updates)
      !! ("GBP/USD", "D1").
Proof.
  assert (H : Forall (fun u =>
                Claims.impacts_in_unit_interval (Claims.u_items u))
                Claims.three_updates).
  { repeat constructor; simpl; lra. }
  refine (proj1 (update_touches_one_bucket Claims.three_updates _
                   "EUR/USD" "H1" true Extra.error_items "GBP/USD" "D1"
                   (run_ok _ H) _ _)).
  - repeat constructor; simpl; lra.
  - discriminate.
Defined.
End ReflectionMore.

(** ** Bounds of the technical scorer *)

Ltac run_block :=
  repeat (cbn beta iota;
          match goal with
          | |- context [match ?x with _ => _ end] =>
              lazymatch x with
              | context [match _ with _ => _ end] => fail
              | _ => destruct x
              end
          end).

Section Bounds.
Import Py Np Technical.
Local Open Scope Q_scope.

Ltac adds_by_cases :=
  intros s;
  unfold bind, at_, lift, append, buy, sell, total, ret;
  run_block;
  cbn [fst buy_signals sell_signals total_signals analysis_factors];
  repeat split; first [lra | lia].

Lemma adds_read {A B} (r : result A) (k : A -> block B)
    (X Y V : Q) (T : Z) :
  (forall a, Extra.adds X Y V T (k a)) -> 0 <= X -> 0 <= Y -> 0 <= V ->
  Extra.adds X Y V T (bind (lift r) k).
Proof.
  intros Hk HX HY HV s. unfold bind, lift. destruct r as [a|e].
  - apply Hk.
  - cbn. repeat split; first [lra | lia].
Qed.

Lemma adds_bind {A B} (X1 Y1 V1 X2 Y2 V2 : Q) (m : block A)
    (k : A -> block B) (X Y V : Q) (T : Z) :
  Extra.adds X1 Y1 V1 0 m -> (forall a, Extra.adds X2 Y2 V2 T (k a)) ->
  0 <= X2 -> 0 <= Y2 -> 0 <= V2 ->
  X1 + X2 <= X -> Y1 + Y2 <= Y -> V1 + V2 <= V ->
  Extra.adds X Y V T (bind m k).
Proof.
  intros Hm Hk HX HY HV HX' HY' HV' s. unfold bind.
  specialize (Hm s). cbn zeta in Hm.
  destruct (m s) as [s1 [a|e]]; cbn [fst] in *.
  - specialize (Hk a s1). cbn zeta in Hk.
    destruct Hm as (? & ? & ? & Ht1), Hk as (? & ? & ? & Ht2).
    repeat split; try lra. lia.
  - destruct Hm as (? & ? & ? & Ht1). repeat split; try lra. lia.
Qed.

Ltac reads := repeat (apply adds_read; [intros ?|lra..]).
Ltac stmt X1 Y1 V1 X2 Y2 V2 :=
  apply (adds_bind X1 Y1 V1 X2 Y2 V2);
  [adds_by_cases | intros _ | lra..].

Lemma trend_adds (df : DataFrame) : Extra.adds 6 6 6 7 (trend_analysis df).
Proof.
  unfold trend_analysis. unfold at_. reads.
  stmt 1 1 1 5 5 5. stmt 1 1 1 4 4 4. stmt 2 2 2 2 2 2. reads.
  stmt 2 2 2 0 0 0. adds_by_cases.
Qed.

Lemma macd_adds (df : DataFrame) : Extra.adds 3 3 3 0 (macd df).
Proof.
  unfold macd. destruct (_ && _); [|adds_by_cases]. unfold at_. reads.
  stmt 2 2 2 1 1 1. adds_by_cases.
Qed.

Lemma rsi_adds (df : DataFrame) : Extra.adds 1 1 1 0 (rsi df).
Proof. unfold rsi, at_. reads. adds_by_cases. Qed.

Lemma stochastic_adds (df : DataFrame) : Extra.adds 2 2 2 0 (stochastic df).
Proof.
  unfold stochastic. destruct (_ && _); [|adds_by_cases]. unfold at_. reads.
  stmt 1 1 1 1 1 1. adds_by_cases.
Qed.

Lemma momentum_adds (df : DataFrame) :
  Extra.adds 6 6 6 8 (momentum_analysis df).
Proof.
  unfold momentum_analysis.
  apply (adds_bind 3 3 3 3 3 3); [apply macd_adds | intros _ | lra..].
  apply (adds_bind 1 1 1 2 2 2); [apply rsi_adds | intros _ | lra..].
  apply (adds_bind 2 2 2 0 0 0); [apply stochastic_adds | intros _ | lra..].
  adds_by_cases.
Qed.

Lemma bollinger_adds (df : DataFrame) : Extra.adds 1 1 1 0 (bollinger df).
Proof.
  unfold bollinger. destruct (_ && _); [|adds_by_cases]. unfold at_. reads.
  cbn zeta. stmt 0 0 0 1 1 1. adds_by_cases.
Qed.

Lemma average_true_range_adds (df : DataFrame) :
  Extra.adds 0 0 0 0 (average_true_range df).
Proof.
  unfold average_true_range. reads. cbn zeta.
  destruct (_ <=? _)%nat; [|adds_by_cases].
  destruct (truthy _); [|adds_by_cases]. reads.
  stmt 0 0 0 0 0 0. adds_by_cases.
Qed.

Lemma volatility_adds (df : DataFrame) :
  Extra.adds 1 1 1 3 (volatility_analysis df).
Proof.
  unfold volatility_analysis.
  apply (adds_bind 1 1 1 0 0 0); [apply bollinger_adds | intros _ | lra..].
  apply (adds_bind 0 0 0 0 0 0);
    [apply average_true_range_adds | intros _ | lra..].
  adds_by_cases.
Qed.

Lemma support_resistance_adds (df : DataFrame) :
  Extra.adds 2 2 3 3 (support_resistance_analysis df).
Proof.
  unfold support_resistance_analysis. cbn zeta. reads. unfold at_. reads.
  stmt 0 1 1 2 1 2. stmt 1 0 1 1 1 1. stmt 1 1 1 0 0 0. adds_by_cases.
Qed.

Lemma adds_try (X Y V : Q) (T : Z) (body : block unit) (s : tally) :
  Extra.adds X Y V T body ->
  let s' := try_except body s in
  buy_signals s <= buy_signals s' <= buy_signals s + X /\
  sell_signals s <= sell_signals s' <= sell_signals s + Y /\
  buy_signals s' + sell_signals s'
    <= buy_signals s + sell_signals s + V /\
  (total_signals s' = total_signals s \/
   total_signals s' = total_signals s + T)%Z.
Proof. intros H. apply H. Qed.

(** X15.  On every frame the BUY votes and the SELL votes lie between 0 and 15,
    both together are at most 16, and the total is between 0 and 21; when
    all four groups completed (total 21) the two scores are not negative
    and sum to at most 16/21. *)
Theorem vote_bounds (df : DataFrame) :
  let s := tally_votes df in
  0 <= buy_signals s <= 15 /\ 0 <= sell_signals s <= 15 /\
  buy_signals s + sell_signals s <= 16 /\
  (0 <= total_signals s <= 21)%Z /\
  (total_signals s = 21%Z ->
   0 <= buy_score s /\ 0 <= sell_score s /\
   buy_score s + sell_score s <= 16 / 21).
Proof.
  cbn zeta. unfold tally_votes.
  fold Extra.no_votes.
  set (s1 := try_except (trend_analysis df) Extra.no_votes).
  set (s2 := try_except (momentum_analysis df) s1).
  set (s3 := try_except (volatility_analysis df) s2).
  set (s4 := try_except (support_resistance_analysis df) s3).
  pose proof (adds_try _ _ _ _ _ Extra.no_votes (trend_adds df))
    as (H1b & H1s & H1v & H1t).
  pose proof (adds_try _ _ _ _ _ s1 (momentum_adds df))
    as (H2b & H2s & H2v & H2t).
  pose proof (adds_try _ _ _ _ _ s2 (volatility_adds df))
    as (H3b & H3s & H3v & H3t).
  pose proof (adds_try _ _ _ _ _ s3 (support_resistance_adds df))
    as (H4b & H4s & H4v & H4t).
  fold s1 in H1b, H1s, H1v, H1t, H2b, H2s, H2v, H2t.
  fold s2 in H2b, H2s, H2v, H2t, H3b, H3s, H3v, H3t.
  fold s3 in H3b, H3s, H3v, H3t, H4b, H4s, H4v, H4t.
  fold s4 in H4b, H4s, H4v, H4t.
  change (buy_signals Extra.no_votes) with 0 in *.
  change (sell_signals Extra.no_votes) with 0 in *.
  change (total_signals Extra.no_votes) with 0%Z in *.
  split; [lra|]. split; [lra|]. split; [lra|]. split; [lia|].
  intros Ht. unfold buy_score, sell_score. rewrite Ht. cbn [Z.ltb Z.compare].
  change (inject_Z 21) with 21.
  assert (Hb : 0 <= buy_signals s4 / 21) by (apply Qle_shift_div_l; lra).
  assert (Hs : 0 <= sell_signals s4 / 21) by (apply Qle_shift_div_l; lra).
  split; [done|]. split; [done|].
  assert (E : buy_signals s4 / 21 + sell_signals s4 / 21
              == (buy_signals s4 + sell_signals s4) / 21) by (field; lra).
  rewrite E. apply Qle_shift_div_r; [lra|].
  assert (E' : 16 / 21 * 21 == 16) by (field; lra). lra.
Qed.

Lemma try_except_raises (body : block unit) (s : tally) (e : exn) :
  body s = (s, Raise e) -> try_except body s = s.
Proof. unfold try_except. by intros ->. Qed.

Lemma at_missing {A} (df : DataFrame) (c : string) (i : Z)
    (k : npfloat -> block A) (s : tally) :
  has_column df c = false ->
  bind (at_ df c i) k s = (s, Raise (KeyError c)).
Proof. intros H. unfold bind, at_, lift, column. by rewrite H. Qed.

Lemma column_missing {A} (df : DataFrame) (c : string)
    (k : list npfloat -> block A) (s : tally) :
  has_column df c = false ->
  bind (lift (column df c)) k s = (s, Raise (KeyError c)).
Proof. intros H. unfold bind, lift, column. by rewrite H. Qed.

(** X16.  Without a "close" column only the momentum group is scored: the trend,
    volatility and support/resistance groups raise before they record a
    factor, cast a vote or add to the total. *)
Theorem without_close_only_momentum (df : DataFrame) :
  has_column df "close" = false ->
  tally_votes df = try_except (momentum_analysis df) Extra.no_votes /\
  (total_signals (tally_votes df) = 0%Z \/
   total_signals (tally_votes df) = 8%Z).
Proof.
  intros H.
  assert (E : tally_votes df
              = try_except (momentum_analysis df) Extra.no_votes).
  { unfold tally_votes. fold Extra.no_votes.
    rewrite (try_except_raises (trend_analysis df) Extra.no_votes
               (KeyError "close"))
      by (unfold trend_analysis; by apply at_missing).
    set (s2 := try_except (momentum_analysis df) Extra.no_votes).
    assert (Hb : forall s, exists r, bollinger df s = (s, r)).
    { intros s. unfold bollinger. destruct (_ && _ && _).
      - rewrite at_missing by done. by eexists.
      - by eexists. }
    assert (Ha : forall s, exists e,
              average_true_range df s = (s, Raise e)).
    { intros s. unfold average_true_range. unfold bind at 1 2, lift at 1 2.
      destruct (column df "high") as [hs|]; [|by eexists].
      destruct (column df "low") as [ls|]; [|by eexists].
      rewrite column_missing by done. by eexists. }
    assert (E3 : try_except (volatility_analysis df) s2 = s2).
    { unfold try_except, volatility_analysis. unfold bind at 1.
      destruct (Hb s2) as [[[]|e] ->]; [|done]. unfold bind at 1.
      by destruct (Ha s2) as [e ->]. }
    rewrite E3. unfold try_except, support_resistance_analysis.
    cbn zeta. unfold bind at 1, lift at 1.
    destruct (swings _ _ _ _ _) as [sw|]; [|done].
    by rewrite at_missing. }
  split; [exact E|]. rewrite E.
  pose proof (adds_try _ _ _ _ _ Extra.no_votes (momentum_adds df))
    as (_ & _ & _ & Ht). exact Ht.
Qed.

Lemma without_close_only_momentum_witness :
  total_signals
    (tally_votes (tail 30 (frame (replicate 50 Claims.rsi_60)))) = 8%Z.
Proof.
  destruct (without_close_only_momentum
              (tail 30 (frame (replicate 50 Claims.rsi_60))) eq_refl)
    as [_ [H|H]]; [vm_compute in H; discriminate H | exact H].
Defined.




Lemma direction_and_confidence_direction (b s : Q) :
  let d := fst (direction_and_confidence b s) in
  let c := snd (direction_and_confidence b s) in
  (d = "BUY" <-> s < b) /\ (d = "SELL" <-> b < s) /\
  (d = "NEUTRAL" <-> b == s) /\
  (c == 1 <-> 0.25 <= Qabs (b - s)).
Proof.
  cbn zeta. unfold direction_and_confidence, Qgtb.
  destruct (Qltb_spec s b) as [H|H]; [|destruct (Qltb_spec b s) as [H'|H']];
    cbn [fst snd].
  - pose proof (Qabs_pos (b - s) ltac:(lra)) as Ea.
    destruct (Qmin_cases 0.5 ((b - s) * 2)) as [[? ->]|[? ->]];
      repeat split; intros; try done; lra.
  - pose proof (Qabs_neg (b - s) ltac:(lra)) as Ea.
    destruct (Qmin_cases 0.5 ((s - b) * 2)) as [[? ->]|[? ->]];
      repeat split; intros; try done; lra.
  - pose proof (Qabs_pos (b - s) ltac:(lra)) as Ea.
    repeat split; intros; try done; lra.
Qed.

(** X18.  With at least 50 periods the direction is BUY exactly when the BUY
    score is the larger, SELL exactly when the SELL score is, and NEUTRAL
    exactly when they are equal; the confidence is 1 exactly when the
    scores differ by 0.25 or more; no error is reported, and the factors
    are those of the four groups followed by the summary. *)
Theorem scored_direction (td : technical_data) (timeframe : string)
    (records : list (gmap string (option Q))) :
  indicators td = Some records -> (50 <= length records)%nat ->
  let s := tally_votes (tail 30 (frame records)) in
  let r := analyze_technical_data td timeframe in
  (direction r = "BUY" <-> sell_score s < buy_score s) /\
  (direction r = "SELL" <-> buy_score s < sell_score s) /\
  (direction r = "NEUTRAL" <-> buy_score s == sell_score s) /\
  (confidence_score r == 1 <->
   0.25 <= Qabs (buy_score s - sell_score s)) /\
  error r = None /\
  factors r = analysis_factors s ++
    [{| name := "signal_summary";
        value := VSummary (buy_signals s) (sell_signals s) (total_signals s)
                   (buy_score s) (sell_score s) |}].
Proof.
  intros Hi Hn. cbn zeta. unfold analyze_technical_data. rewrite Hi.
  cbn [frame rows]. destruct (Nat.ltb_spec (length records) 50); [lia|].
  set (s := tally_votes _). unfold verdict.
  pose proof (direction_and_confidence_direction (buy_score s) (sell_score s))
    as Hd.
  destruct (direction_and_confidence (buy_score s) (sell_score s)) as [d c].
  cbn [fst snd] in Hd. cbn [direction confidence_score error factors].
  destruct Hd as (? & ? & ? & ?). repeat split; tauto.
Qed.

Lemma scored_direction_witness :
  direction (analyze_technical_data Claims.fifty_periods "H1") = "BUY".
Proof.
  destruct (scored_direction Claims.fifty_periods "H1"
              (replicate 50 Claims.rsi_60) eq_refl) as ([_ H] & _).
  - rewrite length_replicate. lia.
  - apply H. apply Qltb_lt. vm_compute. reflexivity.
Defined.
End Bounds.

(** ** The economic calendar *)

Section Calendar.
Import Py EconomicCalendar.
Local Open Scope Q_scope.

(** *** The currency pair *)

Lemma split_slash_length (s : string) :
  length (split_slash s) = S (Extra.slashes s).
Proof.
  induction s as [|c s IH]; [done|].
  cbn [split_slash Extra.slashes].
  destruct (Ascii.eqb c _); cbn [length]; [by rewrite IH|].
  destruct (split_slash s); [done|]. exact IH.
Qed.

Lemma split_slash_join (s : string) :
  Extra.join_slash (split_slash s) = s.
Proof.
  induction s as [|c s IH]; [done|].
  cbn [split_slash].
  pose proof (split_slash_length s) as Hl.
  destruct (Ascii.eqb_spec c slash) as [->|Hc].
  - destruct (split_slash s) as [|p ps]; [done|].
    change (Extra.join_slash (EmptyString :: p :: ps))
      with ("/" +:+ Extra.join_slash (p :: ps)).
    by rewrite IH.
  - destruct (split_slash s) as [|p [|p' ps]]; [done| |].
    + cbn [Extra.join_slash] in *. by rewrite IH.
    + change (Extra.join_slash (String c p :: p' :: ps))
        with (String c (p +:+ "/" +:+ Extra.join_slash (p' :: ps))).
      change (Extra.join_slash (p :: p' :: ps))
        with (p +:+ "/" +:+ Extra.join_slash (p' :: ps)) in IH.
      by rewrite IH.
Qed.

Lemma split_slash_parts (s : string) :
  Forall (fun p => Extra.slashes p = 0%nat) (split_slash s).
Proof.
  induction s as [|c s IH]; [by apply List.Forall_cons|].
  cbn [split_slash].
  destruct (Ascii.eqb c _) eqn:Hc.
  - by apply List.Forall_cons.
  - destruct (split_slash s) as [|p ps].
    + apply List.Forall_cons; [|done]. cbn [Extra.slashes].
      by rewrite Hc.
    + inversion IH as [|? ? Hp Hps]; subst.
      apply List.Forall_cons; [|done]. cbn [Extra.slashes].
      by rewrite Hc.
Qed.

Lemma take_drop_chars (n : nat) (s : string) :
  take_chars n s +:+ drop_chars n s = s.
Proof.
  revert s. induction n as [|n IH]; intros [|c s]; try done.
  change (String c (take_chars n s +:+ drop_chars n s) = String c s).
  f_equal. apply IH.
Qed.

Lemma take_chars_length (n : nat) (s : string) :
  String.length (take_chars n s) = Nat.min n (String.length s).
Proof.
  revert s. induction n as [|n IH]; intros [|c s]; try done.
  cbn [take_chars String.length]. rewrite IH. lia.
Qed.

(** X19.  No string is rejected as a currency pair.  A string with exactly
    one slash is split at it; any other string is split after its third
    character, so the two parts put together give the string back and the
    quote part keeps whatever separator the string used. *)
Theorem currencies_of_any_string (currency_pair : string) :
  let '(base_currency, quote_currency) := currencies currency_pair in
  (Extra.slashes currency_pair = 1%nat ->
     currency_pair = base_currency +:+ "/" +:+ quote_currency /\
     Extra.slashes base_currency = 0%nat /\
     Extra.slashes quote_currency = 0%nat) /\
  (Extra.slashes currency_pair <> 1%nat ->
     currency_pair = base_currency +:+ quote_currency /\
     String.length base_currency
       = Nat.min 3 (String.length currency_pair)).
Proof.
  unfold currencies.
  pose proof (split_slash_length currency_pair) as Hl.
  pose proof (split_slash_join currency_pair) as Hj.
  pose proof (split_slash_parts currency_pair) as Hp.
  destruct (split_slash currency_pair) as [|b [|q [|x l]]];
    cbn [length] in Hl.
  - done.
  - split; [lia|]. intros _.
    by rewrite take_drop_chars, take_chars_length.
  - split; [|lia]. intros _. cbn [Extra.join_slash] in Hj.
    inversion Hp as [|? ? Hb Hq']; subst.
    inversion Hq' as [|? ? Hq _]; subst. done.
  - split; [lia|]. intros _.
    by rewrite take_drop_chars, take_chars_length.
Qed.

(** *** The fallback analysis *)

Lemma score_events_spec (currency_pair base_currency quote_currency : string)
    (l : list event_dict) (factors0 : list factor)
    (base_score quote_score : Q) :
  base_currency <> quote_currency ->
  exists fs,
    score_events currency_pair base_currency quote_currency l factors0
      base_score quote_score
    = (fs,
       fold_left Qplus
         (map Extra.value_of_event
            (List.filter
               (fun e => String.eqb (Extra.currency_of e) base_currency) l))
         base_score,
       fold_left Qplus
         (map Extra.value_of_event
            (List.filter
               (fun e => String.eqb (Extra.currency_of e) quote_currency)
               l))
         quote_score).
Proof.
  intros Hne. revert factors0 base_score quote_score.
  induction l as [|e l IH]; intros f bs qs; [by eexists|].
  cbn [score_events List.filter].
  fold (Extra.currency_of e). fold (Extra.value_of_event e).
  destruct (String.eqb_spec (Extra.currency_of e) base_currency) as [Eb|Eb].
  - destruct (String.eqb_spec (Extra.currency_of e) quote_currency);
      [congruence|].
    cbn [map fold_left]. apply IH.
  - destruct (String.eqb_spec (Extra.currency_of e) quote_currency).
    + cbn [map fold_left]. apply IH.
    + apply IH.
Qed.

Lemma bias_cases (b q : Q) :
  (q + 0.3 < b /\ fst (bias b q) = "BUY" /\
     snd (bias b q) = Qmin 0.7 (0.5 + (b - q) * 0.2)) \/
  (b + 0.3 < q /\ fst (bias b q) = "SELL" /\
     snd (bias b q) = Qmin 0.7 (0.5 + (q - b) * 0.2)) \/
  (b <= q + 0.3 /\ q <= b + 0.3 /\ bias b q = ("NEUTRAL", 0.5)).
Proof.
  unfold bias.
  destruct (Qgtb b (q + 0.3)) eqn:E1.
  - left. apply Qgtb_gt in E1. done.
  - apply Qgtb_le in E1.
    destruct (Qgtb q (b + 0.3)) eqn:E2.
    + right; left. apply Qgtb_gt in E2. done.
    + right; right. apply Qgtb_le in E2. done.
Qed.

(** X20.  For two different currencies the fallback analysis compares
    the summed impact values of the base events and of the quote events:
    BUY exactly when the base sum exceeds the quote sum by more than 0.3,
    SELL in the symmetric case, NEUTRAL otherwise.  Its confidence lies
    in [0.5, 0.7], above 0.56 for BUY and SELL and 0.5 for NEUTRAL. *)
Theorem economic_fallback_weighs_exposure (events0 : list event_dict)
    (currency_pair base_currency quote_currency : string) :
  base_currency <> quote_currency ->
  let r := create_fallback_economic_analysis events0 currency_pair
             base_currency quote_currency in
  let b := Extra.exposure base_currency events0 in
  let q := Extra.exposure quote_currency events0 in
  (direction r = "BUY" <-> q + 0.3 < b) /\
  (direction r = "SELL" <-> b + 0.3 < q) /\
  (direction r = "NEUTRAL" <-> b <= q + 0.3 /\ q <= b + 0.3) /\
  0.5 <= confidence_score r <= 0.7 /\
  (direction r <> "NEUTRAL" -> 0.56 < confidence_score r) /\
  (direction r = "NEUTRAL" -> confidence_score r = 0.5).
Proof.
  intros Hne r b q. subst r. unfold create_fallback_economic_analysis.
  destruct (score_events_spec currency_pair _ _ events0 [] 0 0 Hne)
    as [fs ->].
  fold (Py.sum (map Extra.value_of_event
    (List.filter (fun e => String.eqb (Extra.currency_of e) base_currency)
       events0))).
  fold (Py.sum (map Extra.value_of_event
    (List.filter (fun e => String.eqb (Extra.currency_of e) quote_currency)
       events0))).
  fold (Extra.exposure base_currency events0).
  fold (Extra.exposure quote_currency events0). fold b. fold q.
  destruct (bias_cases b q) as [(H1 & H2 & H3) | [(H1 & H2 & H3) | H]].
  - destruct (bias b q) as [d c]. cbn [fst snd] in *. subst d c.
    cbn [direction confidence_score].
    destruct (Qmin_cases 0.7 (0.5 + (b - q) * 0.2)) as [[Hm ->] | [Hm ->]].
    all: repeat split; try done; try lra.
  - destruct (bias b q) as [d c]. cbn [fst snd] in *. subst d c.
    cbn [direction confidence_score].
    destruct (Qmin_cases 0.7 (0.5 + (q - b) * 0.2)) as [[Hm ->] | [Hm ->]].
    all: repeat split; try done; try lra.
  - destruct H as (H1 & H2 & ->). cbn [direction confidence_score].
    repeat split; try done; try lra.
Qed.

Lemma economic_fallback_weighs_exposure_witness :
  "EUR" <> "USD" /\
  direction (create_fallback_economic_analysis
               (map (fun e => as_dict (formatted 0 0 e)) Extra.week)
               "EUR/USD" "EUR" "USD") = "SELL".
Proof.
  split; [done|].
  apply (economic_fallback_weighs_exposure
           (map (fun e => as_dict (formatted 0 0 e)) Extra.week)
           "EUR/USD" "EUR" "USD"); [done|].
  apply Qlt_alt. vm_compute. reflexivity.
Defined.

(** X21.  Exchanging base and quote currency exchanges BUY and SELL in
    the fallback analysis and leaves its confidence as it was; the text of
    the pair plays no part. *)
Theorem economic_fallback_mirror (events0 : list event_dict)
    (pair1 pair2 base_currency quote_currency : string) :
  base_currency <> quote_currency ->
  let r := create_fallback_economic_analysis events0 pair1
             base_currency quote_currency in
  let r' := create_fallback_economic_analysis events0 pair2
              quote_currency base_currency in
  direction r' = Extra.mirror (direction r) /\
  confidence_score r' = confidence_score r.
Proof.
  intros Hne r r'. subst r r'. unfold create_fallback_economic_analysis.
  destruct (score_events_spec pair1 _ _ events0 [] 0 0 Hne) as [fs ->].
  assert (Hne' : quote_currency <> base_currency) by congruence.
  destruct (score_events_spec pair2 _ _ events0 [] 0 0 Hne') as [fs' ->].
  set (b := fold_left Qplus _ 0). set (q := fold_left Qplus _ 0).
  destruct (bias_cases b q) as [(H1 & H2 & H3) | [(H1 & H2 & H3) | H]];
    destruct (bias_cases q b) as [(K1 & K2 & K3) | [(K1 & K2 & K3) | K]];
    try lra.
  - destruct (bias b q) as [d c], (bias q b) as [d' c'].
    cbn [fst snd direction confidence_score] in *. by subst.
  - destruct (bias b q) as [d c], (bias q b) as [d' c'].
    cbn [fst snd direction confidence_score] in *. by subst.
  - destruct H as (_ & _ & ->), K as (_ & _ & ->). done.
Qed.

Lemma economic_fallback_mirror_witness :
  "EUR" <> "USD" /\
  direction (create_fallback_economic_analysis
               (map (fun e => as_dict (formatted 0 0 e)) Extra.week)
               "USD/EUR" "USD" "EUR")
  = Extra.mirror
      (direction (create_fallback_economic_analysis
                    (map (fun e => as_dict (formatted 0 0 e)) Extra.week)
                    "EUR/USD" "EUR" "USD")).
Proof.
  split; [done|].
  apply (economic_fallback_mirror
           (map (fun e => as_dict (formatted 0 0 e)) Extra.week)
           "EUR/USD" "USD/EUR" "EUR" "USD"). done.
Defined.

Lemma score_events_counted (currency_pair base_currency quote_currency
    : string) (l : list event_dict) (factors0 : list factor)
    (base_score quote_score : Q) :
  score_events currency_pair base_currency quote_currency
    (List.filter (Extra.counted base_currency quote_currency) l)
    factors0 base_score quote_score
  = score_events currency_pair base_currency quote_currency l
      factors0 base_score quote_score.
Proof.
  revert factors0 base_score quote_score.
  induction l as [|e l IH]; intros f bs qs; [done|].
  cbn [List.filter]. unfold Extra.counted at 1.
  cbn [score_events]. fold (Extra.currency_of e).
  destruct (String.eqb (Extra.currency_of e) base_currency) eqn:Eb.
  - cbn [orb score_events]. fold (Extra.currency_of e). rewrite Eb.
    apply IH.
  - destruct (String.eqb (Extra.currency_of e) quote_currency) eqn:Eq.
    + cbn [orb score_events]. fold (Extra.currency_of e). rewrite Eb, Eq.
      apply IH.
    + cbn [orb]. apply IH.
Qed.

(** X22.  Events of a currency that is neither the base nor the quote
    do not influence the fallback analysis: without them direction,
    confidence and factors are the same, and there is one factor for each
    event of the two currencies. *)
Theorem economic_fallback_ignores_other_currencies
    (events0 : list event_dict)
    (currency_pair base_currency quote_currency : string) :
  let r := create_fallback_economic_analysis events0 currency_pair
             base_currency quote_currency in
  let r' := create_fallback_economic_analysis
              (List.filter (Extra.counted base_currency quote_currency)
                 events0)
              currency_pair base_currency quote_currency in
  direction r' = direction r /\
  confidence_score r' = confidence_score r /\
  factors r' = factors r /\
  length (factors r)
    = length (List.filter (Extra.counted base_currency quote_currency)
                events0).
Proof.
  intros r r'. subst r r'. unfold create_fallback_economic_analysis.
  rewrite score_events_counted.
  destruct (score_events _ _ _ events0 [] 0 0) as [[fs b] q] eqn:E.
  destruct (bias b q) as [d c]. cbn [direction confidence_score factors].
  do 3 (split; [done|]).
  assert (G : forall l f bs qs,
    length (fst (fst (score_events currency_pair base_currency
                        quote_currency l f bs qs)))
    = (length f + length (List.filter
         (Extra.counted base_currency quote_currency) l))%nat).
  { clear. induction l as [|e l IH]; intros f bs qs.
    - cbn. lia.
    - cbn [score_events List.filter]. unfold Extra.counted at 1.
      fold (Extra.currency_of e).
      destruct (String.eqb (Extra.currency_of e) base_currency).
      + cbn [orb]. rewrite IH, length_app. cbn [length]. lia.
      + destruct (String.eqb (Extra.currency_of e) quote_currency).
        * cbn [orb]. rewrite IH, length_app. cbn [length]. lia.
        * cbn [orb]. apply IH. }
  specialize (G events0 [] 0 0). rewrite E in G. exact G.
Qed.

(** *** The events that are analysed *)










Lemma keyed_raises (clock : nat -> Q) (k : nat) (l : list event)
    (x : string) :
  keyed clock k l = inl x ->
  exists e, e ∈ l /\ default "LOW" (impact e) = x /\ impact_index x = None.
Proof.
  revert k. induction l as [|e l IH]; intros k H; cbn [keyed] in H;
    [done|].
  destruct (sort_key (clock k) (clock (S k)) e) as [y|key] eqn:Ek.
  - injection H as ->. exists e. split; [apply list_elem_of_here|].
    unfold sort_key in Ek.
    destruct (impact_index (default "LOW" (impact e))) eqn:Ei; [done|].
    injection Ek as <-. done.
  - destruct (keyed clock (S (S k)) l) as [y|kl'] eqn:El; [|done].
    injection H as ->. destruct (IH _ El) as (e' & He & Hx).
    exists e'. split; [by apply list_elem_of_further | done].
Qed.





(** An event without a date is formatted from two readings of the clock,
    and is reported as past as soon as the clock has advanced between
    them. *)
Lemma dateless_event_is_past (t0 t1 : Q) (e : event) :
  date e = None -> t0 < t1 -> fe_is_past (formatted t0 t1 e) = true.
Proof.
  intros Hd Ht. unfold formatted. rewrite Hd.
  cbn [from_option id fe_is_past]. apply Qltb_lt.
  apply Qlt_shift_div_r; lra.
Qed.



(** X24.  When no event is in the base or the quote currency of the
    pair the result is NEUTRAL with confidence 0.0 and no factor or event,
    whatever the reasoning service would have answered. *)
Theorem no_relevant_event_no_bias (clock : nat -> Q)
    (events0 : list event) (currency_pair : string)
    (ai : option economic_analysis) :
  Forall (fun e => relevant (fst (currencies currency_pair))
                     (snd (currencies currency_pair)) e = false) events0 ->
  analyze_economic_events clock events0 currency_pair ai = no_events.
Proof.
  intros H. unfold analyze_economic_events.
  destruct (currencies currency_pair) as [b q]. cbn [fst snd] in *.
  assert (E : List.filter (relevant b q) events0 = []).
  { induction H as [|e l He _ IH]; [done|].
    cbn [List.filter]. by rewrite He. }
  by rewrite E.
Qed.

Lemma no_relevant_event_no_bias_witness :
  analyze_economic_events Extra.ticking [Extra.boj_rate] "EUR/USD" None
    = no_events.
Proof.
  apply (no_relevant_event_no_bias Extra.ticking [Extra.boj_rate]
           "EUR/USD" None).
  apply List.Forall_cons; [reflexivity | apply List.Forall_nil].
Defined.

(** X25.  One event of the pair's currencies whose impact is none of
    LOW, MEDIUM, HIGH makes the whole analysis fail: the result is NEUTRAL
    with confidence 0.0, no event, and the error as its only factor,
    whatever the other events are. *)
Theorem unknown_impact_fails_the_analysis (clock : nat -> Q)
    (events0 : list event) (currency_pair : string)
    (ai : option economic_analysis) (e : event) :
  e ∈ events0 ->
  relevant (fst (currencies currency_pair))
    (snd (currencies currency_pair)) e = true ->
  impact_index (default "LOW" (impact e)) = None ->
  exists x,
    impact_index x = None /\
    analyze_economic_events clock events0 currency_pair ai
    = {| direction := "NEUTRAL"; confidence_score := 0;
         factors := [ErrorFactor x]; events := [] |}.
Proof.
  intros He Hr Hi. unfold analyze_economic_events.
  destruct (currencies currency_pair) as [b q]. cbn [fst snd] in *.
  unfold top_events.
  destruct (keyed clock 0 (List.filter (relevant b q) events0))
    as [x|kl] eqn:Ek.
  - destruct (keyed_raises _ _ _ _ Ek) as (e' & _ & _ & Hx). by exists x.
  - exfalso.
    assert (Hin : e ∈ List.filter (relevant b q) events0).
    { apply list_elem_of_In, filter_In. by rewrite <- list_elem_of_In. }
    assert (G : forall k l kl0, keyed clock k l = inr kl0 ->
              forall e0, e0 ∈ l ->
              impact_index (default "LOW" (impact e0)) <> None).
    { clear. intros k l. revert k.
      induction l as [|e1 l IH]; intros k kl0 H e0 He0;
        [by apply elem_of_nil in He0|].
      cbn [keyed] in H. unfold sort_key in H.
      destruct (impact_index (default "LOW" (impact e1))) eqn:E1;
        [|done].
      destruct (keyed clock (S (S k)) l) as [y|kl'] eqn:El; [done|].
      apply elem_of_cons in He0 as [-> | He0]; [by rewrite E1|].
      by eapply IH. }
    by apply (G _ _ _ Ek e Hin).
Qed.

Lemma unknown_impact_fails_the_analysis_witness :
  exists x,
    impact_index x = None /\
    analyze_economic_events Extra.ticking (Extra.week ++ [Extra.holiday])
      "EUR/USD" None
    = {| direction := "NEUTRAL"; confidence_score := 0;
         factors := [ErrorFactor x]; events := [] |}.
Proof.
  apply (unknown_impact_fails_the_analysis Extra.ticking
           (Extra.week ++ [Extra.holiday]) "EUR/USD" None Extra.holiday).
  - apply list_elem_of_In. simpl. tauto.
  - reflexivity.
  - reflexivity.
Defined.

End Calendar.

(** ** Sentiment and the pipeline *)

Section PipelineProps.
Import Py AiEngine Pipeline.
Local Open Scope Q_scope.

Lemma analyze_sentiment_data_cases (sentiment_data : Sentiment.sentiment)
    (fetched : option Sentiment.sentiment) :
  let r := SentimentIntegration.analyze_sentiment_data sentiment_data
             fetched in
  r = SentimentIntegration.failed \/
  exists s, r = Sentiment.format_sentiment_result s.
Proof.
  unfold SentimentIntegration.analyze_sentiment_data.
  destruct (Sentiment.s_sentiment_score sentiment_data);
    [right; by eexists|].
  destruct fetched; [right; by eexists | by left].
Qed.

(** X26.  Whatever [analyze_sentiment_data] returns, from pre-fetched
    data, from fetched data or after a failure: the direction is bullish,
    bearish or neutral according to the thresholds 0.2 and -0.2 on the
    score; the strength is "strong" exactly when the absolute score
    exceeds 0.6 and the confidence 0.7, and then the direction is not
    neutral; the signal weight is at most 0.7, and for a confidence and a
    news count that are not negative it lies between 0 and the absolute
    score times the confidence. *)
Theorem sentiment_result_is_consistent
    (sentiment_data : Sentiment.sentiment)
    (fetched : option Sentiment.sentiment) :
  let r := SentimentIntegration.analyze_sentiment_data sentiment_data
             fetched in
  let score := Sentiment.sentiment_score r in
  (Sentiment.direction r = "bullish" <-> 0.2 < score) /\
  (Sentiment.direction r = "bearish" <-> score < -0.2) /\
  (Sentiment.direction r = "neutral" <-> -0.2 <= score <= 0.2) /\
  (Sentiment.strength r = "strong" <->
     0.6 < Qabs score /\ 0.7 < Sentiment.confidence r) /\
  (Sentiment.strength r = "strong" -> Sentiment.direction r <> "neutral") /\
  Sentiment.signal_weight r <= 0.7 /\
  (0 <= Sentiment.confidence r -> 0 <= Sentiment.news_count r ->
     0 <= Sentiment.signal_weight r <= Qabs score * Sentiment.confidence r).
Proof.
  intros r score.
  assert (G : forall s, let r := Sentiment.format_sentiment_result s in
    let score := Sentiment.sentiment_score r in
    (Sentiment.direction r = "bullish" <-> 0.2 < score) /\
    (Sentiment.direction r = "bearish" <-> score < -0.2) /\
    (Sentiment.direction r = "neutral" <-> -0.2 <= score <= 0.2) /\
    (Sentiment.strength r = "strong" <->
       0.6 < Qabs score /\ 0.7 < Sentiment.confidence r) /\
    (Sentiment.strength r = "strong" ->
       Sentiment.direction r <> "neutral") /\
    Sentiment.signal_weight r <= 0.7 /\
    (0 <= Sentiment.confidence r -> 0 <= Sentiment.news_count r ->
       0 <= Sentiment.signal_weight r
         <= Qabs score * Sentiment.confidence r)).
  { clear. intros s.
    unfold Sentiment.format_sentiment_result.
    set (x := default 0 (Sentiment.s_sentiment_score s)).
    set (c := default 0 (Sentiment.s_confidence s)).
    set (n := default 0 (Sentiment.s_news_count s)).
    cbn zeta.
    cbn [Sentiment.direction Sentiment.sentiment_score Sentiment.strength
         Sentiment.signal_weight Sentiment.confidence Sentiment.news_count].
    pose proof (Qabs_nonneg x) as Hx.
    assert (Hdir : (0.2 < x -> 0.2 < Qabs x) /\ (x < -0.2 -> 0.2 < Qabs x)
                   /\ (-0.2 <= x <= 0.2 -> Qabs x <= 0.2)).
    { destruct (Qlt_le_dec x 0) as [Hn|Hp].
      - rewrite Qabs_neg by lra. repeat split; lra.
      - rewrite Qabs_pos by lra. repeat split; lra. }
    destruct Hdir as (Hd1 & Hd2 & Hd3).
    unfold Qgtb.
    split; [|split; [|split]].
    - destruct (Qltb_spec 0.2 x); [done|].
      destruct (Qltb_spec x (-0.2)); split; (done || lra).
    - destruct (Qltb_spec 0.2 x); [split; [done | lra]|].
      destruct (Qltb_spec x (-0.2)); split; (done || lra).
    - destruct (Qltb_spec 0.2 x); [split; [done | lra]|].
      destruct (Qltb_spec x (-0.2)); split; (done || lra).
    - assert (Hs : (if Qltb 0.6 (Qabs x) && Qltb 0.7 c then "strong"
                    else if Qltb 0.3 (Qabs x) && Qltb 0.5 c then "moderate"
                    else "weak") = "strong"
                   <-> 0.6 < Qabs x /\ 0.7 < c).
      { destruct (Qltb_spec 0.6 (Qabs x)), (Qltb_spec 0.7 c); cbn [andb];
          try (split; [done | tauto]).
        all: destruct (Qltb 0.3 (Qabs x) && Qltb 0.5 c);
          split; (done || tauto). }
      split; [exact Hs|]. split.
      + intros H. apply Hs in H as [H _].
        destruct (Qltb_spec 0.2 x); [done|].
        destruct (Qltb_spec x (-0.2)); [done|]. lra.
      + split; [apply Qmin_le_l|].
        intros Hc Hn.
        assert (Hf : 0 <= Qmin 1 (n / 10) <= 1).
        { destruct (Qmin_cases 1 (n / 10)) as [[H ->] | [H ->]];
            [|lra]. split; [|lra].
          apply Qle_shift_div_l; lra. }
        set (m := Qmin 1 (n / 10)) in *.
        assert (Hy : 0 <= Qabs x * c) by (apply Qmult_le_0_compat; lra).
        set (y := Qabs x * c) in *.
        assert (Hym : 0 <= y * m) by (apply Qmult_le_0_compat; lra).
        assert (Hym' : 0 <= y * (1 - m))
          by (apply Qmult_le_0_compat; lra).
        assert (Hw : 0 <= y * (0.7 + 0.3 * m) <= y) by (split; lra).
        destruct (Qmin_cases 0.7 (y * (0.7 + 0.3 * m)))
          as [[H ->] | [H ->]]; lra. }
  destruct (analyze_sentiment_data_cases sentiment_data fetched)
    as [E | [s E]]; subst r score; cbn zeta in E; rewrite E.
  - cbn [SentimentIntegration.failed Sentiment.direction
         Sentiment.sentiment_score Sentiment.strength
         Sentiment.signal_weight Sentiment.confidence
         Sentiment.news_count].
    change (Qabs 0) with 0.
    repeat split; intros; try done; try lra.
  - apply G.
Qed.

Lemma sentiment_adapter_direction (sentiment_data : Sentiment.sentiment)
    (fetched : option Sentiment.sentiment) :
  exists d,
    direction (Sentiment.as_analysis
                 (SentimentIntegration.analyze_sentiment_data
                    sentiment_data fetched)) = Some d /\
    d <> "BUY" /\ d <> "SELL" /\ d <> "NEUTRAL".
Proof.
  eexists. split; [reflexivity|].
  destruct (analyze_sentiment_data_cases sentiment_data fetched)
    as [E | [s E]]; cbn zeta in E; rewrite E.
  - done.
  - destruct (format_sentiment_direction s) as [H | [H | H]];
      cbn zeta in H; rewrite H; done.
Qed.

(** X27.  With the reasoning service down, the direction and the
    confidence of the combined decision do not depend on the sentiment
    input: any two sentiment dictionaries, fetched or not, give the same;
    and no sentiment factor reaches the decision. *)
Theorem sentiment_never_moves_the_fallback
    (currency_pair timeframe : string)
    (technical_analysis fundamental_analysis economic_analysis : analysis)
    (data1 data2 : Sentiment.sentiment)
    (fetched1 fetched2 : option Sentiment.sentiment) :
  let decision data fetched :=
    combine_analyses currency_pair timeframe technical_analysis
      fundamental_analysis
      (Sentiment.as_analysis
         (SentimentIntegration.analyze_sentiment_data data fetched))
      economic_analysis None in
  ca_direction (decision data1 fetched1)
    = ca_direction (decision data2 fetched2) /\
  ca_confidence_score (decision data1 fetched1)
    = ca_confidence_score (decision data2 fetched2) /\
  ca_sentiment_factors (decision data1 fetched1) = [].
Proof.
  intros decision. subst decision. cbn beta.
  destruct (sentiment_adapter_direction data1 fetched1)
    as (d1 & H1 & Hb1 & Hs1 & Hn1).
  destruct (sentiment_adapter_direction data2 fetched2)
    as (d2 & H2 & Hb2 & Hs2 & Hn2).
  set (s1 := Sentiment.as_analysis
                (SentimentIntegration.analyze_sentiment_data data1 _)) in *.
  set (s2 := Sentiment.as_analysis
                (SentimentIntegration.analyze_sentiment_data data2 _)) in *.
  unfold combine_analyses, fallback_combine_analyses.
  cbn [ca_direction ca_confidence_score ca_sentiment_factors].
  assert (Hv : combined_value technical_analysis fundamental_analysis
                 s1 economic_analysis
               = combined_value technical_analysis fundamental_analysis
                   s2 economic_analysis).
  { unfold combined_value. rewrite H1, H2. cbn [from_option id].
    by rewrite (direction_value_other d1), (direction_value_other d2). }
  rewrite Hv. split; [done|]. split; [|done].
  unfold confidence_factors.
  by rewrite (agreeing_other s1 d1), (agreeing_other s2 d2).
Qed.

(** X28.  The pipeline attaches its own refusal exactly when the
    combined confidence is below 0.65.  At 0.65 or more a missing current
    price raises [KeyError], also for a NEUTRAL decision; otherwise the
    signal builder is called, which then declines only for the direction
    NEUTRAL (its own confidence test cannot fire) and else builds a
    signal with the direction and confidence of the decision. *)
Theorem pipeline_gate (currency_pair timeframe : string)
    (technical_analysis fundamental_analysis sentiment_analysis
     economic_analysis : analysis) (llm : option combined_analysis)
    (current_price : option price) :
  let c := combine_analyses currency_pair timeframe technical_analysis
             fundamental_analysis sentiment_analysis economic_analysis
             llm in
  let r := analyze_forex_pair currency_pair timeframe technical_analysis
             fundamental_analysis sentiment_analysis economic_analysis
             llm current_price in
  (ca_confidence_score c < 0.65 -> r = Ret (c, BelowThreshold)) /\
  (0.65 <= ca_confidence_score c -> current_price = None ->
     r = Raise (KeyError "current_price")) /\
  (forall c' o, r = Ret (c', o) ->
     c' = c /\
     match o with
     | BelowThreshold => ca_confidence_score c < 0.65
     | Built NoSignal =>
         0.65 <= ca_confidence_score c /\ ca_direction c = "NEUTRAL"
     | Built (Generated s) =>
         0.65 <= ca_confidence_score c /\ ca_direction c <> "NEUTRAL" /\
         sg_direction s = ca_direction c /\
         sg_confidence_score s = ca_confidence_score c
     end).
Proof.
  intros c r. subst r. unfold analyze_forex_pair. fold c.
  unfold Qgeb. destruct (Qle_bool 0.65 (ca_confidence_score c)) eqn:E.
  - apply Qle_bool_iff in E.
    split; [intros; lra|]. split; [by intros _ ->|].
    intros c' o. destruct current_price as [p|]; [|done].
    unfold generate_trading_signal.
    destruct (String.eqb_spec (ca_direction c) "NEUTRAL") as [En|En].
    + cbn [orb rbind]. by intros [= <- <-].
    + cbn [orb]. destruct (Qltb_spec (ca_confidence_score c) 0.65); [lra|].
      set (entry_price := if String.eqb _ _ then _ else _).
      destruct (volatility_unit c entry_price); [|done]. cbn [rbind].
      destruct (risk_reward _ _ _); [|done]. cbn [rbind].
      destruct (ca_technical_factors c); [|done]. cbn [rbind].
      by intros [= <- <-].
  - assert (Hlt : ca_confidence_score c < 0.65).
    { destruct (Qlt_le_dec (ca_confidence_score c) 0.65) as [H|H]; [done|].
      apply Qle_bool_iff in H. congruence. }
    split; [done|]. split; [intros; lra|].
    by intros c' o [= <- <-].
Qed.

(** X29.  With the reasoning service down, a current price at hand and
    technical factors that are dictionaries (or absent), the pipeline
    never raises: it returns the fallback decision with a signal entry. *)
Theorem fallback_pipeline_returns (currency_pair timeframe : string)
    (technical_analysis fundamental_analysis sentiment_analysis
     economic_analysis : analysis) (p : price) :
  forallb Claims.is_dict (default [] (factors technical_analysis)) = true ->
  exists o,
    analyze_forex_pair currency_pair timeframe technical_analysis
      fundamental_analysis sentiment_analysis economic_analysis None
      (Some p)
    = Ret (fallback_combine_analyses currency_pair timeframe
             technical_analysis fundamental_analysis sentiment_analysis
             economic_analysis, o).
Proof.
  intros Hd. unfold analyze_forex_pair, combine_analyses.
  set (c := fallback_combine_analyses _ _ _ _ _ _).
  destruct (Qgeb (ca_confidence_score c) 0.65); [|by eexists].
  unfold generate_trading_signal.
  destruct (_ || _); [cbn [rbind]; by eexists|].
  set (buy := String.eqb (ca_direction c) "BUY").
  set (entry_price := if buy then _ else _).
  assert (Hl : ca_technical_factors c
               = Some (default [] (factors technical_analysis))) by done.
  rewrite (volatility_unit_of_dicts c _ entry_price Hl Hd). cbn [rbind].
  destruct (risk_reward_spec entry_price
              (if buy then entry_price - entry_price * 0.005 * 1.5
               else entry_price + entry_price * 0.005 * 1.5)
              (if buy then entry_price + entry_price * 0.005 * 2.5
               else entry_price - entry_price * 0.005 * 2.5))
    as (r & Hr & _ & _).
  rewrite Hr, Hl. cbn [rbind]. by eexists.
Qed.

Lemma fallback_pipeline_returns_witness :
  exists o,
    analyze_forex_pair "EUR/USD" "H1"
      (Claims.scenario_A Claims.technical)
      (Claims.scenario_A Claims.fundamental)
      (Sentiment.as_analysis
         (SentimentIntegration.analyze_sentiment_data
            Extra.negative_news None))
      (Claims.scenario_A Claims.economic) None (Some Claims.quote_11000)
    = Ret (fallback_combine_analyses "EUR/USD" "H1"
             (Claims.scenario_A Claims.technical)
             (Claims.scenario_A Claims.fundamental)
             (Sentiment.as_analysis
                (SentimentIntegration.analyze_sentiment_data
                   Extra.negative_news None))
             (Claims.scenario_A Claims.economic), o) /\
    o <> BelowThreshold.
Proof.
  destruct (fallback_pipeline_returns "EUR/USD" "H1"
              (Claims.scenario_A Claims.technical)
              (Claims.scenario_A Claims.fundamental)
              (Sentiment.as_analysis
                 (SentimentIntegration.analyze_sentiment_data
                    Extra.negative_news None))
              (Claims.scenario_A Claims.economic) Claims.quote_11000
              eq_refl) as (o & Ho).
  exists o. split; [exact Ho|].
  intros ->. vm_compute in Ho. discriminate Ho.
Defined.

End PipelineProps.

(** ** The two sentiment engines *)

Section Engines.
Import Py SentimentAnalyzer.
Local Open Scope Q_scope.

(** X30.  With both engines in use and confidences that are not
    negative, the combined confidence is the larger of the two and the
    combined score is the confidence-weighted mean of the two scores: it
    lies between them, and is 0 when both confidences are 0. *)
Theorem combined_score_is_a_weighted_mean (finbert : finbert_result)
    (openai : text_sentiment) (openai_score openai_weight : Q) :
  sentiment_score openai = Some openai_score ->
  confidence openai = Some openai_weight ->
  0 <= fb_confidence finbert -> 0 <= openai_weight ->
  exists c score conf,
    analyze_text true true finbert openai = Ret c /\
    sentiment_score c = Some score /\ confidence c = Some conf /\
    fb_confidence finbert <= conf /\ openai_weight <= conf /\
    (conf = fb_confidence finbert \/ conf = openai_weight) /\
    (fb_confidence finbert + openai_weight == 0 -> score = 0) /\
    (0 < fb_confidence finbert + openai_weight ->
       score * (fb_confidence finbert + openai_weight)
         == composite_score finbert * fb_confidence finbert
            + openai_score * openai_weight /\
       (composite_score finbert <= openai_score ->
          composite_score finbert <= score <= openai_score) /\
       (openai_score <= composite_score finbert ->
          openai_score <= score <= composite_score finbert)).
Proof.
  intros Hs Hc Hf Ho. unfold analyze_text. cbn [andb]. rewrite Hs, Hc.
  eexists _, _, _. split; [reflexivity|].
  cbn [sentiment_score confidence]. split; [reflexivity|].
  split; [reflexivity|].
  set (fw := fb_confidence finbert) in *.
  set (fs := composite_score finbert).
  assert (Hmax : fw <= Qmax fw openai_weight /\
                 openai_weight <= Qmax fw openai_weight /\
                 (Qmax fw openai_weight = fw \/
                  Qmax fw openai_weight = openai_weight)).
  { unfold Qmax, Qgtb. destruct (Qltb_spec fw openai_weight).
    - split; [lra|]. split; [lra|]. by right.
    - split; [lra|]. split; [lra|]. by left. }
  destruct Hmax as (H1 & H2 & H3).
  do 3 (split; [done|]).
  unfold Qgtb. destruct (Qltb_spec 0 (fw + openai_weight)) as [Hpos|Hle].
  - split; [intros; lra|]. intros _.
    assert (E : (fs * fw + openai_score * openai_weight)
                / (fw + openai_weight) * (fw + openai_weight)
                == fs * fw + openai_score * openai_weight)
      by (field; lra).
    split; [exact E|].
    set (x := (fs * fw + openai_score * openai_weight)
              / (fw + openai_weight)) in *.
    clearbody x.
    split; intros Hord; split.
    + assert (0 <= (openai_score - fs) * openai_weight)
        by (apply Qmult_le_0_compat; lra).
      destruct (Qlt_le_dec x fs) as [Hlt|]; [|done].
      exfalso.
      assert (0 < (fs - x) * (fw + openai_weight))
        by (apply Qmult_lt_0_compat; lra).
      lra.
    + assert (0 <= (openai_score - fs) * fw)
        by (apply Qmult_le_0_compat; lra).
      destruct (Qlt_le_dec openai_score x) as [Hlt|]; [|done].
      exfalso.
      assert (0 < (x - openai_score) * (fw + openai_weight))
        by (apply Qmult_lt_0_compat; lra).
      lra.
    + assert (0 <= (fs - openai_score) * fw)
        by (apply Qmult_le_0_compat; lra).
      destruct (Qlt_le_dec x openai_score) as [Hlt|]; [|done].
      exfalso.
      assert (0 < (openai_score - x) * (fw + openai_weight))
        by (apply Qmult_lt_0_compat; lra).
      lra.
    + assert (0 <= (fs - openai_score) * openai_weight)
        by (apply Qmult_le_0_compat; lra).
      destruct (Qlt_le_dec fs x) as [Hlt|]; [|done].
      exfalso.
      assert (0 < (x - fs) * (fw + openai_weight))
        by (apply Qmult_lt_0_compat; lra).
      lra.
  - split; [done|]. intros; lra.
Qed.

Lemma combined_score_is_a_weighted_mean_witness :
  exists c score conf,
    analyze_text true true Extra.finbert_positive Extra.openai_negative
      = Ret c /\
    sentiment_score c = Some score /\ confidence c = Some conf /\
    conf = 0.9 /\ -0.2 <= score <= 0.8.
Proof.
  destruct (combined_score_is_a_weighted_mean Extra.finbert_positive
              Extra.openai_negative (-0.2) 0.3 eq_refl eq_refl)
    as (c & score & conf & Hc & Hs & Hf & _ & _ & Hm & _ & Hw).
  - apply Qle_bool_iff. reflexivity.
  - apply Qle_bool_iff. reflexivity.
  - exists c, score, conf. do 3 (split; [done|]).
    split.
    + destruct Hm as [-> | ->]; [reflexivity|].
      vm_compute in Hc. injection Hc as <-. discriminate Hf.
    + apply Hw.
      * apply Qlt_alt. reflexivity.
      * apply Qle_bool_iff. reflexivity.
Defined.

End Engines.
